(** * Inventory engine of the product service (bekbull/online-shop)

    A shallow embedding of
      - [services/product-service/internal/domain]   (package [domain]),
      - [internal/repository/mongodb/product_repository.go] (package [mongodb]),
      - [internal/service/product_service.go]        (package [service]),
      - the gRPC and HTTP handlers in front of the service (packages [grpc]
        and [rest]) with the messages of [product.proto],
    followed by the properties of the stock-adjustment path and of the rest
    of the catalogue.

    Conventions.
      - Go [int] is a 64-bit two's complement integer: values are carried as
        [Z] and every arithmetic expression of the Go source goes through
        [wrap].
      - Go [float64] is [spec_float] (IEEE 754 binary64 with its NaN).
      - A MongoDB collection is the list of its documents; a query returns
        the first document that matches the filter.
      - A [time.Time] is an instant counted in nanoseconds; a document holds
        its times as the driver writes them, to the millisecond.
      - Everything the Go code cannot control (the clock, fresh object ids,
        the failure of a driver call) is read from an explicit [Env]. *)

From Stdlib Require Import ZArith NArith String Ascii List Bool Lia.
From Stdlib Require Import SpecFloat.
From stdpp Require Import gmap strings.

Import ListNotations.
Local Open Scope string_scope.
Local Open Scope Z_scope.

(** ** Go machine integers *)

Module GoInt.

Definition min_int : Z := - 2 ^ 63.
Definition max_int : Z := 2 ^ 63 - 1.

Definition in_range (z : Z) : Prop := min_int <= z <= max_int.
Definition in_rangeb (z : Z) : bool := (min_int <=? z) && (z <=? max_int).

(** Two's complement wrap-around of a mathematical result. *)
Definition wrap (z : Z) : Z := (z + 2 ^ 63) mod 2 ^ 64 - 2 ^ 63.

Definition sub (a b : Z) : Z := wrap (a - b).
Definition neg (a : Z) : Z := wrap (- a).

End GoInt.

(** ** Errors *)

Inductive error : Type :=
| ErrNoDocuments                                  (* mongo.ErrNoDocuments *)
| ErrInvalidHex                                   (* primitive.ErrInvalidHex *)
| ErrDuplicateKey                                 (* server error E11000 *)
| ErrDriver (msg : string)                        (* any other driver or server failure *)
| errors_New (msg : string)                       (* errors.New(msg) *)
| fmt_Errorf (prefix : string) (cause : error).   (* fmt.Errorf(prefix + ": %w", cause) *)

Inductive result (A : Type) : Type :=
| Ok (a : A)
| Err (e : error).
Arguments Ok {A} a.
Arguments Err {A} e.

(** ** bson/primitive: object ids *)

Module primitive.

(** The twelve bytes of an ObjectID, read as one big-endian number. *)
Definition ObjectID : Type := N.

Definition IsZero (id : ObjectID) : bool := N.eqb id 0.

Definition hex_val (c : ascii) : option N :=
  let n := N_of_ascii c in
  if (48 <=? n)%N && (n <=? 57)%N then Some (n - 48)%N
  else if (97 <=? n)%N && (n <=? 102)%N then Some (n - 87)%N
  else if (65 <=? n)%N && (n <=? 70)%N then Some (n - 55)%N
  else None.

Fixpoint hex_decode (s : string) (acc : N) : option N :=
  match s with
  | EmptyString => Some acc
  | String c rest =>
      match hex_val c with
      | Some d => hex_decode rest (16 * acc + d)%N
      | None => None
      end
  end.

Definition ObjectIDFromHex (s : string) : result ObjectID :=
  if Nat.eqb (String.length s) 24 then
    match hex_decode s 0%N with
    | Some id => Ok id
    | None => Err (errors_New "encoding/hex: invalid byte")
    end
  else Err ErrInvalidHex.

Definition hex_digit (d : N) : ascii :=
  if (d <? 10)%N then ascii_of_N (48 + d) else ascii_of_N (87 + d).

Fixpoint hex_encode (digits : nat) (n : N) (acc : string) : string :=
  match digits with
  | O => acc
  | S k => hex_encode k (n / 16)%N (String (hex_digit (n mod 16)%N) acc)
  end.

Definition Hex (id : ObjectID) : string := hex_encode 24 id EmptyString.

End primitive.

(** ** Package domain *)

Module domain.

(** An instant, counted in nanoseconds from the zero time (January 1, year 1,
    00:00:00 UTC). *)
Definition Time : Type := Z.
Definition Time_IsZero (t : Time) : bool := Z.eqb t 0.

Definition float64 : Type := spec_float.
Definition float_zero : float64 := S754_zero false.

Record InventoryInfo : Type := mkInventoryInfo {
  Quantity : Z;
  SKU : string;
  InStock : bool;
  Reserved : Z
}.

Record Product : Type := mkProduct {
  ID : primitive.ObjectID;
  Name : string;
  Description : string;
  Price : float64;
  ImageURLs : list string;
  Category : string;
  Inventory : InventoryInfo;
  Tags : list string;
  Attributes : gmap string string;
  Active : bool;
  CreatedAt : Time;
  UpdatedAt : Time
}.

Record InventoryOperation : Type := mkInventoryOperation {
  ProductID : string;
  QuantityChange : Z;
  OperationID : string;
  OperationType : string;
  Timestamp : Time
}.

(** Field assignments of the Go code. *)
Definition with_Quantity (q : Z) (i : InventoryInfo) : InventoryInfo :=
  mkInventoryInfo q (SKU i) (InStock i) (Reserved i).
Definition with_SKU (k : string) (i : InventoryInfo) : InventoryInfo :=
  mkInventoryInfo (Quantity i) k (InStock i) (Reserved i).
Definition with_InStock (b : bool) (i : InventoryInfo) : InventoryInfo :=
  mkInventoryInfo (Quantity i) (SKU i) b (Reserved i).

Definition with_ID (x : primitive.ObjectID) (p : Product) : Product :=
  mkProduct x (Name p) (Description p) (Price p) (ImageURLs p) (Category p)
    (Inventory p) (Tags p) (Attributes p) (Active p) (CreatedAt p) (UpdatedAt p).
Definition with_Name (x : string) (p : Product) : Product :=
  mkProduct (ID p) x (Description p) (Price p) (ImageURLs p) (Category p)
    (Inventory p) (Tags p) (Attributes p) (Active p) (CreatedAt p) (UpdatedAt p).
Definition with_Description (x : string) (p : Product) : Product :=
  mkProduct (ID p) (Name p) x (Price p) (ImageURLs p) (Category p)
    (Inventory p) (Tags p) (Attributes p) (Active p) (CreatedAt p) (UpdatedAt p).
Definition with_Price (x : float64) (p : Product) : Product :=
  mkProduct (ID p) (Name p) (Description p) x (ImageURLs p) (Category p)
    (Inventory p) (Tags p) (Attributes p) (Active p) (CreatedAt p) (UpdatedAt p).
Definition with_ImageURLs (x : list string) (p : Product) : Product :=
  mkProduct (ID p) (Name p) (Description p) (Price p) x (Category p)
    (Inventory p) (Tags p) (Attributes p) (Active p) (CreatedAt p) (UpdatedAt p).
Definition with_Category (x : string) (p : Product) : Product :=
  mkProduct (ID p) (Name p) (Description p) (Price p) (ImageURLs p) x
    (Inventory p) (Tags p) (Attributes p) (Active p) (CreatedAt p) (UpdatedAt p).
Definition with_Inventory (x : InventoryInfo) (p : Product) : Product :=
  mkProduct (ID p) (Name p) (Description p) (Price p) (ImageURLs p) (Category p)
    x (Tags p) (Attributes p) (Active p) (CreatedAt p) (UpdatedAt p).
Definition with_Tags (x : list string) (p : Product) : Product :=
  mkProduct (ID p) (Name p) (Description p) (Price p) (ImageURLs p) (Category p)
    (Inventory p) x (Attributes p) (Active p) (CreatedAt p) (UpdatedAt p).
Definition with_Attributes (x : gmap string string) (p : Product) : Product :=
  mkProduct (ID p) (Name p) (Description p) (Price p) (ImageURLs p) (Category p)
    (Inventory p) (Tags p) x (Active p) (CreatedAt p) (UpdatedAt p).
Definition with_Active (x : bool) (p : Product) : Product :=
  mkProduct (ID p) (Name p) (Description p) (Price p) (ImageURLs p) (Category p)
    (Inventory p) (Tags p) (Attributes p) x (CreatedAt p) (UpdatedAt p).
Definition with_CreatedAt (x : Time) (p : Product) : Product :=
  mkProduct (ID p) (Name p) (Description p) (Price p) (ImageURLs p) (Category p)
    (Inventory p) (Tags p) (Attributes p) (Active p) x (UpdatedAt p).
Definition with_UpdatedAt (x : Time) (p : Product) : Product :=
  mkProduct (ID p) (Name p) (Description p) (Price p) (ImageURLs p) (Category p)
    (Inventory p) (Tags p) (Attributes p) (Active p) (CreatedAt p) x.

End domain.
Import domain.

(** ** Documents as the driver writes them *)

(** The driver writes a [time.Time] as a BSON datetime, a count of
    milliseconds, and reads it back as the instant of that count: the
    nanoseconds below the millisecond are lost.  (The Unix epoch is a whole
    number of seconds after the zero time, and the count of every clock
    reading fits its 64 bits.) *)
Definition bson_datetime (t : Time) : Time := t / 1000000 * 1000000.

(** A product document as it is read back after the driver wrote it. *)
Definition bson_Product (p : Product) : Product :=
  with_UpdatedAt (bson_datetime (UpdatedAt p))
    (with_CreatedAt (bson_datetime (CreatedAt p)) p).

(** A ledger document as it is read back after the driver wrote it. *)
Definition bson_InventoryOperation (o : InventoryOperation) : InventoryOperation :=
  mkInventoryOperation (ProductID o) (QuantityChange o) (OperationID o)
    (OperationType o) (bson_datetime (Timestamp o)).

(** ** The environment of one call *)

(** The driver calls of the repository, in source order. *)
Inductive DriverOp : Type :=
| OpInsertProduct            (* Create: collection.InsertOne *)
| OpGetByIDFind              (* GetByID: collection.FindOne *)
| OpReplaceProduct           (* Update: collection.ReplaceOne *)
| OpStartSession             (* UpdateInventory: client.StartSession *)
| OpStartTransaction         (* UpdateInventory: session.StartTransaction *)
| OpFindOperation            (* UpdateInventory: opCollection.FindOne *)
| OpFindProduct              (* UpdateInventory: collection.FindOne (replay path) *)
| OpInsertOperation          (* UpdateInventory: opCollection.InsertOne *)
| OpFindOneAndUpdate         (* UpdateInventory: collection.FindOneAndUpdate *)
| OpUpdateInStock            (* UpdateInventory: collection.UpdateOne *)
| OpCommitTransaction        (* UpdateInventory: session.CommitTransaction *)
| OpCheckStockFind.          (* CheckStock: collection.FindOne *)

Record Env : Type := mkEnv {
  now : Time;                              (* time.Now() *)
  newObjectID : primitive.ObjectID;        (* primitive.NewObjectID() *)
  fault : DriverOp -> option error         (* the error a driver call fails with *)
}.

Definition no_fault : DriverOp -> option error := fun _ => None.

(** ** Listing parameters, query documents and find options *)

(** [domain.ListProductsParams]. *)
Module list_params.

Record ListProductsParams : Type := mkListProductsParams {
  Page : Z;
  PageSize : Z;
  Category : string;
  Tags : list string;
  MinPrice : float64;
  MaxPrice : float64;
  InStockOnly : bool;
  SortBy : string;
  SortDesc : bool;
  SearchTerm : string
}.

Definition with_Page (x : Z) (p : ListProductsParams) : ListProductsParams :=
  mkListProductsParams x (PageSize p) (Category p) (Tags p) (MinPrice p) (MaxPrice p)
    (InStockOnly p) (SortBy p) (SortDesc p) (SearchTerm p).
Definition with_PageSize (x : Z) (p : ListProductsParams) : ListProductsParams :=
  mkListProductsParams (Page p) x (Category p) (Tags p) (MinPrice p) (MaxPrice p)
    (InStockOnly p) (SortBy p) (SortDesc p) (SearchTerm p).

End list_params.

(** The values [List] puts into a [bson.M]. *)
Module bson.

#[local] Set Warnings "-register-all".

#[local] Unset Elimination Schemes.
Inductive Value : Type :=
| String (s : string)
| Boolean (b : bool)
| Double (f : float64)
| Strings (l : list string)
| Document (m : gmap string Value).
#[local] Set Elimination Schemes.

End bson.

(** [options.FindOptions], as far as [List] sets it. *)
Record FindOptions : Type := mkFindOptions {
  Limit : option Z;
  Skip : option Z;
  Sort : string * Z          (* bson.D{{Key, Value}} *)
}.

(** The driver calls of [Delete] and [List]. *)
Inductive CatalogOp : Type :=
| OpDeleteOne                (* Delete: collection.DeleteOne *)
| OpCountDocuments           (* List: collection.CountDocuments *)
| OpFind                     (* List: collection.Find *)
| OpCursorAll.               (* List: cursor.All *)

(** What [Delete] and [List] rely on without controlling it: the failure of a
    driver call, the server's text search and the server's sort. *)
Record Server : Type := mkServer {
  server_fault : CatalogOp -> option error;
  text_match : string -> Product -> bool;                 (* {"$text": {"$search": term}} *)
  sort_documents : string -> Z -> list Product -> list Product   (* sort key, direction *)
}.

(** ** Package mongodb: the repository *)

Module mongodb.

(** The database: the [products] collection and the [inventory_operations]
    collection (the operation ledger). *)
Record Store : Type := mkStore {
  products : list Product;
  inventory_operations : list InventoryOperation
}.

(** *** Collections *)

(** First document matching [{"_id": objID}]. *)
Definition find_product (objID : primitive.ObjectID) (c : list Product) : option Product :=
  List.find (fun p => N.eqb (ID p) objID) c.

(** First document matching [{"operation_id": operationID}]. *)
Definition find_operation (operationID : string) (c : list InventoryOperation)
  : option InventoryOperation :=
  List.find (fun o => String.eqb (OperationID o) operationID) c.

(** Apply an update to the first document matching [{"_id": objID}]. *)
Fixpoint update_product (objID : primitive.ObjectID) (f : Product -> Product)
    (c : list Product) : list Product :=
  match c with
  | [] => []
  | p :: rest =>
      if N.eqb (ID p) objID then f p :: rest
      else p :: update_product objID f rest
  end.

Definition set_products (c : list Product) (s : Store) : Store :=
  mkStore c (inventory_operations s).
Definition set_inventory_operations (c : list InventoryOperation) (s : Store) : Store :=
  mkStore (products s) c.

(** *** Transactions: state passing with failure *)

Definition Tx (A : Type) : Type := Store -> result (A * Store).

Definition tx_ret {A} (a : A) : Tx A := fun s => Ok (a, s).
Definition tx_bind {A B} (m : Tx A) (k : A -> Tx B) : Tx B :=
  fun s => match m s with
           | Ok (a, s') => k a s'
           | Err e => Err e
           end.

Notation "x <- m ;; k" := (tx_bind m (fun x => k))
  (at level 100, m at next level, right associativity).

(** A driver call that only succeeds or fails. *)
Definition driver (env : Env) (op : DriverOp) : Tx unit :=
  fun s => match fault env op with
           | Some e => Err e
           | None => Ok (tt, s)
           end.

(** [collection.FindOne(ctx, {"_id": objID}).Decode(&product)]; the error is
    handed to the caller as a value. *)
Definition FindOne_product (env : Env) (op : DriverOp) (objID : primitive.ObjectID)
    (s : Store) : result Product :=
  match fault env op with
  | Some e => Err e
  | None =>
      match find_product objID (products s) with
      | Some p => Ok p
      | None => Err ErrNoDocuments
      end
  end.

(** [opCollection.FindOne(sc, {"operation_id": operationID}).Decode(&existingOp)]. *)
Definition FindOne_operation (env : Env) (operationID : string) (s : Store)
    : result InventoryOperation :=
  match fault env OpFindOperation with
  | Some e => Err e
  | None =>
      match find_operation operationID (inventory_operations s) with
      | Some o => Ok o
      | None => Err ErrNoDocuments
      end
  end.

(** [opCollection.InsertOne(sc, op)]: the repository declares no index on this
    collection, so the list insert itself never rejects a document; a
    rejection by the server (a unique index created outside the repository,
    a write conflict) arrives as the fault of this driver call. *)
Definition InsertOne_operation (env : Env) (op : InventoryOperation) : Tx unit :=
  fun s => match fault env OpInsertOperation with
           | Some e => Err e
           | None =>
               Ok (tt, set_inventory_operations
                         (inventory_operations s ++ [bson_InventoryOperation op]) s)
           end.

(** [collection.FindOneAndUpdate] with [$inc inventory.quantity] and
    [$set updated_at], returning the document after the update.  The server
    rejects an [$inc] whose result leaves the 64-bit range. *)
Definition FindOneAndUpdate_inc (env : Env) (objID : primitive.ObjectID)
    (quantityChange : Z) : Tx Product :=
  fun s =>
    match fault env OpFindOneAndUpdate with
    | Some e => Err e
    | None =>
        match find_product objID (products s) with
        | None => Err ErrNoDocuments
        | Some p =>
            let q := Quantity (Inventory p) + quantityChange in
            if GoInt.in_rangeb q then
              let p' := with_UpdatedAt (bson_datetime (now env))
                          (with_Inventory (with_Quantity q (Inventory p)) p) in
              Ok (p', set_products (update_product objID (fun _ => p') (products s)) s)
            else Err (ErrDriver "Failed to apply $inc operations to current value")
        end
    end.

(** [collection.UpdateOne] with [$set inventory.in_stock]. *)
Definition UpdateOne_in_stock (env : Env) (objID : primitive.ObjectID)
    (inStock : bool) : Tx unit :=
  fun s =>
    match fault env OpUpdateInStock with
    | Some e => Err e
    | None =>
        Ok (tt, set_products
                  (update_product objID
                     (fun p => with_Inventory (with_InStock inStock (Inventory p)) p)
                     (products s)) s)
    end.

(** *** Create *)

Definition Create (env : Env) (product : Product) (s : Store)
    : Store * Product * result unit :=
  let product :=
    if primitive.IsZero (ID product) then with_ID (newObjectID env) product
    else product in
  let product :=
    if Time_IsZero (CreatedAt product) then with_CreatedAt (now env) product
    else product in
  let product := with_UpdatedAt (now env) product in
  let product :=
    with_Inventory
      (with_InStock (0 <? Quantity (Inventory product)) (Inventory product)) product in
  match fault env OpInsertProduct with
  | Some e => (s, product, Err e)
  | None =>
      match find_product (ID product) (products s) with
      | Some _ => (s, product, Err ErrDuplicateKey)   (* the unique index on _id *)
      | None => (set_products (products s ++ [bson_Product product]) s, product, Ok tt)
      end
  end.

(** *** GetByID *)

Definition GetByID (env : Env) (id : string) (s : Store) : result Product :=
  match primitive.ObjectIDFromHex id with
  | Err e => Err e
  | Ok objID =>
      match FindOne_product env OpGetByIDFind objID s with
      | Ok product => Ok product
      | Err ErrNoDocuments => Err (errors_New "product not found")
      | Err e => Err e
      end
  end.

(** *** Update *)

Definition Update (env : Env) (product : Product) (s : Store)
    : Store * Product * result unit :=
  let product := with_UpdatedAt (now env) product in
  let product :=
    with_Inventory
      (with_InStock (0 <? Quantity (Inventory product)) (Inventory product)) product in
  match fault env OpReplaceProduct with
  | Some e => (s, product, Err e)
  | None =>
      (set_products
         (update_product (ID product) (fun _ => bson_Product product) (products s)) s,
       product, Ok tt)
  end.

(** *** UpdateInventory *)

(** How the transaction callback ended when it returned [nil]. *)
Inductive Outcome : Type :=
| Committed (updatedInventory : InventoryInfo)   (* after CommitTransaction *)
| Returned (updatedInventory : InventoryInfo).   (* [return nil] with the transaction open *)

(** The idempotency block of the callback: [Some inventory] when the
    operation was already processed (the callback then returns it), [None]
    when the callback goes on to the update. *)
Definition check_duplicate_operation (env : Env) (objID : primitive.ObjectID)
    (productID : string) (quantityChange : Z) (operationID operationType : string)
    : Tx (option InventoryInfo) :=
  (* check for duplicate operation if operationID is provided *)
  if negb (String.eqb operationID "") then
    fun s =>
      match FindOne_operation env operationID s with
      | Ok _existingOp =>
          (* operation already processed: fetch current inventory and return *)
          match FindOne_product env OpFindProduct objID s with
          | Ok product => Ok (Some (Inventory product), s)
          | Err e => Err e
          end
      | Err ErrNoDocuments =>
          (* record the operation *)
          (_ <- InsertOne_operation env
                  (mkInventoryOperation productID quantityChange operationID
                     operationType (now env)) ;;
           tx_ret None) s
      | Err e => Err e   (* unexpected error *)
      end
  else tx_ret None.

(** The rest of the callback: the increment, the in_stock status and the
    commit. *)
Definition update_product_inventory (env : Env) (objID : primitive.ObjectID)
    (quantityChange : Z) : Tx Outcome :=
  (* execute update and get the updated document *)
  product <- FindOneAndUpdate_inc env objID quantityChange ;;
  (* update the in_stock status based on the new quantity *)
  let inStock := 0 <? Quantity (Inventory product) in
  product <-
    (if negb (Bool.eqb inStock (InStock (Inventory product))) then
       _ <- UpdateOne_in_stock env objID inStock ;;
       tx_ret (with_Inventory (with_InStock inStock (Inventory product)) product)
     else tx_ret product) ;;
  (* commit the transaction *)
  _ <- driver env OpCommitTransaction ;;
  tx_ret (Committed (Inventory product)).

Definition UpdateInventory_txn (env : Env) (objID : primitive.ObjectID)
    (productID : string) (quantityChange : Z) (operationID operationType : string)
    : Tx Outcome :=
  _ <- driver env OpStartTransaction ;;
  replay <- check_duplicate_operation env objID productID quantityChange
              operationID operationType ;;
  match replay with
  | Some inventory => tx_ret (Returned inventory)
  | None => update_product_inventory env objID quantityChange
  end.

(** The writes of the callback reach the store only through
    [CommitTransaction]; [session.EndSession] aborts a transaction that is
    still open. *)
Definition UpdateInventory (env : Env) (productID : string) (quantityChange : Z)
    (operationID operationType : string) (s : Store) : Store * result InventoryInfo :=
  match primitive.ObjectIDFromHex productID with
  | Err e => (s, Err e)
  | Ok objID =>
      match fault env OpStartSession with
      | Some e => (s, Err e)
      | None =>
          match UpdateInventory_txn env objID productID quantityChange
                  operationID operationType s with
          | Ok (Committed updatedInventory, s') => (s', Ok updatedInventory)
          | Ok (Returned updatedInventory, _) => (s, Ok updatedInventory)
          | Err e => (s, Err e)
          end
      end
  end.

(** *** CheckStock *)

Definition CheckStock (env : Env) (productID : string) (quantity : Z) (s : Store)
    : result (bool * Z) :=
  match primitive.ObjectIDFromHex productID with
  | Err e => Err e
  | Ok objID =>
      match FindOne_product env OpCheckStockFind objID s with
      | Ok product =>
          (* available quantity is (total - reserved) *)
          let availableQuantity :=
            GoInt.sub (Quantity (Inventory product)) (Reserved (Inventory product)) in
          Ok (availableQuantity >=? quantity, availableQuantity)
      | Err ErrNoDocuments => Err (errors_New "product not found")
      | Err e => Err e
      end
  end.

(** *** Delete *)

(** Remove the first document matching [{"_id": objID}]. *)
Fixpoint delete_product (objID : primitive.ObjectID) (c : list Product) : list Product :=
  match c with
  | [] => []
  | p :: rest =>
      if N.eqb (ID p) objID then rest
      else p :: delete_product objID rest
  end.

Definition Delete (srv : Server) (id : string) (s : Store) : Store * result unit :=
  match primitive.ObjectIDFromHex id with
  | Err e => (s, Err e)
  | Ok objID =>
      match server_fault srv OpDeleteOne with
      | Some e => (s, Err e)
      | None =>
          match find_product objID (products s) with
          | None => (s, Err (errors_New "product not found"))   (* DeletedCount == 0 *)
          | Some _ => (set_products (delete_product objID (products s)) s, Ok tt)
          end
      end
  end.

(** *** List *)

(** The filter document [List] builds. *)
Definition list_filter (params : list_params.ListProductsParams)
    : gmap string bson.Value :=
  let filter : gmap string bson.Value := ∅ in
  (* add category filter if provided *)
  let filter :=
    if negb (String.eqb (list_params.Category params) "")
    then <["category" := bson.String (list_params.Category params)]> filter
    else filter in
  (* add tags filter if provided *)
  let filter :=
    if Nat.ltb 0 (List.length (list_params.Tags params))
    then <["tags" := bson.Document
                       (<["$all" := bson.Strings (list_params.Tags params)]> ∅)]> filter
    else filter in
  (* add price range filter if provided *)
  let filter :=
    if SFltb float_zero (list_params.MinPrice params)
       || SFltb float_zero (list_params.MaxPrice params)
    then
      let priceFilter : gmap string bson.Value := ∅ in
      let priceFilter :=
        if SFltb float_zero (list_params.MinPrice params)
        then <["$gte" := bson.Double (list_params.MinPrice params)]> priceFilter
        else priceFilter in
      let priceFilter :=
        if SFltb float_zero (list_params.MaxPrice params)
        then <["$lte" := bson.Double (list_params.MaxPrice params)]> priceFilter
        else priceFilter in
      <["price" := bson.Document priceFilter]> filter
    else filter in
  (* add in-stock filter if requested *)
  let filter :=
    if list_params.InStockOnly params
    then <["inventory.in_stock" := bson.Boolean true]> filter
    else filter in
  (* add text search if provided *)
  if negb (String.eqb (list_params.SearchTerm params) "")
  then <["$text" := bson.Document
                      (<["$search" := bson.String (list_params.SearchTerm params)]> ∅)]>
         filter
  else filter.

(** The find options [List] builds: pagination and sorting. *)
Definition list_options (params : list_params.ListProductsParams) : FindOptions :=
  let limit_skip :=
    if 0 <? list_params.PageSize params
    then (Some (list_params.PageSize params),
          Some (GoInt.wrap (list_params.Page params * list_params.PageSize params)))
    else (None, None) in
  let sort :=
    if negb (String.eqb (list_params.SortBy params) "")
    then (list_params.SortBy params, if list_params.SortDesc params then -1 else 1)
    else ("created_at", -1) in   (* default sort by creation date descending *)
  mkFindOptions (fst limit_skip) (snd limit_skip) sort.

(** How the server reads the filter keys [List] can set. *)
Definition document_matches (srv : Server) (filter : gmap string bson.Value)
    (p : Product) : bool :=
  (match filter !! "category" with
   | None => true
   | Some (bson.String c) => String.eqb (Category p) c
   | Some _ => false
   end)
  && (match filter !! "tags" with
      | None => true
      | Some (bson.Document d) =>
          match d !! "$all" with
          | Some (bson.Strings ts) =>
              forallb (fun t => existsb (String.eqb t) (Tags p)) ts
          | _ => false
          end
      | Some _ => false
      end)
  && (match filter !! "price" with
      | None => true
      | Some (bson.Document d) =>
          (match d !! "$gte" with
           | None => true
           | Some (bson.Double lo) => SFleb lo (Price p)
           | Some _ => false
           end)
          && (match d !! "$lte" with
              | None => true
              | Some (bson.Double hi) => SFleb (Price p) hi
              | Some _ => false
              end)
      | Some _ => false
      end)
  && (match filter !! "inventory.in_stock" with
      | None => true
      | Some (bson.Boolean b) => Bool.eqb (InStock (Inventory p)) b
      | Some _ => false
      end)
  && (match filter !! "$text" with
      | None => true
      | Some (bson.Document d) =>
          match d !! "$search" with
          | Some (bson.String term) => text_match srv term p
          | _ => false
          end
      | Some _ => false
      end).

(** [collection.CountDocuments(ctx, filter)]. *)
Definition CountDocuments (srv : Server) (filter : gmap string bson.Value) (s : Store)
    : result Z :=
  match server_fault srv OpCountDocuments with
  | Some e => Err e
  | None => Ok (Z.of_nat (List.length (List.filter (document_matches srv filter) (products s))))
  end.

(** [collection.Find(ctx, filter, findOptions)] followed by [cursor.All]: the
    matching documents, sorted, without the first [Skip] and cut at [Limit].
    The server refuses a negative skip; a limit of zero is no limit and a
    negative limit is its absolute value. *)
Definition Find (srv : Server) (filter : gmap string bson.Value) (opts : FindOptions)
    (s : Store) : result (list Product) :=
  match server_fault srv OpFind with
  | Some e => Err e
  | None =>
      let matching := List.filter (document_matches srv filter) (products s) in
      let sorted := sort_documents srv (fst (Sort opts)) (snd (Sort opts)) matching in
      match Skip opts with
      | Some k =>
          if k <? 0 then Err (ErrDriver "skip value must be non-negative")
          else
            let skipped := drop (Z.to_nat k) sorted in
            Ok (match Limit opts with
                | Some n => if n =? 0 then skipped else take (Z.to_nat (Z.abs n)) skipped
                | None => skipped
                end)
      | None =>
          Ok (match Limit opts with
              | Some n => if n =? 0 then sorted else take (Z.to_nat (Z.abs n)) sorted
              | None => sorted
              end)
      end
  end.

Definition List (srv : Server) (params : list_params.ListProductsParams) (s : Store)
    : result (list Product * Z) :=
  (* build filter *)
  let filter := list_filter params in
  (* count total matching documents *)
  match CountDocuments srv filter s with
  | Err err => Err err
  | Ok total =>
      (* set up pagination and sorting, execute query *)
      match Find srv filter (list_options params) s with
      | Err err => Err err
      | Ok cursor =>
          (* decode results *)
          match server_fault srv OpCursorAll with
          | Some err => Err err
          | None => Ok (cursor, total)
          end
      end
  end.

End mongodb.

(** ** Package service: the catalog facade *)

Module service.

Import mongodb.

(** The methods of [domain.ProductRepository] a service call invokes, in
    order, with their arguments. *)
Inductive RepoCall : Type :=
| CallCreate (product : Product)
| CallGetByID (id : string)
| CallUpdate (product : Product)
| CallUpdateInventory (productID : string) (quantityChange : Z)
    (operationID operationType : string)
| CallCheckStock (productID : string) (quantity : Z).

(** *** validateProduct *)

Definition validateProduct (product : Product) : option error :=
  if String.eqb (Name product) "" then
    Some (errors_New "product name is required")
  else if SFleb (Price product) float_zero then
    Some (errors_New "product price must be greater than zero")
  else if String.eqb (Category product) "" then
    Some (errors_New "product category is required")
  else if String.eqb (SKU (Inventory product)) "" then
    Some (errors_New "product SKU is required")
  else None.

(** *** CreateProduct *)

Definition CreateProduct (env : Env) (product : Product) (s : Store)
    : Store * list RepoCall * result Product :=
  match validateProduct product with
  | Some err => (s, [], Err (fmt_Errorf "validation error" err))
  | None =>
      (* set default values *)
      let product :=
        if primitive.IsZero (ID product) then with_ID (newObjectID env) product
        else product in
      let product := with_CreatedAt (now env) product in
      let product := with_UpdatedAt (now env) product in
      let product := with_Active true product in
      let product :=
        with_Inventory
          (with_InStock (0 <? Quantity (Inventory product)) (Inventory product))
          product in
      (* persist product *)
      match Create env product s with
      | (s', _, Err err) =>
          (s', [CallCreate product], Err (fmt_Errorf "repository error" err))
      | (s', product', Ok _) => (s', [CallCreate product], Ok product')
      end
  end.

(** *** GetProduct *)

Definition GetProduct (env : Env) (id : string) (s : Store)
    : list RepoCall * result Product :=
  match GetByID env id s with
  | Err err => ([CallGetByID id], Err (fmt_Errorf "repository error" err))
  | Ok product => ([CallGetByID id], Ok product)
  end.

(** *** UpdateProduct *)

(** The assignments [UpdateProduct] makes to the product it read, between
    the read and the write. *)
Definition update_fields (env : Env) (product existingProduct : Product) : Product :=
  (* update fields that can be changed *)
  let existingProduct :=
    if negb (String.eqb (Name product) "")
    then with_Name (Name product) existingProduct else existingProduct in
  let existingProduct :=
    if negb (String.eqb (Description product) "")
    then with_Description (Description product) existingProduct
    else existingProduct in
  let existingProduct :=
    if SFltb float_zero (Price product)
    then with_Price (Price product) existingProduct else existingProduct in
  let existingProduct :=
    if Nat.ltb 0 (List.length (ImageURLs product))
    then with_ImageURLs (ImageURLs product) existingProduct
    else existingProduct in
  let existingProduct :=
    if negb (String.eqb (Category product) "")
    then with_Category (Category product) existingProduct
    else existingProduct in
  let existingProduct :=
    if Nat.ltb 0 (List.length (Tags product))
    then with_Tags (Tags product) existingProduct else existingProduct in
  let existingProduct :=
    if Nat.ltb 0 (size (Attributes product))
    then with_Attributes (Attributes product) existingProduct
    else existingProduct in
  (* handle inventory update if provided *)
  let existingProduct :=
    if negb (String.eqb (SKU (Inventory product)) "")
    then with_Inventory
           (with_SKU (SKU (Inventory product)) (Inventory existingProduct))
           existingProduct
    else existingProduct in
  (* only update quantity through dedicated inventory update methods *)
  (* update timestamp and status *)
  let existingProduct := with_UpdatedAt (now env) existingProduct in
  if negb (Bool.eqb (Active product) (Active existingProduct))
  then with_Active (Active product) existingProduct else existingProduct.

Definition UpdateProduct (env : Env) (product : Product) (s : Store)
    : Store * list RepoCall * result Product :=
  let id := primitive.Hex (ID product) in
  (* check if product exists *)
  match GetByID env id s with
  | Err err => (s, [CallGetByID id], Err (fmt_Errorf "product not found" err))
  | Ok existingProduct =>
      let existingProduct := update_fields env product existingProduct in
      (* persist changes *)
      match Update env existingProduct s with
      | (s', _, Err err) =>
          (s', [CallGetByID id; CallUpdate existingProduct],
           Err (fmt_Errorf "repository error" err))
      | (s', existingProduct', Ok _) =>
          (s', [CallGetByID id; CallUpdate existingProduct], Ok existingProduct')
      end
  end.

(** *** UpdateInventory *)

Definition validOperationTypes : gmap string bool :=
  <["purchase" := true]>
    (<["restock" := true]>
       (<["reservation" := true]>
          (<["release" := true]>
             (<["adjustment" := true]> ∅)))).

(** A Go map lookup yields the zero value for an absent key. *)
Definition map_index (m : gmap string bool) (k : string) : bool :=
  default false (m !! k).

Definition UpdateInventory (env : Env) (productID : string) (quantityChange : Z)
    (operationID operationType : string) (s : Store)
    : Store * list RepoCall * result InventoryInfo :=
  (* validate operation type *)
  if negb (map_index validOperationTypes operationType) then
    (s, [], Err (errors_New "invalid operation type"))
  else
    (* for purchase and reservation operations, check if there's enough stock *)
    let checked : list RepoCall * option error :=
      if (String.eqb operationType "purchase" || String.eqb operationType "reservation")
         && (quantityChange <? 0)
      then
        let call := CallCheckStock productID (GoInt.neg quantityChange) in
        match CheckStock env productID (GoInt.neg quantityChange) s with
        | Err err => ([call], Some (fmt_Errorf "stock check error" err))
        | Ok (available, _current) =>
            if negb available
            then ([call], Some (errors_New "insufficient stock"))
            else ([call], None)
        end
      else ([], None) in
    match checked with
    | (calls, Some err) => (s, calls, Err err)
    | (calls, None) =>
        (* update inventory *)
        let call :=
          CallUpdateInventory productID quantityChange operationID operationType in
        match mongodb.UpdateInventory env productID quantityChange
                operationID operationType s with
        | (s', Err err) =>
            (s', (calls ++ [call])%list, Err (fmt_Errorf "repository error" err))
        | (s', Ok updatedInventory) => (s', (calls ++ [call])%list, Ok updatedInventory)
        end
    end.

(** *** CheckStock *)

Definition CheckStock (env : Env) (productID : string) (quantity : Z) (s : Store)
    : list RepoCall * result (bool * Z) :=
  match mongodb.CheckStock env productID quantity s with
  | Err err =>
      ([CallCheckStock productID quantity], Err (fmt_Errorf "repository error" err))
  | Ok (available, current) =>
      ([CallCheckStock productID quantity], Ok (available, current))
  end.

(** *** DeleteProduct *)

Definition DeleteProduct (srv : Server) (id : string) (s : Store)
    : Store * result unit :=
  match Delete srv id s with
  | (s', Err err) => (s', Err (fmt_Errorf "repository error" err))
  | (s', Ok _) => (s', Ok tt)
  end.

(** *** ListProducts *)

Definition ListProducts (srv : Server) (params : list_params.ListProductsParams)
    (s : Store) : result (list Product * Z) :=
  (* apply default values if not provided *)
  let params :=
    if list_params.PageSize params <=? 0
    then list_params.with_PageSize 20 params   (* default page size *)
    else params in
  let params :=
    if list_params.Page params <? 0
    then list_params.with_Page 0 params        (* first page *)
    else params in
  match List srv params s with
  | Err err => Err (fmt_Errorf "repository error" err)
  | Ok (products, total) => Ok (products, total)
  end.

End service.

(** ** Error texts, strings and numbers *)

(** [err.Error()].  The driver's write error and the hex decoder's error are
    given by their leading words. *)
Fixpoint Error (e : error) : string :=
  match e with
  | ErrNoDocuments => "mongo: no documents in result"
  | ErrInvalidHex => "the provided hex string is not a valid ObjectID"
  | ErrDuplicateKey => "E11000 duplicate key error"
  | ErrDriver msg => msg
  | errors_New msg => msg
  | fmt_Errorf prefix cause => prefix ++ ": " ++ Error cause
  end%string.

Module strings.

(** [strings.Contains(s, substr)]. *)
Fixpoint Contains (s substr : string) : bool :=
  String.prefix substr s
  || match s with
     | EmptyString => false
     | String _ rest => Contains rest substr
     end.

(** [strings.Split(s, ",")]. *)
Fixpoint split_comma (s : string) (current : string) : list string :=
  match s with
  | EmptyString => [current]
  | String c rest =>
      if Ascii.eqb c ","%char then current :: split_comma rest EmptyString
      else split_comma rest (current ++ String c EmptyString)%string
  end.

Definition Split (s : string) : list string := split_comma s EmptyString.

End strings.

Module strconv.

Definition digit (c : ascii) : option Z :=
  let n := Z.of_N (N_of_ascii c) in
  if (48 <=? n) && (n <=? 57) then Some (n - 48) else None.

Fixpoint digits (s : string) (acc : Z) : option Z :=
  match s with
  | EmptyString => Some acc
  | String c rest =>
      match digit c with
      | Some d => digits rest (10 * acc + d)
      | None => None
      end
  end.

(** [strconv.Atoi]: an optional sign and decimal digits, within [int]. *)
Definition Atoi (s : string) : option Z :=
  let signed (negative : bool) (body : string) : option Z :=
    match body with
    | EmptyString => None
    | _ =>
        match digits body 0 with
        | Some n =>
            let v := if negative then - n else n in
            if GoInt.in_rangeb v then Some v else None
        | None => None
        end
    end in
  match s with
  | EmptyString => None
  | String c rest =>
      if Ascii.eqb c "-"%char then signed true rest
      else if Ascii.eqb c "+"%char then signed false rest
      else signed false s
  end.

End strconv.

(** Go conversions and division. *)
Definition int32 (z : Z) : Z := (z + 2 ^ 31) mod 2 ^ 32 - 2 ^ 31.

(** What a handler does: it returns, or it panics. *)
Inductive outcome (A : Type) : Type :=
| Returns (a : A)
| Panics (message : string).
Arguments Returns {A} a.
Arguments Panics {A} message.

(** [a / b] on [int]: a run-time panic when [b] is zero. *)
Definition int_div (a b : Z) : outcome Z :=
  if b =? 0 then Panics "runtime error: integer divide by zero"
  else Returns (GoInt.wrap (Z.quot a b)).

(** ** The messages of product.proto *)

Module pb.

Module InventoryInfo.
Record t : Type := mk {
  Quantity : Z;          (* int32 *)
  Sku : string;
  InStock : bool;
  Reserved : Z           (* int32 *)
}.
End InventoryInfo.

(** A [pb.Product] is only ever built by [domainToProtoProduct]. *)
Inductive Product : Type :=
| domainToProtoProduct (product : domain.Product).

Module CreateProductRequest.
Record t : Type := mk {
  Name : string;
  Description : string;
  Price : float64;
  ImageUrls : list string;
  Category : string;
  Inventory : option InventoryInfo.t;    (* a message field is a pointer *)
  Tags : list string;
  Attributes : gmap string string
}.
End CreateProductRequest.

Module UpdateProductRequest.
Record t : Type := mk {
  Id : string;
  Name : option string;
  Description : option string;
  Price : option float64;
  ImageUrls : list string;
  Category : option string;
  Inventory : option InventoryInfo.t;
  Tags : list string;
  Attributes : gmap string string;
  Active : option bool
}.
End UpdateProductRequest.

Module ListProductsRequest.
Record t : Type := mk {
  Page : Z;              (* int32 *)
  PageSize : Z;          (* int32 *)
  Category : string;
  Tags : list string;
  MinPrice : float64;
  MaxPrice : float64;
  InStockOnly : bool;
  SortBy : string;
  SortDesc : bool;
  SearchTerm : string
}.
End ListProductsRequest.

Module ListProductsResponse.
Record t : Type := mk {
  Products : list Product;
  Total : Z;
  Page : Z;
  PageSize : Z;
  TotalPages : Z
}.
End ListProductsResponse.

Module DeleteProductResponse.
Record t : Type := mk {
  Success : bool;
  Message : string
}.
End DeleteProductResponse.

Module UpdateInventoryRequest.
Record t : Type := mk {
  ProductId : string;
  QuantityChange : Z;    (* int32 *)
  OperationId : string;
  OperationType : string
}.
End UpdateInventoryRequest.

Module UpdateInventoryResponse.
Record t : Type := mk {
  Success : bool;
  UpdatedInventory : option InventoryInfo.t;
  Message : string
}.
End UpdateInventoryResponse.

Module CheckStockRequest.
Record t : Type := mk {
  ProductId : string;
  Quantity : Z           (* int32 *)
}.
End CheckStockRequest.

Module CheckStockResponse.
Record t : Type := mk {
  Available : bool;
  CurrentStock : Z       (* int32 *)
}.
End CheckStockResponse.

End pb.

(** ** Package grpc: the RPC handlers *)

Module grpc.

Inductive Code : Type := Internal | NotFound | InvalidArgument.

(** The pair a handler returns: a response, [status.Errorf(code, text)], or
    both. *)
Inductive reply (A : Type) : Type :=
| Reply (response : A)
| Status (code : Code) (message : string)
| ReplyStatus (response : A) (code : Code) (message : string).
Arguments Reply {A} response.
Arguments Status {A} code message.
Arguments ReplyStatus {A} response code message.

(** The zero value of [domain.Product]. *)
Definition zero_Product : domain.Product :=
  mkProduct 0%N "" "" float_zero [] "" (mkInventoryInfo 0 "" false 0) [] ∅ false 0 0.

(** *** CreateProduct *)

Definition CreateProduct (env : Env) (req : pb.CreateProductRequest.t) (s : mongodb.Store)
    : mongodb.Store * outcome (reply pb.Product) :=
  (* map protobuf request to domain model *)
  match pb.CreateProductRequest.Inventory req with
  | None =>
      (* req.Inventory.Quantity on a nil message *)
      (s, Panics "runtime error: invalid memory address or nil pointer dereference")
  | Some inventory =>
      let product :=
        mkProduct 0%N
          (pb.CreateProductRequest.Name req)
          (pb.CreateProductRequest.Description req)
          (pb.CreateProductRequest.Price req)
          (pb.CreateProductRequest.ImageUrls req)
          (pb.CreateProductRequest.Category req)
          (mkInventoryInfo (pb.InventoryInfo.Quantity inventory)
             (pb.InventoryInfo.Sku inventory)
             (pb.InventoryInfo.InStock inventory)
             (pb.InventoryInfo.Reserved inventory))
          (pb.CreateProductRequest.Tags req)
          (pb.CreateProductRequest.Attributes req)
          false 0 0 in
      (* call business logic *)
      match service.CreateProduct env product s with
      | (s', _, Err err) =>
          (s', Returns (Status Internal ("failed to create product: " ++ Error err)))
      | (s', _, Ok createdProduct) =>
          (s', Returns (Reply (pb.domainToProtoProduct createdProduct)))
      end
  end.

(** *** UpdateProduct *)

Definition UpdateProduct (env : Env) (req : pb.UpdateProductRequest.t) (s : mongodb.Store)
    : mongodb.Store * outcome (reply pb.Product) :=
  (* convert ID to ObjectID *)
  match primitive.ObjectIDFromHex (pb.UpdateProductRequest.Id req) with
  | Err err => (s, Returns (Status InvalidArgument ("invalid product ID: " ++ Error err)))
  | Ok objectID =>
      let product := with_ID objectID zero_Product in
      (* handle optional fields *)
      let product :=
        match pb.UpdateProductRequest.Name req with
        | Some x => with_Name x product | None => product end in
      let product :=
        match pb.UpdateProductRequest.Description req with
        | Some x => with_Description x product | None => product end in
      let product :=
        match pb.UpdateProductRequest.Price req with
        | Some x => with_Price x product | None => product end in
      let product :=
        if Nat.ltb 0 (List.length (pb.UpdateProductRequest.ImageUrls req))
        then with_ImageURLs (pb.UpdateProductRequest.ImageUrls req) product
        else product in
      let product :=
        match pb.UpdateProductRequest.Category req with
        | Some x => with_Category x product | None => product end in
      let product :=
        if Nat.ltb 0 (List.length (pb.UpdateProductRequest.Tags req))
        then with_Tags (pb.UpdateProductRequest.Tags req) product
        else product in
      let product :=
        if Nat.ltb 0 (size (pb.UpdateProductRequest.Attributes req))
        then with_Attributes (pb.UpdateProductRequest.Attributes req) product
        else product in
      let product :=
        match pb.UpdateProductRequest.Active req with
        | Some x => with_Active x product | None => product end in
      (* set inventory if provided *)
      let product :=
        match pb.UpdateProductRequest.Inventory req with
        | Some inventory =>
            with_Inventory
              (mkInventoryInfo (pb.InventoryInfo.Quantity inventory)
                 (pb.InventoryInfo.Sku inventory)
                 (pb.InventoryInfo.InStock inventory)
                 (pb.InventoryInfo.Reserved inventory))
              product
        | None => product
        end in
      (* call business logic *)
      match service.UpdateProduct env product s with
      | (s', _, Err err) =>
          (s', Returns (Status Internal ("failed to update product: " ++ Error err)))
      | (s', _, Ok updatedProduct) =>
          (s', Returns (Reply (pb.domainToProtoProduct updatedProduct)))
      end
  end.

(** *** ListProducts *)

(** The parameters [ListProducts] maps the request to. *)
Definition request_params (req : pb.ListProductsRequest.t)
    : list_params.ListProductsParams :=
  list_params.mkListProductsParams
    (pb.ListProductsRequest.Page req)
    (pb.ListProductsRequest.PageSize req)
    (pb.ListProductsRequest.Category req)
    (pb.ListProductsRequest.Tags req)
    (pb.ListProductsRequest.MinPrice req)
    (pb.ListProductsRequest.MaxPrice req)
    (pb.ListProductsRequest.InStockOnly req)
    (pb.ListProductsRequest.SortBy req)
    (pb.ListProductsRequest.SortDesc req)
    (pb.ListProductsRequest.SearchTerm req).

Definition ListProducts (srv : Server) (req : pb.ListProductsRequest.t) (s : mongodb.Store)
    : outcome (reply pb.ListProductsResponse.t) :=
  (* map protobuf request to domain params *)
  let params := request_params req in
  (* call business logic *)
  match service.ListProducts srv params s with
  | Err err => Returns (Status Internal ("failed to list products: " ++ Error err))
  | Ok (products, total) =>
      (* map domain models to protobuf response *)
      let protoProducts := List.map pb.domainToProtoProduct products in
      match int_div (GoInt.wrap (GoInt.wrap (total + pb.ListProductsRequest.PageSize req) - 1))
              (pb.ListProductsRequest.PageSize req) with
      | Panics message => Panics message
      | Returns pages =>
          Returns (Reply (pb.ListProductsResponse.mk protoProducts (int32 total)
                             (pb.ListProductsRequest.Page req)
                             (pb.ListProductsRequest.PageSize req)
                             (int32 pages)))
      end
  end.

(** *** GetProduct *)

Definition GetProduct (env : Env) (id : string) (s : mongodb.Store)
    : outcome (reply pb.Product) :=
  (* call business logic *)
  match service.GetProduct env id s with
  | (_, Err err) => Returns (Status NotFound ("product not found: " ++ Error err))
  | (_, Ok product) => Returns (Reply (pb.domainToProtoProduct product))
  end.

(** *** DeleteProduct *)

Definition DeleteProduct (srv : Server) (id : string) (s : mongodb.Store)
    : mongodb.Store * outcome (reply pb.DeleteProductResponse.t) :=
  (* call business logic *)
  match service.DeleteProduct srv id s with
  | (s', Err err) =>
      (s', Returns (ReplyStatus (pb.DeleteProductResponse.mk false (Error err))
                      Internal ("failed to delete product: " ++ Error err)))
  | (s', Ok _) =>
      (s', Returns (Reply (pb.DeleteProductResponse.mk true "Product deleted successfully")))
  end.

(** *** UpdateInventory *)

Definition UpdateInventory (env : Env) (req : pb.UpdateInventoryRequest.t)
    (s : mongodb.Store)
    : mongodb.Store * outcome (reply pb.UpdateInventoryResponse.t) :=
  (* call business logic *)
  match service.UpdateInventory env
          (pb.UpdateInventoryRequest.ProductId req)
          (pb.UpdateInventoryRequest.QuantityChange req)
          (pb.UpdateInventoryRequest.OperationId req)
          (pb.UpdateInventoryRequest.OperationType req) s with
  | (s', _, Err err) =>
      (s', Returns (ReplyStatus (pb.UpdateInventoryResponse.mk false None (Error err))
                      Internal ("failed to update inventory: " ++ Error err)))
  | (s', _, Ok updatedInventory) =>
      (* map domain model to protobuf response *)
      (s', Returns (Reply (pb.UpdateInventoryResponse.mk true
                             (Some (pb.InventoryInfo.mk
                                      (int32 (Quantity updatedInventory))
                                      (SKU updatedInventory)
                                      (InStock updatedInventory)
                                      (int32 (Reserved updatedInventory))))
                             "Inventory updated successfully")))
  end.

(** *** CheckStock *)

Definition CheckStock (env : Env) (req : pb.CheckStockRequest.t) (s : mongodb.Store)
    : outcome (reply pb.CheckStockResponse.t) :=
  (* call business logic *)
  match service.CheckStock env (pb.CheckStockRequest.ProductId req)
          (pb.CheckStockRequest.Quantity req) s with
  | (_, Err err) => Returns (Status Internal ("failed to check stock: " ++ Error err))
  | (_, Ok (available, currentStock)) =>
      Returns (Reply (pb.CheckStockResponse.mk available (int32 currentStock)))
  end.

End grpc.

(** ** Package rest: the HTTP handlers *)

Module rest.

(** What a handler writes: [http.Error(w, message, code)], a status code with
    a JSON value, or only a status code. *)
Inductive response (A : Type) : Type :=
| http_Error (message : string) (code : Z)
| http_JSON (code : Z) (value : A)
| http_Status (code : Z).
Arguments http_Error {A} message code.
Arguments http_JSON {A} code value.
Arguments http_Status {A} code.

Definition StatusOK : Z := 200.
Definition StatusCreated : Z := 201.
Definition StatusNoContent : Z := 204.
Definition StatusBadRequest : Z := 400.
Definition StatusNotFound : Z := 404.
Definition StatusInternalServerError : Z := 500.

(** *** Writing a JSON body *)

(** A [float64] that is neither NaN nor infinite. *)
Definition is_finite (f : float64) : bool :=
  match f with
  | S754_nan | S754_infinity _ => false
  | _ => true
  end.

(** Whether [encoding/json] encodes a product.  It refuses a price that is
    NaN or infinite, and a time that [time.Time.MarshalJSON] refuses (a year
    outside 0..9999), given as [MarshalTime]; ids, strings, lists, maps,
    booleans and integers are always encoded. *)
Definition Marshal_Product (MarshalTime : Time -> bool) (p : domain.Product) : bool :=
  is_finite (Price p) && MarshalTime (CreatedAt p) && MarshalTime (UpdatedAt p).

(** [json.NewEncoder(w).Encode(value)] under the status [code].  A value that
    cannot be encoded writes nothing: the handler logs the error and the
    response is the status with an empty body. *)
Definition Encode {A : Type} (marshals : A -> bool) (code : Z) (value : A) : response A :=
  if marshals value then http_JSON code value else http_Status code.

(** Helper function to parse int parameters with default value. *)
Definition parseInt (value : string) (defaultValue : Z) : Z :=
  if String.eqb value "" then defaultValue
  else match strconv.Atoi value with
       | Some intValue => intValue
       | None => defaultValue
       end.

(** *** CreateProduct *)

Module CreateProductRequest.
Record t : Type := mk {
  Name : string;
  Description : string;
  Price : float64;
  ImageURLs : list string;
  Category : string;
  Inventory : domain.InventoryInfo;
  Tags : list string;
  Attributes : gmap string string
}.
End CreateProductRequest.

(** [body] is the decoded request body, [None] when decoding failed. *)
Definition CreateProduct (env : Env) (MarshalTime : Time -> bool)
    (body : option CreateProductRequest.t) (s : mongodb.Store)
    : mongodb.Store * response domain.Product :=
  match body with
  | None => (s, http_Error "Invalid request body" StatusBadRequest)
  | Some productRequest =>
      (* create domain product *)
      let product :=
        mkProduct 0%N
          (CreateProductRequest.Name productRequest)
          (CreateProductRequest.Description productRequest)
          (CreateProductRequest.Price productRequest)
          (CreateProductRequest.ImageURLs productRequest)
          (CreateProductRequest.Category productRequest)
          (CreateProductRequest.Inventory productRequest)
          (CreateProductRequest.Tags productRequest)
          (CreateProductRequest.Attributes productRequest)
          false 0 0 in
      (* call service *)
      match service.CreateProduct env product s with
      | (s', _, Err err) =>
          (s', http_Error ("Failed to create product: " ++ Error err)
                 StatusInternalServerError)
      | (s', _, Ok createdProduct) =>
          (s', Encode (Marshal_Product MarshalTime) StatusCreated createdProduct)
      end
  end.

(** *** GetProduct *)

Definition GetProduct (env : Env) (MarshalTime : Time -> bool) (id : string)
    (s : mongodb.Store) : response domain.Product :=
  (* call service *)
  match service.GetProduct env id s with
  | (_, Err err) =>
      if strings.Contains (Error err) "not found"
      then http_Error "Product not found" StatusNotFound
      else http_Error ("Failed to get product: " ++ Error err) StatusInternalServerError
  | (_, Ok product) => Encode (Marshal_Product MarshalTime) StatusOK product
  end.

(** *** UpdateProduct *)

Module UpdateProductRequest.
Record t : Type := mk {
  Name : string;
  Description : string;
  Price : float64;
  ImageURLs : list string;
  Category : string;
  Inventory : option domain.InventoryInfo;
  Tags : list string;
  Attributes : gmap string string;
  Active : option bool
}.
End UpdateProductRequest.

Definition UpdateProduct (env : Env) (MarshalTime : Time -> bool) (id : string)
    (body : option UpdateProductRequest.t) (s : mongodb.Store)
    : mongodb.Store * response domain.Product :=
  (* parse ID *)
  match primitive.ObjectIDFromHex id with
  | Err _ => (s, http_Error "Invalid product ID" StatusBadRequest)
  | Ok objectID =>
      match body with
      | None => (s, http_Error "Invalid request body" StatusBadRequest)
      | Some productRequest =>
          (* create domain product *)
          let product :=
            mkProduct objectID
              (UpdateProductRequest.Name productRequest)
              (UpdateProductRequest.Description productRequest)
              (UpdateProductRequest.Price productRequest)
              (UpdateProductRequest.ImageURLs productRequest)
              (UpdateProductRequest.Category productRequest)
              (mkInventoryInfo 0 "" false 0)
              (UpdateProductRequest.Tags productRequest)
              (UpdateProductRequest.Attributes productRequest)
              false 0 0 in
          (* set active status if provided *)
          let product :=
            match UpdateProductRequest.Active productRequest with
            | Some x => with_Active x product | None => product end in
          (* set inventory if provided *)
          let product :=
            match UpdateProductRequest.Inventory productRequest with
            | Some x => with_Inventory x product | None => product end in
          (* call service *)
          match service.UpdateProduct env product s with
          | (s', _, Err err) =>
              if strings.Contains (Error err) "not found"
              then (s', http_Error "Product not found" StatusNotFound)
              else (s', http_Error ("Failed to update product: " ++ Error err)
                          StatusInternalServerError)
          | (s', _, Ok updatedProduct) =>
              (s', Encode (Marshal_Product MarshalTime) StatusOK updatedProduct)
          end
      end
  end.

(** *** DeleteProduct *)

Definition DeleteProduct (srv : Server) (id : string) (s : mongodb.Store)
    : mongodb.Store * response unit :=
  (* call service *)
  match service.DeleteProduct srv id s with
  | (s', Err err) =>
      if strings.Contains (Error err) "not found"
      then (s', http_Error "Product not found" StatusNotFound)
      else (s', http_Error ("Failed to delete product: " ++ Error err)
                  StatusInternalServerError)
  | (s', Ok _) => (s', http_Status StatusNoContent)
  end.

(** *** ListProducts *)

Module ListProductsResponse.
Record t : Type := mk {
  Products : list domain.Product;
  Total : Z;
  Page : Z;
  PageSize : Z;
  TotalPages : Z
}.
End ListProductsResponse.

(** The parameters [ListProducts] reads from the query string: [query key] is
    [r.URL.Query().Get(key)]; [ParseFloat] is [strconv.ParseFloat(_, 64)],
    [None] when it fails. *)
Definition query_params (ParseFloat : string -> option float64)
    (query : string -> string) : list_params.ListProductsParams :=
  (* parse query parameters *)
  let params :=
    list_params.mkListProductsParams
      (parseInt (query "page") 0) (parseInt (query "page_size") 20)
      "" [] float_zero float_zero false "" false "" in
  (* parse optional filters *)
  list_params.mkListProductsParams
    (list_params.Page params) (list_params.PageSize params)
    (if negb (String.eqb (query "category") "") then query "category"
     else list_params.Category params)
    (if negb (String.eqb (query "tags") "") then strings.Split (query "tags")
     else list_params.Tags params)
    (if negb (String.eqb (query "min_price") "")
     then match ParseFloat (query "min_price") with
          | Some p => p | None => list_params.MinPrice params end
     else list_params.MinPrice params)
    (if negb (String.eqb (query "max_price") "")
     then match ParseFloat (query "max_price") with
          | Some p => p | None => list_params.MaxPrice params end
     else list_params.MaxPrice params)
    (if String.eqb (query "in_stock") "true" then true
     else list_params.InStockOnly params)
    (if negb (String.eqb (query "sort_by") "") then query "sort_by"
     else list_params.SortBy params)
    (if String.eqb (query "sort_desc") "true" then true
     else list_params.SortDesc params)
    (if negb (String.eqb (query "search") "") then query "search"
     else list_params.SearchTerm params).

Definition ListProducts (srv : Server) (ParseFloat : string -> option float64)
    (MarshalTime : Time -> bool) (query : string -> string) (s : mongodb.Store)
    : outcome (response ListProductsResponse.t) :=
  let params := query_params ParseFloat query in
  (* call service *)
  match service.ListProducts srv params s with
  | Err err =>
      Returns (http_Error ("Failed to list products: " ++ Error err)
                  StatusInternalServerError)
  | Ok (products, total) =>
      (* calculate pagination metadata *)
      match int_div (GoInt.wrap (GoInt.wrap (total + list_params.PageSize params) - 1))
              (list_params.PageSize params) with
      | Panics message => Panics message
      | Returns totalPages =>
          let totalPages := if totalPages =? 0 then 1 else totalPages in
          Returns (Encode
                     (fun response =>
                        forallb (Marshal_Product MarshalTime)
                          (ListProductsResponse.Products response))
                     StatusOK
                     (ListProductsResponse.mk products total (list_params.Page params)
                        (list_params.PageSize params) totalPages))
      end
  end.

(** *** UpdateInventory *)

Module UpdateInventoryRequest.
Record t : Type := mk {
  QuantityChange : Z;
  OperationID : string;
  OperationType : string
}.
End UpdateInventoryRequest.

Module UpdateInventoryResponse.
Record t : Type := mk {
  Success : bool;
  Inventory : domain.InventoryInfo;
  Message : string
}.
End UpdateInventoryResponse.

(** The response holds a boolean, integers and strings, which are always
    encoded. *)
Definition UpdateInventory (env : Env) (id : string)
    (body : option UpdateInventoryRequest.t) (s : mongodb.Store)
    : mongodb.Store * response UpdateInventoryResponse.t :=
  match body with
  | None => (s, http_Error "Invalid request body" StatusBadRequest)
  | Some request =>
      (* call service *)
      match service.UpdateInventory env id
              (UpdateInventoryRequest.QuantityChange request)
              (UpdateInventoryRequest.OperationID request)
              (UpdateInventoryRequest.OperationType request) s with
      | (s', _, Err err) =>
          if strings.Contains (Error err) "not found"
          then (s', http_Error "Product not found" StatusNotFound)
          else if strings.Contains (Error err) "insufficient"
          then (s', http_Error (Error err) StatusBadRequest)
          else (s', http_Error ("Failed to update inventory: " ++ Error err)
                      StatusInternalServerError)
      | (s', _, Ok updatedInventory) =>
          (s', http_JSON StatusOK
                 (UpdateInventoryResponse.mk true updatedInventory
                    "Inventory updated successfully"))
      end
  end.

(** *** CheckStock *)

Module CheckStockResponse.
Record t : Type := mk {
  Available : bool;
  CurrentStock : Z;
  Requested : Z
}.
End CheckStockResponse.

(** [quantity] is the [quantity] query parameter.  The response holds a
    boolean and integers, which are always encoded. *)
Definition CheckStock (env : Env) (id : string) (quantity : string) (s : mongodb.Store)
    : response CheckStockResponse.t :=
  (* parse quantity parameter *)
  let quantity := parseInt quantity 1 in
  (* call service *)
  match service.CheckStock env id quantity s with
  | (_, Err err) =>
      if strings.Contains (Error err) "not found"
      then http_Error "Product not found" StatusNotFound
      else http_Error ("Failed to check stock: " ++ Error err) StatusInternalServerError
  | (_, Ok (available, currentStock)) =>
      http_JSON StatusOK (CheckStockResponse.mk available currentStock quantity)
  end.

End rest.

(** ** Sample data *)

Module Sample.

Definition env0 : Env := mkEnv 1700000000 1%N no_fault.

Definition id1 : string := "64b7f1a2c3d4e5f601234567".
Definition oid1 : primitive.ObjectID :=
  Eval vm_compute in
    match primitive.ObjectIDFromHex id1 with Ok x => x | Err _ => 0%N end.

Definition widget (q r : Z) : Product :=
  mkProduct oid1 "widget" "" (S754_finite false 5 0) [] "tools"
    (mkInventoryInfo q "W-1" (0 <? q) r) [] ∅ true 1 1.

Definition shop (q r : Z) : mongodb.Store := mongodb.mkStore [widget q r] [].

(** The widget next to a second product with id 7. *)
Definition two_products : mongodb.Store :=
  mongodb.mkStore [widget 100 0; with_ID 7%N (widget 1 0)] [].

(** A creation request whose price is not a number. *)
Definition nan_priced : Product :=
  mkProduct 0%N "widget" "" S754_nan [] "tools"
    (mkInventoryInfo 3 "W-1" false 0) [] ∅ false 0 0.

Definition empty_shop : mongodb.Store := mongodb.mkStore [] [].

(** A call whose ledger insert is rejected by a uniqueness constraint. *)
Definition env_duplicate : Env :=
  mkEnv 1700000000 1%N
    (fun op => match op with
               | OpInsertOperation => Some ErrDuplicateKey
               | _ => None
               end).

(** An update request for the widget that also carries inventory numbers. *)
Definition request (q r : Z) : Product :=
  mkProduct oid1 "gadget" "" (S754_zero false) [] ""
    (mkInventoryInfo q "W-2" false r) [] ∅ true 0 0.


End Sample.

(** ** Sequences of calls *)

(** Run one operation per environment, threading the store and collecting
    the results in call order. *)
Fixpoint run_calls {R : Type} (f : Env -> mongodb.Store -> mongodb.Store * R)
    (envs : list Env) (s : mongodb.Store) : mongodb.Store * list R :=
  match envs with
  | [] => (s, [])
  | env :: rest =>
      let '(s1, r) := f env s in
      let '(s2, rs) := run_calls f rest s1 in
      (s2, r :: rs)
  end.

(** The facade's adjustment as a store transformer with its result. *)
Definition facade_adjust (productID : string) (quantityChange : Z)
    (operationID operationType : string) (env : Env) (s : mongodb.Store)
    : mongodb.Store * result InventoryInfo :=
  let '(s', _, r) :=
    service.UpdateInventory env productID quantityChange operationID operationType s in
  (s', r).

(** The coordinator's adjustment in the same shape. *)
Definition repo_adjust (productID : string) (quantityChange : Z)
    (operationID operationType : string) (env : Env) (s : mongodb.Store)
    : mongodb.Store * result InventoryInfo :=
  mongodb.UpdateInventory env productID quantityChange operationID operationType s.

(** One adjustment request submitted to the facade. *)
Record Call : Type := mkCall {
  call_env : Env;
  call_productID : string;
  call_delta : Z;
  call_key : string;
  call_type : string
}.

Definition apply_call (s : mongodb.Store) (c : Call) : mongodb.Store :=
  fst (facade_adjust (call_productID c) (call_delta c) (call_key c) (call_type c)
         (call_env c) s).

Definition run (calls : list Call) (s : mongodb.Store) : mongodb.Store :=
  fold_left apply_call calls s.

(** ** Vocabulary used in the statements *)

(** The fixed vocabulary of operation types. *)
Definition vocabulary : list string :=
  ["purchase"; "restock"; "reservation"; "release"; "adjustment"].

(** A call whose driver calls all succeed. *)
Definition fault_free (env : Env) : Prop := forall op, fault env op = None.

(** Number of ledger entries carrying an idempotency key. *)
Definition ledger_count (key : string) (s : mongodb.Store) : nat :=
  List.length
    (List.filter (fun o => String.eqb (OperationID o) key) (mongodb.inventory_operations s)).

(** The committed snapshot of a product. *)
Definition snapshot (objID : primitive.ObjectID) (s : mongodb.Store) : option InventoryInfo :=
  option_map Inventory (mongodb.find_product objID (mongodb.products s)).

(** The derived flag agrees with the quantity. *)
Definition flag_consistent (i : InventoryInfo) : Prop :=
  InStock i = (0 <? Quantity i).

(** Every stored product carries the flag derived from its quantity. *)
Definition all_consistent (s : mongodb.Store) : Prop :=
  Forall (fun p => flag_consistent (Inventory p)) (mongodb.products s).

(** Stock levels a reader may observe without seeing a negative number. *)
Definition stock_ok (s : mongodb.Store) : Prop :=
  Forall (fun p =>
            0 <= Quantity (Inventory p) <= GoInt.max_int /\
            0 <= Reserved (Inventory p) <= GoInt.max_int)
         (mongodb.products s).

(** A request whose decrease, if any, goes through the facade's pre-check
    with a representable requested quantity. *)
Definition prechecked (c : Call) : Prop :=
  0 <= call_delta c \/
  ((call_type c = "purchase" \/ call_type c = "reservation") /\
   GoInt.min_int < call_delta c).

(** The product document after a committed adjustment by [delta]. *)
Definition adjusted (env : Env) (delta : Z) (p : Product) : Product :=
  let q := Quantity (Inventory p) + delta in
  with_UpdatedAt (bson_datetime (now env))
    (with_Inventory
       (mkInventoryInfo q (SKU (Inventory p)) (0 <? q) (Reserved (Inventory p))) p).

(** The ledger after the coordinator's insert, which is skipped for an empty
    idempotency key. *)
Definition ledger_after (env : Env) (productID : string) (delta : Z)
    (operationID operationType : string) (ops : list InventoryOperation)
    : list InventoryOperation :=
  if String.eqb operationID "" then ops
  else (ops ++ [mkInventoryOperation productID delta operationID operationType
                  (bson_datetime (now env))])%list.

(** The store after the coordinator committed a novel adjustment of [p]. *)
Definition committed_store (env : Env) (objID : primitive.ObjectID) (productID : string)
    (delta : Z) (operationID operationType : string) (p : Product) (s : mongodb.Store)
    : mongodb.Store :=
  mongodb.mkStore
    (mongodb.update_product objID (fun _ => adjusted env delta p) (mongodb.products s))
    (ledger_after env productID delta operationID operationType
       (mongodb.inventory_operations s)).

(** Whether the facade pre-checks a request. *)
Definition is_decrease (operationType : string) (delta : Z) : bool :=
  (String.eqb operationType "purchase" || String.eqb operationType "reservation")
  && (delta <? 0).

(** ** Requests to the facade *)

(** A request that may change the store. *)
Inductive Request : Type :=
| ReqCreate (env : Env) (product : Product)
| ReqUpdate (env : Env) (product : Product)
| ReqDelete (srv : Server) (id : string)
| ReqAdjust (env : Env) (productID : string) (quantityChange : Z)
    (operationID operationType : string).

Definition exec (s : mongodb.Store) (r : Request) : mongodb.Store :=
  match r with
  | ReqCreate env product => fst (fst (service.CreateProduct env product s))
  | ReqUpdate env product => fst (fst (service.UpdateProduct env product s))
  | ReqDelete srv id => fst (service.DeleteProduct srv id s)
  | ReqAdjust env productID quantityChange operationID operationType =>
      fst (fst (service.UpdateInventory env productID quantityChange
                  operationID operationType s))
  end.

Definition exec_all (rs : list Request) (s : mongodb.Store) : mongodb.Store :=
  fold_left exec rs s.

(** No two stored products share an id. *)
Definition unique_ids (s : mongodb.Store) : Prop :=
  NoDup (ID <$> mongodb.products s).

(** Every stored product passes the validation of [CreateProduct]. *)
Definition all_valid (s : mongodb.Store) : Prop :=
  Forall (fun p => service.validateProduct p = None) (mongodb.products s).

Definition well_formed (s : mongodb.Store) : Prop :=
  unique_ids s /\ all_consistent s /\ all_valid s.

(** The ways one request can change the store: not at all, by one new
    document, by replacing one document (the ledger growing by at most one
    entry), or by removing one document. *)
Inductive transition (s s' : mongodb.Store) : Prop :=
| tr_none :
    s' = s ->
    transition s s'
| tr_insert (p : Product) :
    mongodb.find_product (ID p) (mongodb.products s) = None ->
    service.validateProduct p = None ->
    flag_consistent (Inventory p) ->
    mongodb.products s' = (mongodb.products s ++ [p])%list ->
    mongodb.inventory_operations s' = mongodb.inventory_operations s ->
    transition s s'
| tr_replace (objID : primitive.ObjectID) (old new : Product)
    (entries : list InventoryOperation) :
    mongodb.find_product objID (mongodb.products s) = Some old ->
    ID new = objID ->
    bson_datetime (CreatedAt new) = bson_datetime (CreatedAt old) ->
    Reserved (Inventory new) = Reserved (Inventory old) ->
    flag_consistent (Inventory new) ->
    (service.validateProduct old = None -> service.validateProduct new = None) ->
    mongodb.products s' = mongodb.update_product objID (fun _ => new) (mongodb.products s) ->
    mongodb.inventory_operations s' = (mongodb.inventory_operations s ++ entries)%list ->
    (List.length entries <= 1)%nat ->
    transition s s'
| tr_delete (objID : primitive.ObjectID) (old : Product) :
    mongodb.find_product objID (mongodb.products s) = Some old ->
    mongodb.products s' = mongodb.delete_product objID (mongodb.products s) ->
    mongodb.inventory_operations s' = mongodb.inventory_operations s ->
    transition s s'.

(** The product [CreateProduct] returns for a request; the database holds its
    [bson_Product]. *)
Definition created_document (env : Env) (product : Product) : Product :=
  let product :=
    if primitive.IsZero (ID product) then with_ID (newObjectID env) product
    else product in
  with_Inventory
    (with_InStock (0 <? Quantity (Inventory product)) (Inventory product))
    (with_Active true (with_UpdatedAt (now env) (with_CreatedAt (now env) product))).

(** The product [UpdateProduct] returns; its [bson_Product] is written over
    the stored [existing] one. *)
Definition updated_document (env : Env) (product existing : Product) : Product :=
  let final := service.update_fields env product existing in
  with_Inventory
    (with_InStock (0 <? Quantity (Inventory final)) (Inventory final))
    (with_UpdatedAt (now env) final).

(** ** Pages *)

(** The page size and page number [ListProducts] queries with. *)
Definition page_size_used (params : list_params.ListProductsParams) : Z :=
  if list_params.PageSize params <=? 0 then 20 else list_params.PageSize params.

Definition page_used (params : list_params.ListProductsParams) : Z :=
  if list_params.Page params <? 0 then 0 else list_params.Page params.

(** The stored products a listing request selects. *)
Definition selected (srv : Server) (params : list_params.ListProductsParams)
    (s : mongodb.Store) : list Product :=
  List.filter (mongodb.document_matches srv (mongodb.list_filter params))
    (mongodb.products s).

(** What the request asks of a product it lists. *)
Definition meets (srv : Server) (params : list_params.ListProductsParams) (p : Product)
    : Prop :=
  (list_params.Category params <> "" -> Category p = list_params.Category params) /\
  (forall t, In t (list_params.Tags params) -> In t (Tags p)) /\
  (SFltb float_zero (list_params.MinPrice params) = true ->
   SFleb (list_params.MinPrice params) (Price p) = true) /\
  (SFltb float_zero (list_params.MaxPrice params) = true ->
   SFleb (Price p) (list_params.MaxPrice params) = true) /\
  (list_params.InStockOnly params = true -> InStock (Inventory p) = true) /\
  (list_params.SearchTerm params <> "" ->
   text_match srv (list_params.SearchTerm params) p = true).

(** The sort key and direction [List] asks the server for. *)
Definition sort_used (params : list_params.ListProductsParams) : string * Z :=
  if String.eqb (list_params.SortBy params) "" then ("created_at", -1)
  else (list_params.SortBy params, if list_params.SortDesc params then -1 else 1).

(** The selection in the order the server sorts it. *)
Definition sorted_selection (srv : Server) (params : list_params.ListProductsParams)
    (s : mongodb.Store) : list Product :=
  sort_documents srv (fst (sort_used params)) (snd (sort_used params))
    (selected srv params s).

(** The slice of the sorted selection that is page [page_used] at
    [page_size_used] products a page. *)
Definition page_of (srv : Server) (params : list_params.ListProductsParams)
    (s : mongodb.Store) : list Product :=
  take (Z.to_nat (page_size_used params))
    (drop (Z.to_nat (page_used params * page_size_used params))
       (sorted_selection srv params s)).

(** ** Several adjustments of one product *)

Record Adjustment : Type := mkAdjustment {
  adj_env : Env;
  adj_delta : Z;
  adj_key : string;
  adj_type : string
}.

Definition apply_adjustment (productID : string) (s : mongodb.Store) (a : Adjustment)
    : mongodb.Store :=
  fst (mongodb.UpdateInventory (adj_env a) productID (adj_delta a) (adj_key a)
         (adj_type a) s).

Definition apply_adjustments (productID : string) (adjustments : list Adjustment)
    (s : mongodb.Store) : mongodb.Store :=
  fold_left (apply_adjustment productID) adjustments s.

Definition total_delta (adjustments : list Adjustment) : Z :=
  fold_right Z.add 0 (adj_delta <$> adjustments).

(** The ledger entries the adjustments leave, in submission order. *)
Definition recorded (productID : string) (adjustments : list Adjustment)
    : list InventoryOperation :=
  List.flat_map
    (fun a => if String.eqb (adj_key a) "" then []
              else [mkInventoryOperation productID (adj_delta a) (adj_key a)
                      (adj_type a) (bson_datetime (now (adj_env a)))])
    adjustments.

(** The idempotency keys the adjustments carry. *)
Definition keys_of (adjustments : list Adjustment) : list string :=
  List.filter (fun k => negb (String.eqb k "")) (adj_key <$> adjustments).

(** ** Requests to the handlers *)

(** The values of an [int32] field. *)
Definition int32_range (z : Z) : Prop := - 2 ^ 31 <= z < 2 ^ 31.

(** The number of pages [total] items fill at [size] items a page. *)
Definition pages_needed (total size : Z) : Z := (total + size - 1) / size.

(** ** The scenarios of the specification, run on the model *)

Section Scenarios.

Import Sample.

Example hex_of_sample_id : primitive.Hex oid1 = id1.
Proof. vm_compute. reflexivity. Qed.

(** Scenario A: a purchase of 5 out of 100, then the identical call again. *)
Example scenario_A :
  snd (service.CheckStock env0 id1 5 (shop 100 0)) = Ok (true, 100)
  /\ run_calls (facade_adjust id1 (-5) "op1" "purchase") [env0; env0] (shop 100 0)
     = (mongodb.mkStore [adjusted env0 (-5) (widget 100 0)]
          [mkInventoryOperation id1 (-5) "op1" "purchase" 1700000000],
        [Ok (mkInventoryInfo 95 "W-1" true 0); Ok (mkInventoryInfo 95 "W-1" true 0)]).
Proof. split; vm_compute; reflexivity. Qed.

(** Scenario B: a purchase of 5 out of 3. *)
Example scenario_B :
  service.UpdateInventory env0 id1 (-5) "op2" "purchase" (shop 3 0)
  = (shop 3 0, [service.CallCheckStock id1 5], Err (errors_New "insufficient stock")).
Proof. vm_compute. reflexivity. Qed.

(** Scenario C: a restock of 10 on an empty stock. *)
Example scenario_C :
  InStock (Inventory (widget 0 0)) = false
  /\ snd (service.UpdateInventory env0 id1 10 "op3" "restock" (shop 0 0))
     = Ok (mkInventoryInfo 10 "W-1" true 0).
Proof. split; vm_compute; reflexivity. Qed.

(** Scenario D: an adjustment of -10 without idempotency key, twice. *)
Example scenario_D :
  run_calls (facade_adjust id1 (-10) "" "adjustment") [env0; env0] (shop 30 0)
  = (mongodb.mkStore [adjusted env0 (-10) (adjusted env0 (-10) (widget 30 0))] [],
     [Ok (mkInventoryInfo 20 "W-1" true 0); Ok (mkInventoryInfo 10 "W-1" true 0)]).
Proof. vm_compute. reflexivity. Qed.

End Scenarios.

(** ** Arithmetic of machine integers *)

Section GoIntFacts.

Lemma wrap_in_range (z : Z) : GoInt.in_range z -> GoInt.wrap z = z.
Proof.
  unfold GoInt.in_range, GoInt.wrap, GoInt.min_int, GoInt.max_int.
  intros Hz. rewrite Z.mod_small; lia.
Qed.

Lemma sub_exact (a b : Z) : GoInt.in_range (a - b) -> GoInt.sub a b = a - b.
Proof. apply wrap_in_range. Qed.

Lemma neg_exact (a : Z) :
  GoInt.min_int < a -> a <= GoInt.max_int -> GoInt.neg a = - a.
Proof.
  intros Hlo Hhi. apply wrap_in_range.
  unfold GoInt.in_range, GoInt.min_int, GoInt.max_int in *. lia.
Qed.

Lemma in_rangeb_spec (z : Z) : GoInt.in_rangeb z = true <-> GoInt.in_range z.
Proof.
  unfold GoInt.in_rangeb, GoInt.in_range.
  rewrite andb_true_iff, !Z.leb_le. tauto.
Qed.

End GoIntFacts.

(** ** Collections *)

Section CollectionFacts.

Import mongodb.

Lemma find_product_ID objID c p : find_product objID c = Some p -> ID p = objID.
Proof.
  unfold find_product. intros H. apply find_some in H as [_ H].
  now apply N.eqb_eq.
Qed.

Lemma find_product_update_eq objID f c p :
  find_product objID c = Some p ->
  ID (f p) = objID ->
  find_product objID (update_product objID f c) = Some (f p).
Proof.
  unfold find_product. induction c as [|x c IH]; simpl; [discriminate|].
  intros H Hid. destruct (N.eqb (ID x) objID) eqn:E.
  - injection H as ->. simpl. rewrite Hid, N.eqb_refl. reflexivity.
  - simpl. rewrite E. auto.
Qed.

Lemma find_product_update_ne objID objID' f c :
  objID' <> objID ->
  (forall p, ID p = objID -> ID (f p) = objID) ->
  find_product objID' (update_product objID f c) = find_product objID' c.
Proof.
  unfold find_product. intros Hne Hid. induction c as [|x c IH]; simpl; [reflexivity|].
  destruct (N.eqb (ID x) objID) eqn:E; simpl.
  - apply N.eqb_eq in E. rewrite (Hid _ E).
    assert (N.eqb objID objID' = false) as -> by (apply N.eqb_neq; congruence).
    assert (N.eqb (ID x) objID' = false) as -> by (apply N.eqb_neq; congruence).
    reflexivity.
  - destruct (N.eqb (ID x) objID'); [reflexivity|apply IH].
Qed.

Lemma update_product_twice objID f g c :
  (forall p, ID p = objID -> ID (f p) = objID) ->
  update_product objID g (update_product objID f c)
  = update_product objID (fun p => g (f p)) c.
Proof.
  intros Hid. induction c as [|x c IH]; simpl; [reflexivity|].
  destruct (N.eqb (ID x) objID) eqn:E; simpl.
  - apply N.eqb_eq in E. rewrite (Hid _ E), N.eqb_refl. reflexivity.
  - rewrite E, IH. reflexivity.
Qed.

Lemma find_product_app_new objID c p :
  find_product objID c = None ->
  ID p = objID ->
  find_product objID (c ++ [p])%list = Some p.
Proof.
  unfold find_product. intros Hnone Hid.
  induction c as [|x c IH]; simpl in *.
  - rewrite Hid, N.eqb_refl. reflexivity.
  - destruct (N.eqb (ID x) objID); [discriminate|auto].
Qed.

Lemma Forall_update_product (P : Product -> Prop) objID f c :
  Forall P c -> (forall p, P p -> P (f p)) -> Forall P (update_product objID f c).
Proof.
  intros Hc Hf. induction Hc as [|x c Hx Hc IH]; simpl; [constructor|].
  destruct (N.eqb (ID x) objID); constructor; auto.
Qed.

Lemma find_product_Forall (P : Product -> Prop) objID c p :
  Forall P c -> find_product objID c = Some p -> P p.
Proof.
  intros Hc H. apply find_some in H as [Hin _].
  rewrite Forall_forall in Hc. apply Hc.
  now apply list_elem_of_In.
Qed.

Lemma find_operation_app_new key c o :
  find_operation key c = None ->
  OperationID o = key ->
  find_operation key (c ++ [o])%list = Some o.
Proof.
  unfold find_operation. intros Hnone Hid.
  induction c as [|x c IH]; simpl in *.
  - rewrite Hid, String.eqb_refl. reflexivity.
  - destruct (String.eqb (OperationID x) key); [discriminate|auto].
Qed.

Lemma filter_operation_none key c :
  find_operation key c = None ->
  List.filter (fun o => String.eqb (OperationID o) key) c = [].
Proof.
  unfold find_operation. induction c as [|x c IH]; simpl; [reflexivity|].
  destruct (String.eqb (OperationID x) key); [discriminate|auto].
Qed.

End CollectionFacts.

(** ** The facade's checks *)

Section FacadeChecks.

Import mongodb.

Lemma validOperationTypes_spec (t : string) :
  service.map_index service.validOperationTypes t = true <-> In t vocabulary.
Proof.
  unfold service.map_index, service.validOperationTypes, vocabulary.
  split.
  - rewrite !lookup_insert, lookup_empty.
    repeat case_decide; subst; simpl; intros Hv; auto 10; discriminate.
  - intros [<-|[<-|[<-|[<-|[<-|[]]]]]]; vm_compute; reflexivity.
Qed.

Lemma precheck_type_valid (t : string) :
  t = "purchase" \/ t = "reservation" ->
  service.map_index service.validOperationTypes t = true.
Proof.
  intros [->| ->]; vm_compute; reflexivity.
Qed.

(** The repository's stock check on a product that is found. *)
Lemma repo_CheckStock_found env productID objID product requested s :
  primitive.ObjectIDFromHex productID = Ok objID ->
  fault env OpCheckStockFind = None ->
  find_product objID (products s) = Some product ->
  CheckStock env productID requested s
  = Ok (GoInt.sub (Quantity (Inventory product)) (Reserved (Inventory product)) >=? requested,
        GoInt.sub (Quantity (Inventory product)) (Reserved (Inventory product))).
Proof.
  intros Hhex Hf Hfind. unfold CheckStock, FindOne_product.
  rewrite Hhex, Hf, Hfind. reflexivity.
Qed.

End FacadeChecks.

(** C8. An operation type outside the vocabulary purchase, restock,
    reservation, release, adjustment makes the facade's [UpdateInventory]
    fail with "invalid operation type" without invoking any repository
    method (no stock check, no ledger write, no quantity mutation) and with
    the store unchanged; for an operation type inside the vocabulary the
    call never ends in that error. *)
Theorem UpdateInventory_operation_type :
  forall env productID quantityChange operationID operationType s,
    (~ In operationType vocabulary ->
     service.UpdateInventory env productID quantityChange operationID operationType s
     = (s, [], Err (errors_New "invalid operation type")))
    /\
    (In operationType vocabulary ->
     snd (service.UpdateInventory env productID quantityChange operationID operationType s)
     <> Err (errors_New "invalid operation type")).
Proof.
  intros env productID quantityChange operationID operationType s.
  unfold service.UpdateInventory. split; intros Hty.
  - destruct (service.map_index service.validOperationTypes operationType) eqn:E.
    + apply validOperationTypes_spec in E. contradiction.
    + reflexivity.
  - apply validOperationTypes_spec in Hty. rewrite Hty. simpl.
    destruct ((String.eqb operationType "purchase" || String.eqb operationType "reservation")
              && (quantityChange <? 0)).
    + destruct (mongodb.CheckStock env productID (GoInt.neg quantityChange) s)
        as [[available current]|err]; simpl.
      * destruct available; simpl; [|discriminate].
        destruct (mongodb.UpdateInventory env productID quantityChange operationID
                    operationType s) as [s' [inv|err]]; simpl; discriminate.
      * discriminate.
    + destruct (mongodb.UpdateInventory env productID quantityChange operationID
                  operationType s) as [s' [inv|err]]; simpl; discriminate.
Qed.

Lemma UpdateInventory_operation_type_witness :
  service.UpdateInventory Sample.env0 Sample.id1 (-5) "op2" "refund" (Sample.shop 3 0)
  = (Sample.shop 3 0, [], Err (errors_New "invalid operation type"))
  /\
  snd (service.UpdateInventory Sample.env0 Sample.id1 (-5) "op2" "purchase" (Sample.shop 3 0))
  <> Err (errors_New "invalid operation type").
Proof.
  split.
  - apply (UpdateInventory_operation_type Sample.env0 Sample.id1 (-5) "op2" "refund"
             (Sample.shop 3 0)).
    unfold vocabulary. simpl. intros H.
    repeat (destruct H as [H|H]; [discriminate|]). exact H.
  - apply (UpdateInventory_operation_type Sample.env0 Sample.id1 (-5) "op2" "purchase"
             (Sample.shop 3 0)).
    unfold vocabulary. simpl. left. reflexivity.
Defined.

(** C7. For an existing product and any requested quantity, the stock check
    of the repository and of the facade returns the pair
    [(quantity - reserved >= requested, quantity - reserved)], the difference
    being Go's [int] subtraction (the integer difference whenever that is
    representable); the second component is the same whether or not the
    first is [false].  Neither function returns a store: the check reads
    the snapshot and writes nothing. *)
Theorem CheckStock_evaluates :
  forall env productID objID product requested s,
    primitive.ObjectIDFromHex productID = Ok objID ->
    fault env OpCheckStockFind = None ->
    mongodb.find_product objID (mongodb.products s) = Some product ->
    let quantity := Quantity (Inventory product) in
    let reserved := Reserved (Inventory product) in
    let currentAvailable := GoInt.sub quantity reserved in
    mongodb.CheckStock env productID requested s
    = Ok (currentAvailable >=? requested, currentAvailable)
    /\ service.CheckStock env productID requested s
       = ([service.CallCheckStock productID requested],
          Ok (currentAvailable >=? requested, currentAvailable))
    /\ ((currentAvailable >=? requested) = true <-> requested <= currentAvailable)
    /\ (GoInt.in_range (quantity - reserved) -> currentAvailable = quantity - reserved).
Proof.
  intros env productID objID product requested s Hhex Hf Hfind quantity reserved available.
  pose proof (repo_CheckStock_found env productID objID product requested s Hhex Hf Hfind)
    as Hrepo.
  fold quantity reserved available in Hrepo.
  split; [exact Hrepo|]. split.
  - unfold service.CheckStock. rewrite Hrepo. reflexivity.
  - split; [apply Z.geb_le|]. apply sub_exact.
Qed.

Lemma CheckStock_evaluates_witness :
  mongodb.CheckStock Sample.env0 Sample.id1 5 (Sample.shop 3 0) = Ok (false, 3)
  /\ mongodb.CheckStock Sample.env0 Sample.id1 5 (Sample.shop 100 0) = Ok (true, 100).
Proof.
  split.
  - apply (CheckStock_evaluates Sample.env0 Sample.id1 Sample.oid1 (Sample.widget 3 0) 5
             (Sample.shop 3 0)); reflexivity.
  - apply (CheckStock_evaluates Sample.env0 Sample.id1 Sample.oid1 (Sample.widget 100 0) 5
             (Sample.shop 100 0)); reflexivity.
Defined.

(** The pre-check as the code computes it.  A facade [UpdateInventory] call of
    type purchase or reservation with [delta < 0] reads the snapshot and
    compares [quantity - reserved] with [-delta] in Go [int] arithmetic,
    equal to the integer values whenever they are representable, which
    [-delta] is for every delta but the minimum int.  If the comparison
    finds [quantity - reserved < -delta] the call fails with "insufficient
    stock", the only repository method invoked is [CheckStock] (the
    coordinator is not invoked) and the store, ledger and quantity included,
    is unchanged.  Otherwise the call is delegated to the coordinator, whose
    store and result are returned, an error being wrapped as "repository
    error". *)
Theorem UpdateInventory_precheck :
  forall env productID objID product delta operationID operationType s,
    operationType = "purchase" \/ operationType = "reservation" ->
    delta < 0 ->
    primitive.ObjectIDFromHex productID = Ok objID ->
    fault env OpCheckStockFind = None ->
    mongodb.find_product objID (mongodb.products s) = Some product ->
    let quantity := Quantity (Inventory product) in
    let reserved := Reserved (Inventory product) in
    (GoInt.sub quantity reserved < GoInt.neg delta ->
     service.UpdateInventory env productID delta operationID operationType s
     = (s, [service.CallCheckStock productID (GoInt.neg delta)],
        Err (errors_New "insufficient stock")))
    /\
    (GoInt.neg delta <= GoInt.sub quantity reserved ->
     service.UpdateInventory env productID delta operationID operationType s
     = (fst (mongodb.UpdateInventory env productID delta operationID operationType s),
        [service.CallCheckStock productID (GoInt.neg delta);
         service.CallUpdateInventory productID delta operationID operationType],
        match snd (mongodb.UpdateInventory env productID delta operationID operationType s)
        with
        | Ok updatedInventory => Ok updatedInventory
        | Err err => Err (fmt_Errorf "repository error" err)
        end))
    /\
    (GoInt.in_range (quantity - reserved) -> GoInt.min_int < delta ->
     GoInt.sub quantity reserved = quantity - reserved /\ GoInt.neg delta = - delta).
Proof.
  intros env productID objID product delta operationID operationType s
    Hty Hneg Hhex Hf Hfind quantity reserved.
  assert (Hguard :
    (String.eqb operationType "purchase" || String.eqb operationType "reservation")
    && (delta <? 0) = true).
  { apply andb_true_iff. split; [|now apply Z.ltb_lt].
    destruct Hty as [-> | ->]; reflexivity. }
  pose proof (repo_CheckStock_found env productID objID product (GoInt.neg delta) s
                Hhex Hf Hfind) as Hcheck.
  fold quantity reserved in Hcheck.
  split; [|split].
  - intros Hlt. unfold service.UpdateInventory.
    rewrite (precheck_type_valid _ Hty), Hguard, Hcheck. simpl.
    assert ((GoInt.sub quantity reserved >=? GoInt.neg delta) = false) as ->.
    { rewrite Z.geb_leb. apply Z.leb_gt. exact Hlt. }
    reflexivity.
  - intros Hge. unfold service.UpdateInventory.
    rewrite (precheck_type_valid _ Hty), Hguard, Hcheck. simpl.
    assert ((GoInt.sub quantity reserved >=? GoInt.neg delta) = true) as ->.
    { apply Z.geb_le. exact Hge. }
    simpl.
    destruct (mongodb.UpdateInventory env productID delta operationID operationType s)
      as [s' [inv|err]]; reflexivity.
  - intros Hr Hlo. split; [now apply sub_exact|].
    apply neg_exact; [exact Hlo|]. unfold GoInt.max_int. lia.
Qed.

Lemma UpdateInventory_precheck_witness :
  service.UpdateInventory Sample.env0 Sample.id1 (-5) "op2" "purchase" (Sample.shop 3 0)
  = (Sample.shop 3 0, [service.CallCheckStock Sample.id1 5],
     Err (errors_New "insufficient stock"))
  /\
  service.UpdateInventory Sample.env0 Sample.id1 (-5) "op1" "purchase" (Sample.shop 100 0)
  = (fst (mongodb.UpdateInventory Sample.env0 Sample.id1 (-5) "op1" "purchase"
            (Sample.shop 100 0)),
     [service.CallCheckStock Sample.id1 5;
      service.CallUpdateInventory Sample.id1 (-5) "op1" "purchase"],
     Ok (mkInventoryInfo 95 "W-1" true 0)).
Proof.
  assert (Hty : "purchase" = "purchase" \/ "purchase" = "reservation") by now left.
  assert (Hneg : -5 < 0) by lia.
  split.
  - destruct (UpdateInventory_precheck Sample.env0 Sample.id1 Sample.oid1
                (Sample.widget 3 0) (-5) "op2" "purchase" (Sample.shop 3 0)
                Hty Hneg eq_refl eq_refl eq_refl) as (Hreject & _ & _).
    apply Hreject. vm_compute. reflexivity.
  - destruct (UpdateInventory_precheck Sample.env0 Sample.id1 Sample.oid1
                (Sample.widget 100 0) (-5) "op1" "purchase" (Sample.shop 100 0)
                Hty Hneg eq_refl eq_refl eq_refl) as (_ & Hdelegate & _).
    apply Hdelegate. vm_compute. discriminate.
Defined.

(** ** The coordinator, case by case *)

Section Coordinator.

Import mongodb.

Ltac break_match_in H :=
  match type of H with
  | context [match ?x with _ => _ end] => destruct x eqn:?
  end.

Lemma adjusted_flag_same env delta p :
  Bool.eqb (0 <? Quantity (Inventory p) + delta) (InStock (Inventory p)) = true ->
  with_UpdatedAt (bson_datetime (now env))
    (with_Inventory (with_Quantity (Quantity (Inventory p) + delta) (Inventory p)) p)
  = adjusted env delta p.
Proof.
  intros H. apply Bool.eqb_prop in H.
  destruct p as [? ? ? ? ? ? [q k b r] ? ? ? ? ?]. simpl in *.
  unfold adjusted, with_UpdatedAt, with_Inventory, with_Quantity. simpl.
  rewrite H. reflexivity.
Qed.

Lemma adjusted_ID env delta p : ID (adjusted env delta p) = ID p.
Proof. reflexivity. Qed.

Lemma update_product_inventory_run env objID delta s p :
  fault env OpFindOneAndUpdate = None ->
  fault env OpUpdateInStock = None ->
  fault env OpCommitTransaction = None ->
  find_product objID (products s) = Some p ->
  GoInt.in_range (Quantity (Inventory p) + delta) ->
  update_product_inventory env objID delta s
  = Ok (Committed (Inventory (adjusted env delta p)),
        mkStore (update_product objID (fun _ => adjusted env delta p) (products s))
          (inventory_operations s)).
Proof.
  intros Hf1 Hf2 Hf3 Hfind Hrange.
  pose proof (find_product_ID _ _ _ Hfind) as Hid.
  apply in_rangeb_spec in Hrange.
  unfold update_product_inventory, tx_bind, FindOneAndUpdate_inc.
  rewrite Hf1, Hfind, Hrange.
  set (p1 := with_UpdatedAt (bson_datetime (now env))
               (with_Inventory (with_Quantity (Quantity (Inventory p) + delta) (Inventory p)) p)).
  destruct (negb (Bool.eqb (0 <? Quantity (Inventory p1)) (InStock (Inventory p1)))) eqn:Hflag.
  - unfold UpdateOne_in_stock, driver, tx_ret. rewrite Hf2, Hf3. simpl.
    rewrite update_product_twice by (intros; exact Hid).
    reflexivity.
  - unfold driver, tx_ret. rewrite Hf3.
    apply negb_false_iff in Hflag.
    pose proof (adjusted_flag_same env delta p Hflag) as Hadj. fold p1 in Hadj.
    rewrite Hadj. reflexivity.
Qed.

Lemma update_product_inventory_Ok env objID delta s o s' :
  update_product_inventory env objID delta s = Ok (o, s') ->
  exists p,
    find_product objID (products s) = Some p /\
    GoInt.in_range (Quantity (Inventory p) + delta) /\
    o = Committed (Inventory (adjusted env delta p)) /\
    products s' = update_product objID (fun _ => adjusted env delta p) (products s) /\
    inventory_operations s' = inventory_operations s.
Proof.
  intros H.
  destruct (fault env OpFindOneAndUpdate) eqn:Hf1;
    [unfold update_product_inventory, tx_bind, FindOneAndUpdate_inc in H;
     rewrite Hf1 in H; discriminate|].
  destruct (find_product objID (products s)) as [p|] eqn:Hfind;
    [|unfold update_product_inventory, tx_bind, FindOneAndUpdate_inc in H;
      rewrite Hf1, Hfind in H; discriminate].
  destruct (GoInt.in_rangeb (Quantity (Inventory p) + delta)) eqn:Hrange;
    [|unfold update_product_inventory, tx_bind, FindOneAndUpdate_inc in H;
      rewrite Hf1, Hfind, Hrange in H; discriminate].
  apply in_rangeb_spec in Hrange.
  destruct (fault env OpCommitTransaction) eqn:Hf3.
  { unfold update_product_inventory, tx_bind, FindOneAndUpdate_inc, driver in H.
    rewrite Hf1, Hfind, Hf3 in H.
    repeat break_match_in H; discriminate. }
  destruct (fault env OpUpdateInStock) eqn:Hf2.
  - (* the flag write is not reached: the flag already agrees *)
    unfold update_product_inventory, tx_bind, FindOneAndUpdate_inc in H.
    rewrite Hf1, Hfind in H.
    apply in_rangeb_spec in Hrange. rewrite Hrange in H. apply in_rangeb_spec in Hrange.
    set (p1 := with_UpdatedAt (bson_datetime (now env))
                 (with_Inventory (with_Quantity (Quantity (Inventory p) + delta) (Inventory p)) p))
      in H.
    destruct (negb (Bool.eqb (0 <? Quantity (Inventory p1)) (InStock (Inventory p1)))) eqn:Hflag.
    + unfold UpdateOne_in_stock in H. rewrite Hf2 in H. discriminate.
    + unfold driver, tx_ret in H. rewrite Hf3 in H. injection H as <- <-.
      apply negb_false_iff in Hflag.
      pose proof (adjusted_flag_same env delta p Hflag) as Hadj. fold p1 in Hadj.
      exists p. rewrite <- Hadj. simpl. auto.
  - rewrite (update_product_inventory_run env objID delta s p Hf1 Hf2 Hf3 Hfind Hrange) in H.
    injection H as <- <-. exists p. simpl. auto.
Qed.

Lemma check_duplicate_operation_Ok env objID productID delta operationID operationType
    s replay s' :
  check_duplicate_operation env objID productID delta operationID operationType s
  = Ok (replay, s') ->
  (operationID <> "" /\ (exists o, FindOne_operation env operationID s = Ok o) /\
   s' = s /\
   exists p, find_product objID (products s) = Some p /\ replay = Some (Inventory p))
  \/
  ((operationID = "" \/ FindOne_operation env operationID s = Err ErrNoDocuments) /\
   replay = None /\
   products s' = products s /\
   inventory_operations s'
   = ledger_after env productID delta operationID operationType (inventory_operations s)).
Proof.
  unfold check_duplicate_operation, ledger_after.
  destruct (String.eqb operationID "") eqn:Hkey; simpl.
  - apply String.eqb_eq in Hkey. unfold tx_ret. intros H. injection H as <- <-.
    right. auto.
  - apply String.eqb_neq in Hkey.
    destruct (FindOne_operation env operationID s) as [o|e] eqn:Hop.
    + unfold FindOne_product.
      destruct (fault env OpFindProduct); [discriminate|].
      destruct (find_product objID (products s)) as [p|] eqn:Hfind; [|discriminate].
      intros H. injection H as <- <-. left. eauto 10.
    + destruct e; try discriminate.
      unfold tx_bind, InsertOne_operation, tx_ret.
      destruct (fault env OpInsertOperation); [discriminate|].
      intros H. injection H as <- <-. right. simpl. auto.
Qed.

(** Every run of the coordinator is a failure that leaves the store as it
    was, a replay of a recorded key, or a commit of the increment. *)
Lemma repo_UpdateInventory_cases env productID delta operationID operationType s :
  let r := UpdateInventory env productID delta operationID operationType s in
  (fst r = s /\ exists e, snd r = Err e)
  \/
  (operationID <> "" /\ (exists o, FindOne_operation env operationID s = Ok o) /\
   fst r = s /\
   exists objID p,
     primitive.ObjectIDFromHex productID = Ok objID /\
     find_product objID (products s) = Some p /\
     snd r = Ok (Inventory p))
  \/
  ((operationID = "" \/ FindOne_operation env operationID s = Err ErrNoDocuments) /\
   exists objID p,
     primitive.ObjectIDFromHex productID = Ok objID /\
     find_product objID (products s) = Some p /\
     GoInt.in_range (Quantity (Inventory p) + delta) /\
     snd r = Ok (Inventory (adjusted env delta p)) /\
     products (fst r) = update_product objID (fun _ => adjusted env delta p) (products s) /\
     inventory_operations (fst r)
     = ledger_after env productID delta operationID operationType (inventory_operations s)).
Proof.
  cbv zeta. unfold UpdateInventory.
  destruct (primitive.ObjectIDFromHex productID) as [objID|e0] eqn:Hhex;
    [|left; simpl; eauto].
  destruct (fault env OpStartSession) eqn:Hss; [left; simpl; eauto|].
  unfold UpdateInventory_txn, tx_bind, driver.
  destruct (fault env OpStartTransaction) eqn:Hst; [left; simpl; eauto|].
  destruct (check_duplicate_operation env objID productID delta operationID operationType s)
    as [[replay s1]|e] eqn:Hdup; [|left; simpl; eauto].
  apply check_duplicate_operation_Ok in Hdup
    as [(Hkey & Hop & -> & p & Hfind & ->)|(Hnovel & -> & Hprod & Hops)].
  - right. left. unfold tx_ret. simpl. eauto 10.
  - destruct (update_product_inventory env objID delta s1) as [[o s2]|e] eqn:Hupd;
      [|left; simpl; eauto].
    apply update_product_inventory_Ok in Hupd
      as (p & Hfind & Hrange & -> & Hprod2 & Hops2).
    right. right. split; [exact Hnovel|]. exists objID, p. simpl.
    rewrite Hprod in Hfind, Hprod2. rewrite Hops2, Hops. auto 10.
Qed.

(** A failed run of the coordinator writes nothing. *)
Lemma repo_UpdateInventory_Err env productID delta operationID operationType s s' e :
  UpdateInventory env productID delta operationID operationType s = (s', Err e) -> s' = s.
Proof.
  intros H.
  destruct (repo_UpdateInventory_cases env productID delta operationID operationType s)
    as [(Hs & _)|[(_ & _ & Hs & _)|(_ & objID & p & _ & _ & _ & Hr & _)]];
    rewrite H in *; simpl in *; try congruence.
Qed.

End Coordinator.

(** ** Product documents written by the CRUD path *)

Section Documents.

Import mongodb.

Lemma repo_Create_Ok env product s s' product' :
  Create env product s = (s', product', Ok tt) ->
  find_product (ID product') (products s') = Some (bson_Product product') /\
  flag_consistent (Inventory product') /\
  Quantity (Inventory product') = Quantity (Inventory product) /\
  inventory_operations s' = inventory_operations s.
Proof.
  unfold Create.
  set (p1 := if primitive.IsZero (ID product) then with_ID (newObjectID env) product
             else product).
  set (p2 := if Time_IsZero (CreatedAt p1) then with_CreatedAt (now env) p1 else p1).
  set (p3 := with_Inventory _ _).
  destruct (fault env OpInsertProduct); [discriminate|].
  destruct (find_product (ID p3) (products s)) eqn:Hfind; [discriminate|].
  intros H. injection H as <- <-.
  split; [|split; [|split]].
  - simpl. apply find_product_app_new; [exact Hfind|reflexivity].
  - reflexivity.
  - subst p3 p2 p1. simpl.
    destruct (primitive.IsZero (ID product)); simpl;
      match goal with |- context [Time_IsZero ?t] => destruct (Time_IsZero t) end;
      reflexivity.
  - reflexivity.
Qed.

Lemma repo_Update_Ok env product s s' product' :
  Update env product s = (s', product', Ok tt) ->
  product' = with_Inventory
               (with_InStock (0 <? Quantity (Inventory product)) (Inventory product))
               (with_UpdatedAt (now env) product) /\
  products s' = update_product (ID product) (fun _ => bson_Product product') (products s) /\
  inventory_operations s' = inventory_operations s.
Proof.
  unfold Update. destruct (fault env OpReplaceProduct); [discriminate|].
  intros H. injection H as <- <-. auto.
Qed.

Lemma repo_GetByID_Ok env id s product :
  GetByID env id s = Ok product ->
  exists objID,
    primitive.ObjectIDFromHex id = Ok objID /\
    find_product objID (products s) = Some product.
Proof.
  unfold GetByID, FindOne_product.
  destruct (primitive.ObjectIDFromHex id) as [objID|]; [|discriminate].
  destruct (fault env OpGetByIDFind) as [e|].
  - destruct e; discriminate.
  - destruct (find_product objID (products s)) eqn:Hfind; [|discriminate].
    intros H. injection H as <-. eauto.
Qed.

Lemma update_fields_ID env product existing :
  ID (service.update_fields env product existing) = ID existing.
Proof.
  unfold service.update_fields.
  repeat match goal with
         | |- context [if ?b then _ else _] => destruct b
         end; reflexivity.
Qed.

Lemma update_fields_Inventory env product existing :
  Inventory (service.update_fields env product existing)
  = (if String.eqb (SKU (Inventory product)) "" then Inventory existing
     else with_SKU (SKU (Inventory product)) (Inventory existing)).
Proof.
  unfold service.update_fields.
  destruct (String.eqb (SKU (Inventory product)) ""); simpl;
    repeat match goal with
           | |- context [if ?b then _ else _] => destruct b
           end; reflexivity.
Qed.

(** What a successful [UpdateProduct] read, and what it wrote. *)
Lemma service_UpdateProduct_Ok env product s s' calls updated :
  service.UpdateProduct env product s = (s', calls, Ok updated) ->
  exists objID existing,
    primitive.ObjectIDFromHex (primitive.Hex (ID product)) = Ok objID /\
    find_product objID (products s) = Some existing /\
    ID updated = objID /\
    Inventory updated
    = with_InStock (0 <? Quantity (Inventory existing))
        (if String.eqb (SKU (Inventory product)) "" then Inventory existing
         else with_SKU (SKU (Inventory product)) (Inventory existing)) /\
    products s' = update_product objID (fun _ => bson_Product updated) (products s) /\
    inventory_operations s' = inventory_operations s.
Proof.
  unfold service.UpdateProduct.
  destruct (GetByID env (primitive.Hex (ID product)) s) as [existing|e] eqn:Hget;
    [|discriminate].
  apply repo_GetByID_Ok in Hget as (objID & Hhex & Hfind).
  pose proof (find_product_ID _ _ _ Hfind) as Hid.
  cbv zeta.
  pose proof (update_fields_ID env product existing) as Hfid.
  pose proof (update_fields_Inventory env product existing) as Hinv.
  set (final := service.update_fields env product existing) in *.
  destruct (Update env final s) as [[s1 p1] [[]|e]] eqn:Hupd; [|discriminate].
  apply repo_Update_Ok in Hupd as (-> & Hprod & Hops).
  intros H. injection H as <- _ <-.
  exists objID, existing.
  rewrite Hfid, Hid in Hprod.
  split; [exact Hhex|]. split; [exact Hfind|]. split; [simpl; congruence|].
  split; [|split; [exact Hprod|exact Hops]].
  simpl. rewrite Hinv.
  destruct (String.eqb (SKU (Inventory product)) ""); reflexivity.
Qed.

End Documents.

(** ** The coordinator without driver failures *)

Section CoordinatorRuns.

Import mongodb.

Lemma repo_UpdateInventory_novel env productID objID p delta operationID operationType s :
  fault_free env ->
  primitive.ObjectIDFromHex productID = Ok objID ->
  find_product objID (products s) = Some p ->
  operationID = "" \/ find_operation operationID (inventory_operations s) = None ->
  GoInt.in_range (Quantity (Inventory p) + delta) ->
  UpdateInventory env productID delta operationID operationType s
  = (committed_store env objID productID delta operationID operationType p s,
     Ok (Inventory (adjusted env delta p))).
Proof.
  intros Hff Hhex Hfind Hnovel Hrange.
  unfold UpdateInventory, UpdateInventory_txn, tx_bind, driver.
  rewrite Hhex, !Hff.
  unfold check_duplicate_operation, committed_store, ledger_after.
  destruct (String.eqb operationID "") eqn:Hkey; simpl.
  - rewrite (update_product_inventory_run env objID delta s p) by auto.
    reflexivity.
  - destruct Hnovel as [->|Hnone]; [discriminate|].
    unfold FindOne_operation. rewrite Hff, Hnone.
    unfold tx_bind, InsertOne_operation, tx_ret. rewrite Hff.
    rewrite (update_product_inventory_run env objID delta _ p) by auto.
    reflexivity.
Qed.

Lemma repo_UpdateInventory_replay env productID objID p o delta operationID operationType s :
  fault_free env ->
  primitive.ObjectIDFromHex productID = Ok objID ->
  find_product objID (products s) = Some p ->
  operationID <> "" ->
  find_operation operationID (inventory_operations s) = Some o ->
  UpdateInventory env productID delta operationID operationType s = (s, Ok (Inventory p)).
Proof.
  intros Hff Hhex Hfind Hkey Hsome.
  unfold UpdateInventory, UpdateInventory_txn, tx_bind, driver.
  rewrite Hhex, !Hff.
  unfold check_duplicate_operation.
  apply String.eqb_neq in Hkey. rewrite Hkey. simpl.
  unfold FindOne_operation, FindOne_product. rewrite !Hff, Hsome, Hfind.
  reflexivity.
Qed.

Lemma committed_store_product env objID productID delta operationID operationType p s :
  find_product objID (products s) = Some p ->
  find_product objID
    (products (committed_store env objID productID delta operationID operationType p s))
  = Some (adjusted env delta p).
Proof.
  intros Hfind. unfold committed_store. simpl.
  apply (find_product_update_eq objID (fun _ => adjusted env delta p) _ p Hfind).
  rewrite adjusted_ID. now apply find_product_ID in Hfind.
Qed.

Lemma committed_store_ledger env objID productID delta operationID operationType p s :
  operationID <> "" ->
  find_operation operationID (inventory_operations s) = None ->
  find_operation operationID
    (inventory_operations
       (committed_store env objID productID delta operationID operationType p s))
  = Some (mkInventoryOperation productID delta operationID operationType
            (bson_datetime (now env)))
  /\ ledger_count operationID
       (committed_store env objID productID delta operationID operationType p s) = 1%nat.
Proof.
  intros Hkey Hnone. unfold committed_store, ledger_after, ledger_count. simpl.
  apply String.eqb_neq in Hkey. rewrite Hkey. split.
  - apply find_operation_app_new; [exact Hnone|reflexivity].
  - rewrite List.filter_app, (filter_operation_none _ _ Hnone). simpl.
    rewrite String.eqb_refl. reflexivity.
Qed.

End CoordinatorRuns.

(** ** The facade in front of the coordinator *)

Section Facade.

Import mongodb.

(** A facade adjustment either stops before the coordinator, leaving the
    store as it was, or hands the request to the coordinator after the type
    check and, for a purchase or reservation that decreases stock, after a
    pre-check that reported the stock available. *)
Lemma service_UpdateInventory_cases env productID delta operationID operationType s :
  let out := service.UpdateInventory env productID delta operationID operationType s in
  (fst (fst out) = s /\ exists e, snd out = Err e)
  \/
  (In operationType vocabulary /\
   ((operationType = "purchase" \/ operationType = "reservation") -> delta < 0 ->
    exists current, CheckStock env productID (GoInt.neg delta) s = Ok (true, current)) /\
   fst (fst out) = fst (UpdateInventory env productID delta operationID operationType s) /\
   snd out = match snd (UpdateInventory env productID delta operationID operationType s) with
             | Ok updatedInventory => Ok updatedInventory
             | Err err => Err (fmt_Errorf "repository error" err)
             end).
Proof.
  cbv zeta. unfold service.UpdateInventory.
  destruct (service.map_index service.validOperationTypes operationType) eqn:Hty; simpl;
    [|left; eauto].
  apply validOperationTypes_spec in Hty.
  destruct ((String.eqb operationType "purchase" || String.eqb operationType "reservation")
            && (delta <? 0)) eqn:Hguard.
  - destruct (CheckStock env productID (GoInt.neg delta) s) as [[available current]|e]
      eqn:Hcheck; simpl; [|left; eauto].
    destruct available; simpl; [|left; eauto].
    right. split; [exact Hty|]. split; [eauto|].
    destruct (UpdateInventory env productID delta operationID operationType s)
      as [s' [inv|e]]; simpl; auto.
  - right. split; [exact Hty|]. split.
    + intros Hpr Hneg. exfalso.
      apply andb_false_iff in Hguard as [Hguard|Hguard].
      * destruct Hpr as [-> | ->]; discriminate.
      * apply Z.ltb_ge in Hguard. lia.
    + destruct (UpdateInventory env productID delta operationID operationType s)
        as [s' [inv|e]]; simpl; auto.
Qed.

Lemma service_UpdateInventory_Ok env productID delta operationID operationType s s' calls inv :
  service.UpdateInventory env productID delta operationID operationType s
  = (s', calls, Ok inv) ->
  UpdateInventory env productID delta operationID operationType s = (s', Ok inv).
Proof.
  intros H.
  destruct (service_UpdateInventory_cases env productID delta operationID operationType s)
    as [(_ & e & He)|(_ & _ & Hs & Hr)]; rewrite H in *; simpl in *; [discriminate|].
  destruct (UpdateInventory env productID delta operationID operationType s)
    as [s1 [inv1|e1]]; simpl in *; [congruence|discriminate].
Qed.

(** What each facade operation can do to the [products] collection. *)
Lemma service_CreateProduct_store env product s :
  fst (fst (service.CreateProduct env product s)) = s
  \/ exists p',
       flag_consistent (Inventory p') /\
       products (fst (fst (service.CreateProduct env product s)))
       = (products s ++ [p'])%list.
Proof.
  unfold service.CreateProduct.
  destruct (service.validateProduct product); [left; reflexivity|].
  unfold Create.
  destruct (fault env OpInsertProduct); [left; reflexivity|].
  match goal with
  | |- context [find_product ?i (products s)] => destruct (find_product i (products s))
  end; [left; reflexivity|].
  right. eexists. split; [|reflexivity]. reflexivity.
Qed.

Lemma service_UpdateProduct_store env product s :
  fst (fst (service.UpdateProduct env product s)) = s
  \/ exists objID p',
       flag_consistent (Inventory p') /\
       products (fst (fst (service.UpdateProduct env product s)))
       = update_product objID (fun _ => p') (products s).
Proof.
  unfold service.UpdateProduct.
  destruct (GetByID env (primitive.Hex (ID product)) s); [|left; reflexivity].
  cbv zeta. unfold Update.
  destruct (fault env OpReplaceProduct); [left; reflexivity|].
  right. eexists _, _. split; [|reflexivity]. reflexivity.
Qed.

Lemma service_UpdateInventory_store env productID delta operationID operationType s :
  fst (fst (service.UpdateInventory env productID delta operationID operationType s)) = s
  \/ exists objID p',
       flag_consistent (Inventory p') /\
       products (fst (fst (service.UpdateInventory env productID delta operationID
                             operationType s)))
       = update_product objID (fun _ => p') (products s).
Proof.
  destruct (service_UpdateInventory_cases env productID delta operationID operationType s)
    as [(Hsame & _)|(_ & _ & Hstore & _)]; [left; exact Hsame|].
  rewrite Hstore.
  destruct (repo_UpdateInventory_cases env productID delta operationID operationType s)
    as [(Hsame & _)|[(_ & _ & Hsame & _)|(_ & objID & p & _ & _ & _ & _ & Hprod & _)]];
    [left; exact Hsame|left; exact Hsame|].
  right. exists objID, (adjusted env delta p). split; [reflexivity|exact Hprod].
Qed.

Lemma all_consistent_update objID p' s s' :
  all_consistent s ->
  flag_consistent (Inventory p') ->
  products s' = update_product objID (fun _ => p') (products s) ->
  all_consistent s'.
Proof.
  unfold all_consistent. intros Hs Hp ->.
  apply Forall_update_product; [exact Hs|]. intros _ _. exact Hp.
Qed.

End Facade.

(** C4. The pre-check misses one delta.  For a purchase or reservation whose
    delta is the minimum int, on a stored product with
    [0 <= reserved <= quantity], the request asks for more than the
    available stock: [quantity - reserved < -delta] holds of the integers.
    The code negates the delta in [int] arithmetic, where the minimum int is
    its own negation, so the stock check is asked for a negative quantity
    and reports the stock available: the call is not rejected, the
    coordinator is invoked, the ledger entry is written when the request
    carries a key, and the delta is committed, leaving a negative quantity.
    For every other negative delta the pre-check is the integer comparison
    ([UpdateInventory_precheck]). *)
Theorem UpdateInventory_precheck_misses_min_int :
  forall env productID objID product operationID operationType s,
    fault_free env ->
    operationType = "purchase" \/ operationType = "reservation" ->
    primitive.ObjectIDFromHex productID = Ok objID ->
    mongodb.find_product objID (mongodb.products s) = Some product ->
    operationID = ""
    \/ mongodb.find_operation operationID (mongodb.inventory_operations s) = None ->
    0 <= Reserved (Inventory product) <= Quantity (Inventory product) ->
    Quantity (Inventory product) <= GoInt.max_int ->
    let delta := GoInt.min_int in
    let quantity := Quantity (Inventory product) in
    let reserved := Reserved (Inventory product) in
    delta < 0
    /\ quantity - reserved < - delta
    /\ service.UpdateInventory env productID delta operationID operationType s
       = (committed_store env objID productID delta operationID operationType product s,
          [service.CallCheckStock productID delta;
           service.CallUpdateInventory productID delta operationID operationType],
          Ok (mkInventoryInfo (quantity - 2 ^ 63) (SKU (Inventory product)) false reserved))
    /\ snapshot objID
         (committed_store env objID productID delta operationID operationType product s)
       = Some (mkInventoryInfo (quantity - 2 ^ 63) (SKU (Inventory product)) false reserved)
    /\ quantity - 2 ^ 63 < 0
    /\ mongodb.inventory_operations
         (committed_store env objID productID delta operationID operationType product s)
       = (if String.eqb operationID "" then mongodb.inventory_operations s
          else (mongodb.inventory_operations s
                ++ [mkInventoryOperation productID delta operationID operationType
                      (bson_datetime (now env))])%list).
Proof.
  intros env productID objID product operationID operationType s
    Hff Hty Hhex Hfind Hkey Hres Hmax delta quantity reserved.
  assert (Hq : quantity + delta = quantity - 2 ^ 63)
    by (subst delta; unfold GoInt.min_int; lia).
  assert (Hrange : GoInt.in_range (quantity + delta)).
  { subst delta quantity.
    unfold GoInt.in_range, GoInt.min_int, GoInt.max_int in *. lia. }
  assert (Hadj : Inventory (adjusted env delta product)
                 = mkInventoryInfo (quantity - 2 ^ 63) (SKU (Inventory product)) false
                     reserved).
  { unfold adjusted. cbv zeta. fold quantity reserved.
    cbn [Inventory with_UpdatedAt with_Inventory].
    rewrite Hq.
    assert ((0 <? quantity - 2 ^ 63) = false) as ->
      by (apply Z.ltb_ge; subst quantity; unfold GoInt.max_int in Hmax; lia).
    reflexivity. }
  split; [reflexivity|].
  split; [subst delta quantity reserved; unfold GoInt.min_int, GoInt.max_int in *; lia|].
  split; [|split; [|split]].
  - unfold service.UpdateInventory.
    rewrite (precheck_type_valid _ Hty).
    assert (Hguard :
      (String.eqb operationType "purchase" || String.eqb operationType "reservation")
      && (delta <? 0) = true).
    { apply andb_true_iff. split; [|reflexivity].
      destruct Hty as [-> | ->]; reflexivity. }
    rewrite Hguard.
    change (GoInt.neg delta) with delta.
    rewrite (repo_CheckStock_found env productID objID product delta s
               Hhex (Hff _) Hfind).
    fold quantity reserved. cbn [fst snd].
    assert ((GoInt.sub quantity reserved >=? delta) = true) as ->.
    { apply Z.geb_le.
      rewrite sub_exact
        by (subst quantity reserved;
            unfold GoInt.in_range, GoInt.min_int, GoInt.max_int in *; lia).
      subst delta quantity reserved. unfold GoInt.min_int. lia. }
    cbn [negb].
    rewrite (repo_UpdateInventory_novel env productID objID product delta operationID
               operationType s Hff Hhex Hfind Hkey Hrange).
    cbn [fst snd]. rewrite Hadj. reflexivity.
  - unfold snapshot.
    rewrite (committed_store_product env objID productID delta operationID operationType
               product s Hfind).
    cbn [option_map]. rewrite Hadj. reflexivity.
  - subst quantity. unfold GoInt.max_int in Hmax. lia.
  - reflexivity.
Qed.

Lemma UpdateInventory_precheck_misses_min_int_witness :
  5 - 0 < - GoInt.min_int
  /\ service.UpdateInventory Sample.env0 Sample.id1 GoInt.min_int "op1" "purchase"
       (Sample.shop 5 0)
     = (committed_store Sample.env0 Sample.oid1 Sample.id1 GoInt.min_int "op1" "purchase"
          (Sample.widget 5 0) (Sample.shop 5 0),
        [service.CallCheckStock Sample.id1 GoInt.min_int;
         service.CallUpdateInventory Sample.id1 GoInt.min_int "op1" "purchase"],
        Ok (mkInventoryInfo (-9223372036854775803) "W-1" false 0))
  /\ mongodb.inventory_operations
       (committed_store Sample.env0 Sample.oid1 Sample.id1 GoInt.min_int "op1" "purchase"
          (Sample.widget 5 0) (Sample.shop 5 0))
     = [mkInventoryOperation Sample.id1 GoInt.min_int "op1" "purchase" 1700000000].
Proof.
  assert (Hff : fault_free Sample.env0) by (intros op; reflexivity).
  assert (Hty : "purchase" = "purchase" \/ "purchase" = "reservation") by (left; reflexivity).
  assert (Hres : 0 <= 0 <= 5) by lia.
  assert (Hmax : 5 <= GoInt.max_int) by (vm_compute; discriminate).
  destruct (UpdateInventory_precheck_misses_min_int Sample.env0 Sample.id1 Sample.oid1
              (Sample.widget 5 0) "op1" "purchase" (Sample.shop 5 0)
              Hff Hty eq_refl eq_refl (or_intror eq_refl) Hres Hmax)
    as (_ & Hlt & Hrun & _ & _ & Hledger).
  split; [exact Hlt|]. split; [exact Hrun|]. exact Hledger.
Defined.

(** C3. The operations that create a product or commit a quantity change
    leave a committed snapshot whose flag is the one derived from its
    quantity, [inStock = (quantity > 0)]: the product stored by a successful
    [CreateProduct], the product stored by a successful [UpdateProduct], and
    the product adjusted by a successful [UpdateInventory] that applied its
    delta (empty idempotency key, or a key the ledger did not hold).  In each
    case the snapshot read back from the resulting store is the one the call
    returned, so the flag is written in the same operation as the quantity.
    The flag never drifts: if it agrees with the quantity on every stored
    product before one of these calls, it does so after the call, whatever
    the call's outcome. *)
Theorem InStock_follows_quantity :
  (forall env product s s' calls created,
      service.CreateProduct env product s = (s', calls, Ok created) ->
      snapshot (ID created) s' = Some (Inventory created) /\
      flag_consistent (Inventory created))
  /\
  (forall env product s s' calls updated,
      service.UpdateProduct env product s = (s', calls, Ok updated) ->
      snapshot (ID updated) s' = Some (Inventory updated) /\
      flag_consistent (Inventory updated))
  /\
  (forall env productID delta operationID operationType s s' calls updatedInventory,
      service.UpdateInventory env productID delta operationID operationType s
      = (s', calls, Ok updatedInventory) ->
      operationID = "" \/ mongodb.FindOne_operation env operationID s = Err ErrNoDocuments ->
      exists objID,
        primitive.ObjectIDFromHex productID = Ok objID /\
        snapshot objID s' = Some updatedInventory /\
        flag_consistent updatedInventory)
  /\
  (forall env product productID delta operationID operationType s,
      all_consistent s ->
      all_consistent (fst (fst (service.CreateProduct env product s))) /\
      all_consistent (fst (fst (service.UpdateProduct env product s))) /\
      all_consistent
        (fst (fst (service.UpdateInventory env productID delta operationID operationType s)))).
Proof.
  split; [|split; [|split]].
  - intros env product s s' calls created H.
    unfold service.CreateProduct in H.
    destruct (service.validateProduct product); [discriminate|].
    match type of H with
    | context [mongodb.Create env ?p s] =>
        destruct (mongodb.Create env p s) as [[s1 p1] [[]|e]] eqn:Hc
    end; [|discriminate].
    injection H as <- _ <-.
    apply repo_Create_Ok in Hc as (Hfind & Hflag & _).
    unfold snapshot. rewrite Hfind. auto.
  - intros env product s s' calls updated H.
    apply service_UpdateProduct_Ok in H
      as (objID & existing & _ & Hfind & Hid & Hinv & Hprod & _).
    split.
    + unfold snapshot. rewrite Hprod, Hid.
      rewrite (find_product_update_eq objID (fun _ => bson_Product updated) _ existing
                 Hfind Hid).
      reflexivity.
    + unfold flag_consistent. rewrite Hinv.
      destruct (String.eqb (SKU (Inventory product)) ""); reflexivity.
  - intros env productID delta operationID operationType s s' calls inv H Hnovel.
    apply service_UpdateInventory_Ok in H.
    destruct (repo_UpdateInventory_cases env productID delta operationID operationType s)
      as [(_ & e & He)|[(Hkey & (o & Ho) & _)|(_ & objID & p & Hhex & Hfind & _ & Hr & Hprod & _)]];
      try rewrite H in *; simpl in *.
    + discriminate.
    + destruct Hnovel as [Hempty|Hnone]; [contradiction|congruence].
    + injection Hr as ->. exists objID. split; [exact Hhex|]. split; [|reflexivity].
      unfold snapshot. rewrite Hprod.
      rewrite (find_product_update_eq objID (fun _ => adjusted env delta p) _ p Hfind).
      * reflexivity.
      * rewrite adjusted_ID. now apply find_product_ID in Hfind.
  - intros env product productID delta operationID operationType s Hs.
    split; [|split].
    + destruct (service_CreateProduct_store env product s) as [->|(p' & Hp & Hprod)];
        [exact Hs|].
      unfold all_consistent in *. rewrite Hprod.
      apply Forall_app. split; [exact Hs|]. constructor; [exact Hp|constructor].
    + destruct (service_UpdateProduct_store env product s)
        as [->|(objID & p' & Hp & Hprod)]; [exact Hs|].
      exact (all_consistent_update objID p' s _ Hs Hp Hprod).
    + destruct (service_UpdateInventory_store env productID delta operationID operationType s)
        as [->|(objID & p' & Hp & Hprod)]; [exact Hs|].
      exact (all_consistent_update objID p' s _ Hs Hp Hprod).
Qed.

Lemma InStock_follows_quantity_witness :
  (snapshot 1%N (fst (fst (service.CreateProduct Sample.env0 Sample.nan_priced
                             Sample.empty_shop)))
   = Some (mkInventoryInfo 3 "W-1" true 0))
  /\
  (snapshot Sample.oid1
     (fst (fst (service.UpdateProduct Sample.env0 (Sample.request 999 7) (Sample.shop 0 2))))
   = Some (mkInventoryInfo 0 "W-2" false 2))
  /\
  (exists objID,
     primitive.ObjectIDFromHex Sample.id1 = Ok objID /\
     snapshot objID
       (fst (fst (service.UpdateInventory Sample.env0 Sample.id1 10 "op3" "restock"
                    (Sample.shop 0 0))))
     = Some (mkInventoryInfo 10 "W-1" true 0) /\
     flag_consistent (mkInventoryInfo 10 "W-1" true 0))
  /\
  all_consistent
    (fst (fst (service.UpdateInventory Sample.env0 Sample.id1 10 "op3" "restock"
                 (Sample.shop 0 0)))).
Proof.
  destruct InStock_follows_quantity as (Hcreate & Hupdate & Hadjust & Hall).
  split; [|split; [|split]].
  - exact (proj1 (Hcreate Sample.env0 Sample.nan_priced Sample.empty_shop _ _
                    (with_Inventory (mkInventoryInfo 3 "W-1" true 0)
                       (with_Active true
                          (with_UpdatedAt 1700000000
                             (with_CreatedAt 1700000000 (with_ID 1%N Sample.nan_priced)))))
                    eq_refl)).
  - exact (proj1 (Hupdate Sample.env0 (Sample.request 999 7) (Sample.shop 0 2) _ _
                    (with_UpdatedAt (now Sample.env0)
                       (with_Inventory (mkInventoryInfo 0 "W-2" false 2)
                          (with_Name "gadget" (Sample.widget 0 2))))
                    eq_refl)).
  - apply (Hadjust Sample.env0 Sample.id1 10 "op3" "restock" (Sample.shop 0 0) _
             [service.CallUpdateInventory Sample.id1 10 "op3" "restock"]).
    + vm_compute. reflexivity.
    + right. vm_compute. reflexivity.
  - apply (Hall Sample.env0 Sample.nan_priced Sample.id1 10 "op3" "restock"
             (Sample.shop 0 0)).
    repeat constructor.
Defined.

(** C10. A successful [UpdateProduct] stores, for the product it read, an
    inventory whose quantity and reserved are those of the stored product at
    the read; of the inventory fields only the SKU may differ (it is the
    request's SKU when that is non-empty), and [inStock] is the flag derived
    from the unchanged quantity.  No other product and no ledger entry is
    touched. *)
Theorem UpdateProduct_keeps_stock :
  forall env product s s' calls updated,
    service.UpdateProduct env product s = (s', calls, Ok updated) ->
    exists objID existing,
      primitive.ObjectIDFromHex (primitive.Hex (ID product)) = Ok objID /\
      mongodb.find_product objID (mongodb.products s) = Some existing /\
      snapshot objID s' = Some (Inventory updated) /\
      Quantity (Inventory updated) = Quantity (Inventory existing) /\
      Reserved (Inventory updated) = Reserved (Inventory existing) /\
      InStock (Inventory updated) = (0 <? Quantity (Inventory existing)) /\
      SKU (Inventory updated)
      = (if String.eqb (SKU (Inventory product)) "" then SKU (Inventory existing)
         else SKU (Inventory product)) /\
      (forall other, other <> objID -> snapshot other s' = snapshot other s) /\
      mongodb.inventory_operations s' = mongodb.inventory_operations s.
Proof.
  intros env product s s' calls updated H.
  apply service_UpdateProduct_Ok in H
    as (objID & existing & Hhex & Hfind & Hid & Hinv & Hprod & Hops).
  exists objID, existing.
  split; [exact Hhex|]. split; [exact Hfind|]. split.
  { unfold snapshot. rewrite Hprod.
    rewrite (find_product_update_eq objID (fun _ => bson_Product updated) _ existing
               Hfind Hid).
    reflexivity. }
  rewrite Hinv.
  repeat split; try (destruct (String.eqb (SKU (Inventory product)) ""); reflexivity).
  - intros other Hother. unfold snapshot. rewrite Hprod.
    rewrite find_product_update_ne; [reflexivity|exact Hother|intros; exact Hid].
  - exact Hops.
Qed.

Lemma UpdateProduct_keeps_stock_witness :
  exists objID existing,
    primitive.ObjectIDFromHex
      (primitive.Hex (ID (Sample.request 999 7))) = Ok objID /\
    mongodb.find_product objID (mongodb.products (Sample.shop 40 2)) = Some existing /\
    snapshot objID (fst (fst (service.UpdateProduct Sample.env0 (Sample.request 999 7)
                               (Sample.shop 40 2))))
    = Some (mkInventoryInfo 40 "W-2" true 2).
Proof.
  destruct (UpdateProduct_keeps_stock Sample.env0 (Sample.request 999 7) (Sample.shop 40 2)
              (fst (fst (service.UpdateProduct Sample.env0 (Sample.request 999 7)
                           (Sample.shop 40 2))))
              (snd (fst (service.UpdateProduct Sample.env0 (Sample.request 999 7)
                           (Sample.shop 40 2))))
              (with_UpdatedAt (now Sample.env0)
                 (with_Inventory (mkInventoryInfo 40 "W-2" true 2)
                    (with_Name "gadget" (Sample.widget 40 2))))
              eq_refl)
    as (objID & existing & Hhex & Hfind & Hsnap & _).
  exists objID, existing. auto.
Defined.

(** C5, as stated, fails: a call with an empty idempotency key is applied
    (30 becomes 20) and the ledger has not grown by an entry. *)
Lemma UpdateInventory_empty_key_no_entry :
  snd (mongodb.UpdateInventory Sample.env0 Sample.id1 (-10) "" "adjustment" (Sample.shop 30 0))
  = Ok (mkInventoryInfo 20 "W-1" true 0)
  /\
  List.length
    (mongodb.inventory_operations
       (fst (mongodb.UpdateInventory Sample.env0 Sample.id1 (-10) "" "adjustment"
               (Sample.shop 30 0))))
  <> S (List.length (mongodb.inventory_operations (Sample.shop 30 0))).
Proof.
  split; [reflexivity|]. vm_compute. discriminate.
Qed.

(** C5, amended.  A successful adjustment with a non-empty idempotency key
    that the ledger consult did not find appends exactly one entry to the
    ledger, carrying the call's product id, delta, key and operation type.  A
    successful adjustment with an empty key skips the ledger: it is always
    applied (the returned quantity is the stored quantity plus delta) and
    the ledger is left as it was. *)
Theorem UpdateInventory_ledger_entries :
  forall env productID delta operationID operationType s s' updatedInventory,
    mongodb.UpdateInventory env productID delta operationID operationType s
    = (s', Ok updatedInventory) ->
    (operationID <> "" ->
     mongodb.FindOne_operation env operationID s = Err ErrNoDocuments ->
     mongodb.inventory_operations s'
     = (mongodb.inventory_operations s
        ++ [mkInventoryOperation productID delta operationID operationType
              (bson_datetime (now env))])%list)
    /\
    (operationID = "" ->
     mongodb.inventory_operations s' = mongodb.inventory_operations s /\
     exists objID p,
       primitive.ObjectIDFromHex productID = Ok objID /\
       mongodb.find_product objID (mongodb.products s) = Some p /\
       Quantity updatedInventory = Quantity (Inventory p) + delta /\
       snapshot objID s' = Some updatedInventory).
Proof.
  intros env productID delta operationID operationType s s' inv H.
  destruct (repo_UpdateInventory_cases env productID delta operationID operationType s)
    as [(_ & e & He)|[(Hkey & (o & Ho) & _)
                     |(_ & objID & p & Hhex & Hfind & _ & Hr & Hprod & Hops)]];
    try rewrite H in *; simpl in *.
  - discriminate.
  - split; [congruence|contradiction].
  - injection Hr as ->. unfold ledger_after in Hops. split.
    + intros Hkey _. apply String.eqb_neq in Hkey. rewrite Hkey in Hops. exact Hops.
    + intros ->. simpl in Hops. split; [exact Hops|].
      exists objID, p. repeat split; auto.
      unfold snapshot. rewrite Hprod.
      rewrite (find_product_update_eq objID (fun _ => adjusted env delta p) _ p Hfind).
      * reflexivity.
      * rewrite adjusted_ID. now apply find_product_ID in Hfind.
Qed.

Lemma UpdateInventory_ledger_entries_witness :
  mongodb.inventory_operations
    (fst (mongodb.UpdateInventory Sample.env0 Sample.id1 (-5) "op1" "purchase"
            (Sample.shop 100 0)))
  = [mkInventoryOperation Sample.id1 (-5) "op1" "purchase" 1700000000]
  /\
  mongodb.inventory_operations
    (fst (mongodb.UpdateInventory Sample.env0 Sample.id1 (-10) "" "adjustment"
            (Sample.shop 30 0)))
  = [].
Proof.
  split.
  - apply (UpdateInventory_ledger_entries Sample.env0 Sample.id1 (-5) "op1" "purchase"
             (Sample.shop 100 0) _ (mkInventoryInfo 95 "W-1" true 0) eq_refl);
      [discriminate|reflexivity].
  - apply (UpdateInventory_ledger_entries Sample.env0 Sample.id1 (-10) "" "adjustment"
             (Sample.shop 30 0) _ (mkInventoryInfo 20 "W-1" true 0) eq_refl).
    reflexivity.
Defined.

(** C6, as stated, fails: the ledger insert is rejected as a duplicate and
    the call ends in that error, not in the committed snapshot. *)
Lemma UpdateInventory_duplicate_key_is_an_error :
  mongodb.UpdateInventory Sample.env_duplicate Sample.id1 (-5) "op1" "purchase"
    (Sample.shop 100 0)
  = (Sample.shop 100 0, Err ErrDuplicateKey)
  /\
  snd (service.UpdateInventory Sample.env_duplicate Sample.id1 (-5) "op1" "purchase"
         (Sample.shop 100 0))
  = Err (fmt_Errorf "repository error" ErrDuplicateKey)
  /\
  snd (service.UpdateInventory Sample.env_duplicate Sample.id1 (-5) "op1" "purchase"
         (Sample.shop 100 0))
  <> Ok (Inventory (Sample.widget 100 0)).
Proof.
  split; [reflexivity|]. split; [reflexivity|]. vm_compute. discriminate.
Qed.

(** C6, amended.  If the ledger insert for a non-empty idempotency key fails,
    with a uniqueness violation or with any other error, the adjustment
    fails with that error: the inventory write is not attempted, nothing is
    committed (the store is the one before the call), and the facade, when
    it reaches the coordinator, reports the error wrapped as
    "repository error". *)
Theorem UpdateInventory_insert_failure_propagates :
  forall env productID objID delta operationID operationType s e,
    operationID <> "" ->
    primitive.ObjectIDFromHex productID = Ok objID ->
    fault env OpStartSession = None ->
    fault env OpStartTransaction = None ->
    mongodb.FindOne_operation env operationID s = Err ErrNoDocuments ->
    fault env OpInsertOperation = Some e ->
    mongodb.UpdateInventory env productID delta operationID operationType s = (s, Err e)
    /\
    (fst (fst (service.UpdateInventory env productID delta operationID operationType s)) = s
     /\ exists e', snd (service.UpdateInventory env productID delta operationID operationType s)
                   = Err e'
                   /\ (List.In (service.CallUpdateInventory productID delta operationID
                                  operationType)
                         (snd (fst (service.UpdateInventory env productID delta operationID
                                      operationType s))) ->
                       e' = fmt_Errorf "repository error" e)).
Proof.
  intros env productID objID delta operationID operationType s e
    Hkey Hhex Hss Hst Hconsult Hins.
  assert (Hrepo :
    mongodb.UpdateInventory env productID delta operationID operationType s = (s, Err e)).
  { unfold mongodb.UpdateInventory, mongodb.UpdateInventory_txn, mongodb.tx_bind,
      mongodb.driver.
    rewrite Hhex, Hss, Hst. unfold mongodb.check_duplicate_operation.
    apply String.eqb_neq in Hkey. rewrite Hkey. simpl. rewrite Hconsult.
    unfold mongodb.tx_bind, mongodb.InsertOne_operation. rewrite Hins. reflexivity. }
  split; [exact Hrepo|].
  unfold service.UpdateInventory. rewrite Hrepo.
  destruct (service.map_index service.validOperationTypes operationType); simpl.
  - destruct ((String.eqb operationType "purchase" || String.eqb operationType "reservation")
              && (delta <? 0)).
    + destruct (mongodb.CheckStock env productID (GoInt.neg delta) s)
        as [[[] current]|err]; simpl.
      * split; [reflexivity|]. eexists. split; [reflexivity|]. reflexivity.
      * split; [reflexivity|]. eexists. split; [reflexivity|].
        intros [Hin|[]]. discriminate.
      * split; [reflexivity|]. eexists. split; [reflexivity|].
        intros [Hin|[]]. discriminate.
    + split; [reflexivity|]. eexists. split; [reflexivity|]. reflexivity.
  - split; [reflexivity|]. eexists. split; [reflexivity|]. intros [].
Qed.

Lemma UpdateInventory_insert_failure_propagates_witness :
  mongodb.UpdateInventory Sample.env_duplicate Sample.id1 (-5) "op1" "purchase"
    (Sample.shop 100 0)
  = (Sample.shop 100 0, Err ErrDuplicateKey).
Proof.
  apply (UpdateInventory_insert_failure_propagates Sample.env_duplicate Sample.id1
           Sample.oid1 (-5) "op1" "purchase" (Sample.shop 100 0) ErrDuplicateKey);
    first [discriminate | reflexivity].
Defined.

(** ** Repeating one request *)

Section Repetition.

Import mongodb.

Lemma run_calls_fixed {R : Type} (f : Env -> Store -> Store * R) (P : Env -> Prop)
    (envs : list Env) (s : Store) (r : R) :
  (forall env, P env -> f env s = (s, r)) ->
  Forall P envs ->
  run_calls f envs s = (s, repeat r (List.length envs)).
Proof.
  intros Hf Hall. induction Hall as [|env envs Henv Hall IH]; simpl; [reflexivity|].
  rewrite (Hf env Henv), IH. reflexivity.
Qed.

(** The facade on a product that is found, when no driver call fails. *)
Lemma facade_adjust_run env productID objID p delta operationID operationType s :
  fault_free env ->
  In operationType vocabulary ->
  primitive.ObjectIDFromHex productID = Ok objID ->
  find_product objID (products s) = Some p ->
  facade_adjust productID delta operationID operationType env s
  = if is_decrease operationType delta
       && negb (GoInt.sub (Quantity (Inventory p)) (Reserved (Inventory p))
                >=? GoInt.neg delta)
    then (s, Err (errors_New "insufficient stock"))
    else (fst (UpdateInventory env productID delta operationID operationType s),
          match snd (UpdateInventory env productID delta operationID operationType s) with
          | Ok updatedInventory => Ok updatedInventory
          | Err err => Err (fmt_Errorf "repository error" err)
          end).
Proof.
  intros Hff Hty Hhex Hfind.
  unfold facade_adjust, service.UpdateInventory, is_decrease.
  apply validOperationTypes_spec in Hty. rewrite Hty. simpl.
  destruct ((String.eqb operationType "purchase" || String.eqb operationType "reservation")
            && (delta <? 0)); simpl.
  - rewrite (repo_CheckStock_found env productID objID p (GoInt.neg delta) s Hhex
               (Hff OpCheckStockFind) Hfind).
    destruct (GoInt.sub (Quantity (Inventory p)) (Reserved (Inventory p)) >=? GoInt.neg delta);
      simpl; [|reflexivity].
    destruct (UpdateInventory env productID delta operationID operationType s)
      as [s' [inv|e]]; reflexivity.
  - destruct (UpdateInventory env productID delta operationID operationType s)
      as [s' [inv|e]]; reflexivity.
Qed.

End Repetition.

(** C1, as stated, fails for the facade: a purchase of 5 from a stock of 5
    is applied by the first call, and the identical second call is answered
    by the pre-check with "insufficient stock" instead of the committed
    snapshot. *)
Lemma UpdateInventory_retry_rejected_by_precheck :
  snd (run_calls (facade_adjust Sample.id1 (-5) "op1" "purchase")
         [Sample.env0; Sample.env0] (Sample.shop 5 0))
  = [Ok (mkInventoryInfo 0 "W-1" false 0); Err (errors_New "insufficient stock")].
Proof. vm_compute. reflexivity. Qed.

(** C1, amended.  Take a product that exists, a non-empty idempotency key the
    ledger does not hold yet, a delta whose sum with the quantity is
    representable, and N >= 1 calls with the same
    (productId, idempotencyKey, delta, operationType) in which no driver call
    fails.  Through the repository's [UpdateInventory] every call returns the
    same committed snapshot, whose quantity is the old quantity plus delta.
    Through the facade's [UpdateInventory], when the first call passes the
    type check and the pre-check, the first call returns that snapshot and
    every later call returns the same answer: that snapshot, or, for a
    purchase or reservation with negative delta that the pre-check now
    rejects against the decremented stock, "insufficient stock".  Either way
    the store after the N calls is the store after the first one: the
    quantity changed by delta once and the ledger holds exactly one entry for
    the key. *)
Theorem UpdateInventory_idempotent :
  forall env envs productID objID product delta operationID operationType s,
    operationID <> "" ->
    primitive.ObjectIDFromHex productID = Ok objID ->
    mongodb.find_product objID (mongodb.products s) = Some product ->
    mongodb.find_operation operationID (mongodb.inventory_operations s) = None ->
    GoInt.in_range (Quantity (Inventory product) + delta) ->
    Forall fault_free (env :: envs) ->
    let committed := Inventory (adjusted env delta product) in
    let s1 := committed_store env objID productID delta operationID operationType product s in
    let retry :=
      if is_decrease operationType delta
         && negb (GoInt.sub (Quantity committed) (Reserved committed) >=? GoInt.neg delta)
      then Err (errors_New "insufficient stock")
      else Ok committed in
    run_calls (repo_adjust productID delta operationID operationType) (env :: envs) s
    = (s1, repeat (Ok committed) (S (List.length envs)))
    /\
    (In operationType vocabulary ->
     (is_decrease operationType delta = true ->
      GoInt.neg delta
      <= GoInt.sub (Quantity (Inventory product)) (Reserved (Inventory product))) ->
     run_calls (facade_adjust productID delta operationID operationType) (env :: envs) s
     = (s1, Ok committed :: repeat retry (List.length envs)))
    /\ snapshot objID s1 = Some committed
    /\ Quantity committed = Quantity (Inventory product) + delta
    /\ ledger_count operationID s = 0%nat
    /\ ledger_count operationID s1 = 1%nat.
Proof.
  intros env envs productID objID product delta operationID operationType s
    Hkey Hhex Hfind Hnone Hrange Hall committed s1 retry.
  inversion Hall as [|? ? Henv Henvs]; subst.
  pose proof (repo_UpdateInventory_novel env productID objID product delta operationID
                operationType s Henv Hhex Hfind (or_intror Hnone) Hrange) as Hfirst.
  fold s1 committed in Hfirst.
  pose proof (committed_store_product env objID productID delta operationID operationType
                product s Hfind) as Hfind1.
  fold s1 in Hfind1.
  destruct (committed_store_ledger env objID productID delta operationID operationType
              product s Hkey Hnone) as [Hop1 Hcount1].
  fold s1 in Hop1, Hcount1.
  assert (Hreplay : forall env', fault_free env' ->
            mongodb.UpdateInventory env' productID delta operationID operationType s1
            = (s1, Ok committed)).
  { intros env' Hff.
    exact (repo_UpdateInventory_replay env' productID objID _ _ delta operationID
             operationType s1 Hff Hhex Hfind1 Hkey Hop1). }
  split; [|split; [|split; [|split; [|split]]]].
  - simpl. unfold repo_adjust at 1. rewrite Hfirst.
    rewrite (run_calls_fixed _ fault_free envs s1 (Ok committed)); [reflexivity| |exact Henvs].
    intros env' Hff. apply Hreplay, Hff.
  - intros Hty Hpass. simpl.
    rewrite (facade_adjust_run env productID objID product delta operationID operationType s
               Henv Hty Hhex Hfind).
    rewrite Hfirst. simpl.
    assert (is_decrease operationType delta
            && negb (GoInt.sub (Quantity (Inventory product)) (Reserved (Inventory product))
                     >=? GoInt.neg delta) = false) as ->.
    { destruct (is_decrease operationType delta); [|reflexivity]. simpl.
      apply negb_false_iff, Z.geb_le, Hpass. reflexivity. }
    rewrite (run_calls_fixed _ fault_free envs s1 retry); [reflexivity| |exact Henvs].
    intros env' Hff.
    rewrite (facade_adjust_run env' productID objID _ delta operationID operationType s1
               Hff Hty Hhex Hfind1).
    rewrite (Hreplay env' Hff). subst retry. simpl.
    match goal with |- context [if ?b then _ else _] => destruct b end; reflexivity.
  - unfold snapshot. rewrite Hfind1. reflexivity.
  - reflexivity.
  - unfold ledger_count. rewrite (filter_operation_none _ _ Hnone). reflexivity.
  - exact Hcount1.
Qed.

Lemma UpdateInventory_idempotent_witness :
  run_calls (repo_adjust Sample.id1 (-5) "op1" "purchase")
    [Sample.env0; Sample.env0; Sample.env0] (Sample.shop 100 0)
  = (mongodb.mkStore
       [adjusted Sample.env0 (-5) (Sample.widget 100 0)]
       [mkInventoryOperation Sample.id1 (-5) "op1" "purchase" 1700000000],
     [Ok (mkInventoryInfo 95 "W-1" true 0);
      Ok (mkInventoryInfo 95 "W-1" true 0);
      Ok (mkInventoryInfo 95 "W-1" true 0)]).
Proof.
  assert (Hall : Forall fault_free [Sample.env0; Sample.env0; Sample.env0]).
  { repeat (constructor; [intros op; reflexivity|]). constructor. }
  assert (Hrange : GoInt.in_range (Quantity (Inventory (Sample.widget 100 0)) + -5)).
  { vm_compute. split; discriminate. }
  assert (Hkey : "op1" <> "") by discriminate.
  exact (proj1 (UpdateInventory_idempotent Sample.env0 [Sample.env0; Sample.env0] Sample.id1
                  Sample.oid1 (Sample.widget 100 0) (-5) "op1" "purchase"
                  (Sample.shop 100 0) Hkey eq_refl eq_refl eq_refl Hrange Hall)).
Defined.

(** ** Stock levels along a sequence of requests *)

Section StockLevels.

Import mongodb.

Lemma repo_CheckStock_Ok env productID requested s available current :
  CheckStock env productID requested s = Ok (available, current) ->
  exists objID p,
    primitive.ObjectIDFromHex productID = Ok objID /\
    find_product objID (products s) = Some p /\
    current = GoInt.sub (Quantity (Inventory p)) (Reserved (Inventory p)) /\
    available = (current >=? requested).
Proof.
  unfold CheckStock, FindOne_product.
  destruct (primitive.ObjectIDFromHex productID) as [objID|]; [|discriminate].
  destruct (fault env OpCheckStockFind) as [e|].
  - destruct e; discriminate.
  - destruct (find_product objID (products s)) as [p|] eqn:Hfind; [|discriminate].
    intros H. injection H as <- <-. eauto 10.
Qed.

Lemma apply_call_stock_ok s c :
  stock_ok s -> prechecked c -> stock_ok (apply_call s c).
Proof.
  intros Hs Hc. unfold apply_call, facade_adjust.
  destruct (service_UpdateInventory_cases (call_env c) (call_productID c) (call_delta c)
              (call_key c) (call_type c) s) as [(Hsame & _)|(_ & Hcheck & Hstore & _)];
    destruct (service.UpdateInventory (call_env c) (call_productID c) (call_delta c)
                (call_key c) (call_type c) s) as [[s' calls] r]; simpl in *.
  - subst s'. exact Hs.
  - subst s'.
    destruct (repo_UpdateInventory_cases (call_env c) (call_productID c) (call_delta c)
                (call_key c) (call_type c) s)
      as [(Hsame & _)|[(_ & _ & Hsame & _)
                      |(_ & objID & p & Hhex & Hfind & Hrange & _ & Hprod & _)]].
    + rewrite Hsame. exact Hs.
    + rewrite Hsame. exact Hs.
    + unfold stock_ok in *. rewrite Hprod.
      pose proof (find_product_Forall _ _ _ _ Hs Hfind) as [[Hq0 Hq1] [Hr0 Hr1]].
      apply Forall_update_product; [exact Hs|]. intros _ _. simpl.
      unfold GoInt.in_range, GoInt.min_int, GoInt.max_int in *.
      split; [|lia]. split; [|lia].
      destruct Hc as [Hpos|[Hty Hmin]]; [lia|].
      destruct (Z.ltb_spec (call_delta c) 0) as [Hneg|Hnn]; [|lia].
      destruct (Hcheck Hty Hneg) as [current Hcur].
      apply repo_CheckStock_Ok in Hcur as (objID' & p' & Hhex' & Hfind' & -> & Havail).
      rewrite Hhex in Hhex'. injection Hhex' as <-.
      rewrite Hfind in Hfind'. injection Hfind' as <-.
      symmetry in Havail. apply Z.geb_le in Havail.
      rewrite sub_exact in Havail
        by (unfold GoInt.in_range, GoInt.min_int, GoInt.max_int; lia).
      rewrite neg_exact in Havail
        by (unfold GoInt.min_int, GoInt.max_int in *; lia).
      lia.
Qed.

Lemma run_stock_ok calls s :
  stock_ok s -> Forall prechecked calls -> stock_ok (run calls s).
Proof.
  unfold run. intros Hs Hall. revert s Hs.
  induction Hall as [|c calls Hc Hall IH]; intros s Hs; simpl; [exact Hs|].
  apply IH, apply_call_stock_ok; assumption.
Qed.

End StockLevels.

(** C2, as stated, fails: an adjustment of -10 on a stock of 3 is not a
    purchase or reservation, so no pre-check applies to it; it is committed
    and leaves the quantity at -7. *)
Lemma adjustment_leaves_negative_quantity :
  snd (facade_adjust Sample.id1 (-10) "adj-1" "adjustment" Sample.env0 (Sample.shop 3 0))
  = Ok (mkInventoryInfo (-7) "W-1" false 0)
  /\
  snapshot Sample.oid1
    (run [mkCall Sample.env0 Sample.id1 (-10) "adj-1" "adjustment"] (Sample.shop 3 0))
  = Some (mkInventoryInfo (-7) "W-1" false 0)
  /\ -7 < 0.
Proof.
  split; [vm_compute; reflexivity|]. split; [vm_compute; reflexivity|]. lia.
Qed.

(** C2, amended.  Start from a store in which every product has a
    non-negative quantity and a non-negative reserved count, and submit to
    the facade, one after the other, any requests in which every negative
    delta belongs to a purchase or a reservation (so that it is pre-checked)
    and is not the minimum [int].  Then in every state reached along the
    sequence every product still has a non-negative quantity. *)
Theorem quantity_never_negative :
  forall calls s,
    stock_ok s ->
    Forall prechecked calls ->
    forall k objID inventory,
      snapshot objID (run (firstn k calls) s) = Some inventory ->
      0 <= Quantity inventory.
Proof.
  intros calls s Hs Hall k objID inventory Hsnap.
  assert (Hk : stock_ok (run (firstn k calls) s)).
  { apply run_stock_ok; [exact Hs|]. apply Forall_take, Hall. }
  unfold snapshot in Hsnap.
  destruct (mongodb.find_product objID (mongodb.products (run (firstn k calls) s)))
    as [p|] eqn:Hfind; [|discriminate].
  injection Hsnap as <-.
  apply (find_product_Forall _ _ _ _ Hk Hfind).
Qed.

Lemma quantity_never_negative_witness :
  0 <= Quantity (mkInventoryInfo 0 "W-1" false 0).
Proof.
  assert (Hs : stock_ok (Sample.shop 5 0)).
  { repeat constructor; vm_compute; discriminate. }
  assert (Hall : Forall prechecked
                   [mkCall Sample.env0 Sample.id1 (-5) "op1" "purchase";
                    mkCall Sample.env0 Sample.id1 (-5) "op9" "purchase"]).
  { repeat constructor; right; (split; [now left|vm_compute; reflexivity]). }
  exact (quantity_never_negative _ (Sample.shop 5 0) Hs Hall 2%nat Sample.oid1
           (mkInventoryInfo 0 "W-1" false 0) eq_refl).
Defined.

(** ** Validation of a new product *)

Section Validation.

Import mongodb.

Lemma validateProduct_None product :
  service.validateProduct product = None <->
  Name product <> "" /\ SFleb (Price product) float_zero = false /\
  Category product <> "" /\ SKU (Inventory product) <> "".
Proof.
  unfold service.validateProduct.
  destruct (String.eqb_spec (Name product) "") as [Hn|Hn];
    [split; [discriminate|intros (H & _); contradiction]|].
  destruct (SFleb (Price product) float_zero);
    [split; [discriminate|intros (_ & H & _); discriminate]|].
  destruct (String.eqb_spec (Category product) "") as [Hc|Hc];
    [split; [discriminate|intros (_ & _ & H & _); contradiction]|].
  destruct (String.eqb_spec (SKU (Inventory product)) "") as [Hk|Hk];
    [split; [discriminate|intros (_ & _ & _ & H); contradiction]|].
  split; auto.
Qed.

(** A missing name, category or SKU, or a price with [price <= 0], stops
    [CreateProduct] before the repository: validation error, nothing
    persisted. *)
Lemma CreateProduct_rejects_invalid env product s :
  Name product = "" \/ SFleb (Price product) float_zero = true \/
  Category product = "" \/ SKU (Inventory product) = "" ->
  exists err,
    service.CreateProduct env product s = (s, [], Err (fmt_Errorf "validation error" err)).
Proof.
  intros Hbad. unfold service.CreateProduct.
  destruct (service.validateProduct product) as [err|] eqn:Hv; [eauto|].
  apply validateProduct_None in Hv as (Hn & Hp & Hc & Hk).
  destruct Hbad as [H|[H|[H|H]]]; congruence.
Qed.

(** A product that [CreateProduct] stores has a name, a category, a SKU and
    a price for which [price <= 0] is false. *)
Lemma CreateProduct_Ok_validated env product s s' calls created :
  service.CreateProduct env product s = (s', calls, Ok created) ->
  Name product <> "" /\ SFleb (Price product) float_zero = false /\
  Category product <> "" /\ SKU (Inventory product) <> "".
Proof.
  unfold service.CreateProduct.
  destruct (service.validateProduct product) eqn:Hv; [discriminate|].
  intros _. now apply validateProduct_None.
Qed.

(** [price <= 0] is false for the positive prices and for NaN. *)
Lemma not_le_zero (x : float64) :
  SFleb x float_zero = false <-> SFltb float_zero x = true \/ x = S754_nan.
Proof.
  destruct x as [[]|[]| |[] m e]; vm_compute; split;
    try discriminate; auto; intros [H|H]; discriminate.
Qed.

End Validation.

(** C9, on the code.  A creation request with a name, a category, a SKU and
    a price that is NaN passes [validateProduct], because [NaN <= 0] is
    false, and the product is stored, although its price is not greater than
    zero. *)
Theorem CreateProduct_accepts_NaN_price :
  SFltb float_zero (Price Sample.nan_priced) = false
  /\ service.validateProduct Sample.nan_priced = None
  /\ exists created,
       service.CreateProduct Sample.env0 Sample.nan_priced Sample.empty_shop
       = (mongodb.mkStore [created] [],
          [service.CallCreate
             (with_Inventory (mkInventoryInfo 3 "W-1" true 0)
                (with_Active true
                   (with_UpdatedAt 1700000000
                      (with_CreatedAt 1700000000 (with_ID 1%N Sample.nan_priced)))))],
          Ok created)
       /\ Price created = S754_nan.
Proof.
  split; [reflexivity|]. split; [reflexivity|].
  eexists. split; [vm_compute; reflexivity|reflexivity].
Qed.

(** * The rest of the catalogue *)

(** ** Object ids and their hexadecimal form *)

Section ObjectIDs.

Lemma hex_val_digit (d : N) :
  (d < 16)%N -> primitive.hex_val (primitive.hex_digit d) = Some d.
Proof.
  intros Hd. rewrite <- (N2Nat.id d).
  assert (Hn : (N.to_nat d < 16)%nat) by lia.
  revert Hn. generalize (N.to_nat d) as n. intros n Hn.
  do 16 (destruct n as [|n]; [vm_compute; reflexivity|]). lia.
Qed.

Lemma hex_decode_encode (digits : nat) (n : N) (acc : string) (a : N) :
  primitive.hex_decode (primitive.hex_encode digits n acc) a
  = primitive.hex_decode acc
      (a * 16 ^ N.of_nat digits + n mod 16 ^ N.of_nat digits)%N.
Proof.
  revert n acc a. induction digits as [|k IH]; intros n acc a.
  - simpl. rewrite N.mod_1_r, N.mul_1_r, N.add_0_r. reflexivity.
  - cbn [primitive.hex_encode]. rewrite IH. cbn [primitive.hex_decode].
    rewrite hex_val_digit by (apply N.mod_lt; discriminate).
    f_equal. rewrite Nat2N.inj_succ, N.pow_succ_r'.
    rewrite (N.Div0.mod_mul_r n 16 (16 ^ N.of_nat k)). lia.
Qed.

Lemma length_hex_encode (digits : nat) (n : N) (acc : string) :
  String.length (primitive.hex_encode digits n acc) = (digits + String.length acc)%nat.
Proof.
  revert n acc. induction digits as [|k IH]; intros n acc; [reflexivity|].
  cbn [primitive.hex_encode]. rewrite IH. simpl. lia.
Qed.

(** Parsing the hexadecimal form of a twelve-byte id gives the id back. *)
Lemma ObjectIDFromHex_Hex (id : primitive.ObjectID) :
  (id < 2 ^ 96)%N -> primitive.ObjectIDFromHex (primitive.Hex id) = Ok id.
Proof.
  intros Hid. unfold primitive.ObjectIDFromHex, primitive.Hex.
  rewrite length_hex_encode. simpl Nat.eqb. cbv iota.
  rewrite hex_decode_encode. cbn [primitive.hex_decode].
  change (16 ^ N.of_nat 24)%N with (2 ^ 96)%N.
  rewrite N.mul_0_l, N.add_0_l, N.mod_small by exact Hid. reflexivity.
Qed.

(** A string of another length than 24 is no object id. *)
Lemma ObjectIDFromHex_length (id : string) :
  String.length id <> 24%nat -> primitive.ObjectIDFromHex id = Err ErrInvalidHex.
Proof.
  intros Hlen. unfold primitive.ObjectIDFromHex.
  apply Nat.eqb_neq in Hlen. rewrite Hlen. reflexivity.
Qed.

End ObjectIDs.

(** ** Documents of a collection *)

Section CollectionIds.

Import mongodb.

Lemma find_product_None objID c :
  find_product objID c = None <-> objID ∉ (ID <$> c).
Proof.
  unfold find_product. induction c as [|x c IH]; simpl.
  - split; [intros _; apply not_elem_of_nil|reflexivity].
  - rewrite not_elem_of_cons. destruct (N.eqb_spec (ID x) objID) as [E|E].
    + split; [discriminate|intros [H _]; congruence].
    + rewrite IH. split; [intros H; split; [congruence|exact H]|tauto].
Qed.

Lemma fmap_ID_update_product objID f c :
  (forall p, ID p = objID -> ID (f p) = objID) ->
  ID <$> update_product objID f c = ID <$> c.
Proof.
  intros Hf. induction c as [|x c IH]; simpl; [reflexivity|].
  destruct (N.eqb_spec (ID x) objID) as [E|E]; simpl.
  - rewrite (Hf _ E), E. reflexivity.
  - f_equal. exact IH.
Qed.

Lemma delete_product_sublist objID c : sublist (delete_product objID c) c.
Proof.
  induction c as [|x c IH]; simpl; [constructor|].
  destruct (N.eqb (ID x) objID); [apply sublist_cons, reflexivity|].
  apply sublist_skip, IH.
Qed.

Lemma Forall_delete_product (P : Product -> Prop) objID c :
  Forall P c -> Forall P (delete_product objID c).
Proof.
  intros Hc. induction Hc as [|x c Hx Hc IH]; simpl; [constructor|].
  destruct (N.eqb (ID x) objID); [exact Hc|constructor; assumption].
Qed.

Lemma find_product_delete_eq objID c :
  NoDup (ID <$> c) -> find_product objID (delete_product objID c) = None.
Proof.
  intros Hnd. induction c as [|x c IH]; simpl; [reflexivity|].
  simpl in Hnd. apply NoDup_cons in Hnd as [Hx Hnd].
  destruct (N.eqb_spec (ID x) objID) as [E|E].
  - apply find_product_None. rewrite <- E. exact Hx.
  - unfold find_product in *. simpl.
    apply N.eqb_neq in E. rewrite E. apply IH, Hnd.
Qed.

Lemma find_product_delete_ne objID objID' c :
  objID' <> objID ->
  find_product objID' (delete_product objID c) = find_product objID' c.
Proof.
  intros Hne. unfold find_product. induction c as [|x c IH]; simpl; [reflexivity|].
  destruct (N.eqb_spec (ID x) objID) as [E|E]; simpl.
  - assert (N.eqb (ID x) objID' = false) as -> by (apply N.eqb_neq; congruence).
    reflexivity.
  - destruct (N.eqb (ID x) objID'); [reflexivity|apply IH].
Qed.

Lemma find_product_app_old objID c p q :
  find_product objID c = Some p -> find_product objID (c ++ [q])%list = Some p.
Proof.
  unfold find_product. induction c as [|x c IH]; simpl; [discriminate|].
  destruct (N.eqb (ID x) objID); auto.
Qed.

Lemma find_product_app_other objID c q :
  ID q <> objID -> find_product objID (c ++ [q])%list = find_product objID c.
Proof.
  intros Hne. unfold find_product. induction c as [|x c IH]; simpl.
  - apply N.eqb_neq in Hne. rewrite Hne. reflexivity.
  - destruct (N.eqb (ID x) objID); auto.
Qed.

Lemma find_operation_app_old key c o extra :
  find_operation key c = Some o -> find_operation key (c ++ extra)%list = Some o.
Proof.
  unfold find_operation. induction c as [|x c IH]; simpl; [discriminate|].
  destruct (String.eqb (OperationID x) key); auto.
Qed.

Lemma find_operation_app_other key c o :
  OperationID o <> key ->
  find_operation key (c ++ [o])%list = find_operation key c.
Proof.
  intros Hne. unfold find_operation. induction c as [|x c IH]; simpl.
  - apply String.eqb_neq in Hne. rewrite Hne. reflexivity.
  - destruct (String.eqb (OperationID x) key); auto.
Qed.

End CollectionIds.

(** ** What one facade operation does to the store *)

Section Effects.

Import mongodb.

Ltac split_ifs :=
  repeat match goal with
         | |- context [if ?b then _ else _] => destruct b
         end.

Lemma validateProduct_ext p q :
  Name p = Name q -> Price p = Price q -> Category p = Category q ->
  SKU (Inventory p) = SKU (Inventory q) ->
  service.validateProduct p = service.validateProduct q.
Proof.
  unfold service.validateProduct. intros -> -> -> ->. reflexivity.
Qed.

Lemma update_fields_Name env product existing :
  Name (service.update_fields env product existing)
  = if String.eqb (Name product) "" then Name existing else Name product.
Proof.
  unfold service.update_fields.
  destruct (String.eqb (Name product) ""); simpl; split_ifs; reflexivity.
Qed.

Lemma update_fields_Description env product existing :
  Description (service.update_fields env product existing)
  = if String.eqb (Description product) "" then Description existing
    else Description product.
Proof.
  unfold service.update_fields.
  destruct (String.eqb (Description product) ""); simpl; split_ifs; reflexivity.
Qed.

Lemma update_fields_Price env product existing :
  Price (service.update_fields env product existing)
  = if SFltb float_zero (Price product) then Price product else Price existing.
Proof.
  unfold service.update_fields.
  destruct (SFltb float_zero (Price product)); simpl; split_ifs; reflexivity.
Qed.

Lemma update_fields_Category env product existing :
  Category (service.update_fields env product existing)
  = if String.eqb (Category product) "" then Category existing else Category product.
Proof.
  unfold service.update_fields.
  destruct (String.eqb (Category product) ""); simpl; split_ifs; reflexivity.
Qed.

Lemma update_fields_Active env product existing :
  Active (service.update_fields env product existing) = Active product.
Proof.
  unfold service.update_fields.
  match goal with
  | |- context [negb (Bool.eqb (Active product) (Active ?p))] =>
      assert (Hact : Active p = Active existing) by (simpl; split_ifs; reflexivity);
      generalize dependent p
  end.
  intros p Hact.
  destruct (Active product) eqn:Ha, (Active p) eqn:Hp; simpl; congruence.
Qed.

Lemma update_fields_CreatedAt env product existing :
  CreatedAt (service.update_fields env product existing) = CreatedAt existing.
Proof.
  unfold service.update_fields. split_ifs; reflexivity.
Qed.

Lemma update_fields_UpdatedAt env product existing :
  UpdatedAt (service.update_fields env product existing) = now env.
Proof.
  unfold service.update_fields. split_ifs; reflexivity.
Qed.

Lemma update_fields_ImageURLs env product existing :
  ImageURLs (service.update_fields env product existing)
  = if Nat.ltb 0 (List.length (ImageURLs product)) then ImageURLs product
    else ImageURLs existing.
Proof.
  unfold service.update_fields.
  destruct (Nat.ltb 0 (List.length (ImageURLs product))); simpl; split_ifs; reflexivity.
Qed.

Lemma update_fields_Tags env product existing :
  Tags (service.update_fields env product existing)
  = if Nat.ltb 0 (List.length (Tags product)) then Tags product else Tags existing.
Proof.
  unfold service.update_fields.
  destruct (Nat.ltb 0 (List.length (Tags product))); simpl; split_ifs; reflexivity.
Qed.

Lemma update_fields_Attributes env product existing :
  Attributes (service.update_fields env product existing)
  = if Nat.ltb 0 (size (Attributes product)) then Attributes product
    else Attributes existing.
Proof.
  unfold service.update_fields.
  destruct (Nat.ltb 0 (size (Attributes product))); simpl; split_ifs; reflexivity.
Qed.

Lemma positive_not_le_zero (x : float64) :
  SFltb float_zero x = true -> SFleb x float_zero = false.
Proof.
  intros H. apply not_le_zero. left. exact H.
Qed.

Lemma update_fields_valid env product existing :
  service.validateProduct existing = None ->
  service.validateProduct (service.update_fields env product existing) = None.
Proof.
  rewrite !validateProduct_None.
  rewrite update_fields_Name, update_fields_Price, update_fields_Category,
    update_fields_Inventory.
  intros (Hn & Hp & Hc & Hk).
  destruct (String.eqb_spec (Name product) "") as [En|En];
    destruct (SFltb float_zero (Price product)) eqn:Ep;
    destruct (String.eqb_spec (Category product) "") as [Ec|Ec];
    destruct (String.eqb_spec (SKU (Inventory product)) "") as [Ek|Ek];
    simpl; repeat split; auto using positive_not_le_zero.
Qed.

Lemma updated_document_valid env product existing :
  service.validateProduct existing = None ->
  service.validateProduct (updated_document env product existing) = None.
Proof.
  intros H. rewrite <- (update_fields_valid env product existing H).
  apply validateProduct_ext; reflexivity.
Qed.

Lemma created_document_valid env product :
  service.validateProduct (created_document env product)
  = service.validateProduct product.
Proof.
  apply validateProduct_ext; unfold created_document;
    destruct (primitive.IsZero (ID product)); reflexivity.
Qed.

(** The repository's [Create] adds nothing to a document the service has
    prepared. *)
Lemma repo_Create_created_document env product s :
  Create env (created_document env product) s
  = match fault env OpInsertProduct with
    | Some e => (s, created_document env product, Err e)
    | None =>
        match find_product (ID (created_document env product)) (products s) with
        | Some _ => (s, created_document env product, Err ErrDuplicateKey)
        | None =>
            (set_products (products s ++ [bson_Product (created_document env product)]) s,
             created_document env product, Ok tt)
        end
    end.
Proof.
  unfold Create, created_document. cbv zeta.
  unfold primitive.IsZero, Time_IsZero.
  destruct (N.eqb (ID product) 0) eqn:Hz; simpl.
  - destruct (N.eqb (newObjectID env) 0); simpl;
      destruct (Z.eqb (now env) 0); reflexivity.
  - rewrite Hz. simpl. destruct (Z.eqb (now env) 0); reflexivity.
Qed.

Lemma service_CreateProduct_effect env product s :
  let out := service.CreateProduct env product s in
  (fst (fst out) = s /\ exists e, snd out = Err e)
  \/
  (service.validateProduct product = None /\
   find_product (ID (created_document env product)) (products s) = None /\
   snd out = Ok (created_document env product) /\
   products (fst (fst out))
   = (products s ++ [bson_Product (created_document env product)])%list /\
   inventory_operations (fst (fst out)) = inventory_operations s).
Proof.
  cbv zeta. unfold service.CreateProduct.
  destruct (service.validateProduct product) eqn:Hv; [left; simpl; eauto|].
  change (Create env _ s) with (Create env (created_document env product) s).
  rewrite repo_Create_created_document.
  destruct (fault env OpInsertProduct); [left; simpl; eauto|].
  destruct (find_product (ID (created_document env product)) (products s)) eqn:Hfind;
    [left; simpl; eauto|].
  right. simpl. auto.
Qed.

Lemma service_UpdateProduct_effect env product s :
  let out := service.UpdateProduct env product s in
  (fst (fst out) = s /\ exists e, snd out = Err e)
  \/
  (exists objID existing,
     primitive.ObjectIDFromHex (primitive.Hex (ID product)) = Ok objID /\
     find_product objID (products s) = Some existing /\
     snd out = Ok (updated_document env product existing) /\
     products (fst (fst out))
     = update_product objID (fun _ => bson_Product (updated_document env product existing))
         (products s) /\
     inventory_operations (fst (fst out)) = inventory_operations s).
Proof.
  cbv zeta. unfold service.UpdateProduct.
  destruct (GetByID env (primitive.Hex (ID product)) s) as [existing|e] eqn:Hget;
    [|left; simpl; eauto].
  apply repo_GetByID_Ok in Hget as (objID & Hhex & Hfind).
  pose proof (find_product_ID _ _ _ Hfind) as Hid.
  unfold Update.
  destruct (fault env OpReplaceProduct); [left; simpl; eauto|].
  right. exists objID, existing. simpl.
  rewrite update_fields_ID, Hid. auto.
Qed.

Lemma service_DeleteProduct_effect srv id s :
  let out := service.DeleteProduct srv id s in
  (fst out = s /\ exists e, snd out = Err e)
  \/
  (exists objID old,
     primitive.ObjectIDFromHex id = Ok objID /\
     find_product objID (products s) = Some old /\
     snd out = Ok tt /\
     products (fst out) = delete_product objID (products s) /\
     inventory_operations (fst out) = inventory_operations s).
Proof.
  cbv zeta. unfold service.DeleteProduct, Delete.
  destruct (primitive.ObjectIDFromHex id) as [objID|e]; [|left; simpl; eauto].
  destruct (server_fault srv OpDeleteOne); [left; simpl; eauto|].
  destruct (find_product objID (products s)) as [old|] eqn:Hfind; [|left; simpl; eauto].
  right. exists objID, old. simpl. auto.
Qed.

Lemma service_UpdateInventory_effect env productID delta operationID operationType s :
  let out := service.UpdateInventory env productID delta operationID operationType s in
  (fst (fst out) = s /\ exists e, snd out = Err e)
  \/
  (operationID <> "" /\ (exists o, FindOne_operation env operationID s = Ok o) /\
   fst (fst out) = s /\
   exists objID p,
     primitive.ObjectIDFromHex productID = Ok objID /\
     find_product objID (products s) = Some p /\
     snd out = Ok (Inventory p))
  \/
  ((operationID = "" \/ FindOne_operation env operationID s = Err ErrNoDocuments) /\
   exists objID p,
     primitive.ObjectIDFromHex productID = Ok objID /\
     find_product objID (products s) = Some p /\
     GoInt.in_range (Quantity (Inventory p) + delta) /\
     snd out = Ok (Inventory (adjusted env delta p)) /\
     products (fst (fst out))
     = update_product objID (fun _ => adjusted env delta p) (products s) /\
     inventory_operations (fst (fst out))
     = ledger_after env productID delta operationID operationType (inventory_operations s)).
Proof.
  cbv zeta.
  destruct (service_UpdateInventory_cases env productID delta operationID operationType s)
    as [H|(_ & _ & Hs & Hr)]; [left; exact H|].
  rewrite Hs, Hr.
  destruct (repo_UpdateInventory_cases env productID delta operationID operationType s)
    as [(Hsame & e & He)|[(Hk & Ho & Hsame & objID & p & Hhex & Hfind & He)
                          |(Hn & objID & p & Hhex & Hfind & Hrange & He & Hprod & Hops)]].
  - left. split; [exact Hsame|]. rewrite He. eauto.
  - right. left. rewrite He. eauto 10.
  - right. right. split; [exact Hn|]. exists objID, p. rewrite He. auto 10.
Qed.

End Effects.

(** ** Every request is one transition *)

Section Transitions.

Import mongodb.

Lemma ledger_after_suffix env productID delta operationID operationType ops :
  exists entries,
    ledger_after env productID delta operationID operationType ops = (ops ++ entries)%list
    /\ (List.length entries <= 1)%nat.
Proof.
  unfold ledger_after. destruct (String.eqb operationID "").
  - exists []. rewrite app_nil_r. split; [reflexivity|simpl; lia].
  - eexists. split; [reflexivity|simpl; lia].
Qed.

Lemma updated_document_ID env product existing :
  ID (updated_document env product existing) = ID existing.
Proof.
  transitivity (ID (service.update_fields env product existing));
    [reflexivity|apply update_fields_ID].
Qed.

Lemma updated_document_CreatedAt env product existing :
  CreatedAt (updated_document env product existing) = CreatedAt existing.
Proof.
  transitivity (CreatedAt (service.update_fields env product existing));
    [reflexivity|apply update_fields_CreatedAt].
Qed.

Lemma bson_datetime_idem t : bson_datetime (bson_datetime t) = bson_datetime t.
Proof.
  unfold bson_datetime. rewrite Z.div_mul by discriminate. reflexivity.
Qed.

Lemma bson_Product_valid p :
  service.validateProduct (bson_Product p) = service.validateProduct p.
Proof. apply validateProduct_ext; reflexivity. Qed.

Lemma updated_document_Reserved env product existing :
  Reserved (Inventory (updated_document env product existing))
  = Reserved (Inventory existing).
Proof.
  transitivity (Reserved (Inventory (service.update_fields env product existing)));
    [reflexivity|].
  rewrite update_fields_Inventory.
  destruct (String.eqb (SKU (Inventory product)) ""); reflexivity.
Qed.

Lemma exec_transition s r : transition s (exec s r).
Proof.
  destruct r as [env product|env product|srv id|env productID delta operationID operationType];
    unfold exec.
  - destruct (service_CreateProduct_effect env product s)
      as [(Hs & _)|(Hv & Hfind & _ & Hprod & Hops)].
    + now apply tr_none.
    + apply (tr_insert s _ (bson_Product (created_document env product))).
      * exact Hfind.
      * rewrite bson_Product_valid, created_document_valid. exact Hv.
      * unfold created_document. destruct (primitive.IsZero (ID product)); reflexivity.
      * exact Hprod.
      * exact Hops.
  - destruct (service_UpdateProduct_effect env product s)
      as [(Hs & _)|(objID & existing & _ & Hfind & _ & Hprod & Hops)].
    + now apply tr_none.
    + apply (tr_replace s _ objID existing
               (bson_Product (updated_document env product existing)) []).
      * exact Hfind.
      * transitivity (ID (updated_document env product existing)); [reflexivity|].
        rewrite updated_document_ID. now apply find_product_ID in Hfind.
      * transitivity (bson_datetime
                        (bson_datetime (CreatedAt (updated_document env product existing))));
          [reflexivity|].
        rewrite bson_datetime_idem, updated_document_CreatedAt. reflexivity.
      * transitivity (Reserved (Inventory (updated_document env product existing)));
          [reflexivity|].
        apply updated_document_Reserved.
      * reflexivity.
      * rewrite bson_Product_valid. apply updated_document_valid.
      * exact Hprod.
      * rewrite app_nil_r. exact Hops.
      * simpl. lia.
  - destruct (service_DeleteProduct_effect srv id s)
      as [(Hs & _)|(objID & old & _ & Hfind & _ & Hprod & Hops)].
    + now apply tr_none.
    + now apply (tr_delete s _ objID old).
  - destruct (service_UpdateInventory_effect env productID delta operationID operationType s)
      as [(Hs & _)|[(_ & _ & Hs & _)
                   |(_ & objID & p & _ & Hfind & _ & _ & Hprod & Hops)]].
    + now apply tr_none.
    + now apply tr_none.
    + destruct (ledger_after_suffix env productID delta operationID operationType
                  (inventory_operations s)) as (entries & Hentries & Hlen).
      apply (tr_replace s _ objID p (adjusted env delta p) entries).
      * exact Hfind.
      * rewrite adjusted_ID. now apply find_product_ID in Hfind.
      * reflexivity.
      * reflexivity.
      * reflexivity.
      * intros Hv. rewrite <- Hv. apply validateProduct_ext; reflexivity.
      * exact Hprod.
      * rewrite Hops. exact Hentries.
      * exact Hlen.
Qed.

Lemma transition_unique_ids s s' : transition s s' -> unique_ids s -> unique_ids s'.
Proof.
  unfold unique_ids.
  intros [->|p Hfind _ _ Hprod _|objID old new entries Hfind Hid _ _ _ _ Hprod _ _
          |objID old _ Hprod _] Hs.
  - exact Hs.
  - rewrite Hprod, fmap_app. apply NoDup_app. split; [exact Hs|]. split.
    + intros x Hx Hin. apply list_elem_of_singleton in Hin. subst x.
      apply find_product_None in Hfind. contradiction.
    + apply NoDup_singleton.
  - rewrite Hprod, fmap_ID_update_product; [exact Hs|]. intros; exact Hid.
  - rewrite Hprod.
    eapply sublist_NoDup; [exact Hs|apply fmap_sublist, delete_product_sublist].
Qed.

Lemma transition_Forall (P : Product -> Prop) s s' :
  transition s s' ->
  (forall p, transition s s' -> find_product (ID p) (products s) = None ->
             service.validateProduct p = None -> flag_consistent (Inventory p) -> P p) ->
  (forall old new, P old ->
                   flag_consistent (Inventory new) ->
                   (service.validateProduct old = None -> service.validateProduct new = None) ->
                   P new) ->
  Forall P (products s) -> Forall P (products s').
Proof.
  intros Ht Hins Hrep Hs.
  destruct Ht as [->|p Hfind Hv Hflag Hprod Hops
                  |objID old new entries Hfind Hid Hc Hr Hflag Hv Hprod Hops Hlen
                  |objID old Hfind Hprod Hops].
  - exact Hs.
  - rewrite Hprod. apply Forall_app. split; [exact Hs|].
    constructor; [|constructor].
    apply Hins; auto. now apply (tr_insert s s' p).
  - rewrite Hprod. apply Forall_update_product; [exact Hs|]. intros _ _.
    apply (Hrep old new); auto.
    exact (find_product_Forall _ _ _ _ Hs Hfind).
  - rewrite Hprod. apply Forall_delete_product, Hs.
Qed.

Lemma transition_well_formed s s' : transition s s' -> well_formed s -> well_formed s'.
Proof.
  intros Ht (Hu & Hc & Hv). split; [|split].
  - exact (transition_unique_ids s s' Ht Hu).
  - unfold all_consistent in *.
    apply (transition_Forall _ s s' Ht); auto.
  - unfold all_valid in *.
    assert (Hboth : Forall (fun p => service.validateProduct p = None) (products s'));
      [|exact Hboth].
    apply (transition_Forall _ s s' Ht); auto.
Qed.

Lemma transition_ledger s s' :
  transition s s' ->
  exists entries,
    inventory_operations s' = (inventory_operations s ++ entries)%list
    /\ (List.length entries <= 1)%nat.
Proof.
  intros [->|p _ _ _ _ Hops|objID old new entries _ _ _ _ _ _ _ Hops Hlen|objID old _ _ Hops].
  - exists []. rewrite app_nil_r. split; [reflexivity|simpl; lia].
  - exists []. rewrite app_nil_r. split; [exact Hops|simpl; lia].
  - exists entries. auto.
  - exists []. rewrite app_nil_r. split; [exact Hops|simpl; lia].
Qed.

End Transitions.

(** ** Sequences of requests *)

Section Sequences.

Import mongodb.

Lemma exec_all_snoc rs r s : exec_all (rs ++ [r]) s = exec (exec_all rs s) r.
Proof. unfold exec_all. rewrite fold_left_app. reflexivity. Qed.

Lemma empty_store_well_formed : well_formed (mkStore [] []).
Proof.
  split; [|split]; [apply NoDup_nil_2|constructor|constructor].
Qed.

End Sequences.

(** X1. Whatever requests the facade serves (creations, updates, deletions,
    inventory adjustments; successful or not, with or without driver
    failures), a store that has unique product ids, only products that pass
    [validateProduct], and only flags [inStock = (quantity > 0)] keeps these
    three properties; they hold in particular in every store reached from
    the empty one. *)
Theorem facade_keeps_store_well_formed :
  (forall rs s, well_formed s -> well_formed (exec_all rs s))
  /\ (forall rs, well_formed (exec_all rs (mongodb.mkStore [] []))).
Proof.
  assert (Hstep : forall rs s, well_formed s -> well_formed (exec_all rs s)).
  { intros rs. induction rs as [|r rs IH] using rev_ind; intros s Hs; [exact Hs|].
    rewrite exec_all_snoc.
    exact (transition_well_formed _ _ (exec_transition _ r) (IH s Hs)). }
  split; [exact Hstep|].
  intros rs. apply Hstep, empty_store_well_formed.
Qed.

Lemma facade_keeps_store_well_formed_witness :
  well_formed
    (exec_all
       [ReqCreate Sample.env0 Sample.nan_priced;
        ReqAdjust Sample.env0 (primitive.Hex 1%N) (-3) "op1" "purchase";
        ReqUpdate Sample.env0 (with_ID 1%N (Sample.request 0 0));
        ReqDelete (mkServer (fun _ => None) (fun _ _ => true) (fun _ _ l => l))
          (primitive.Hex 1%N)]
       (Sample.shop 4 1)).
Proof.
  apply (proj1 facade_keeps_store_well_formed).
  split; [|split].
  - apply NoDup_singleton.
  - repeat constructor.
  - repeat constructor.
Defined.

(** X2. The ledger is append-only: after any sequence of facade requests the
    ledger is the old ledger followed by new entries, at most one per
    request.  No request rewrites or removes a recorded operation, not even
    the deletion of the product it belongs to. *)
Theorem ledger_is_append_only :
  forall rs s,
    exists entries,
      mongodb.inventory_operations (exec_all rs s)
      = (mongodb.inventory_operations s ++ entries)%list
      /\ (List.length entries <= List.length rs)%nat.
Proof.
  intros rs. induction rs as [|r rs IH] using rev_ind; intros s.
  - exists []. rewrite app_nil_r. split; [reflexivity|simpl; lia].
  - rewrite exec_all_snoc.
    destruct (IH s) as (entries & Hentries & Hlen).
    destruct (transition_ledger _ _ (exec_transition (exec_all rs s) r))
      as (more & Hmore & Hone).
    exists (entries ++ more)%list. rewrite Hmore, Hentries, <- app_assoc.
    split; [reflexivity|]. rewrite !length_app. simpl. lia.
Qed.

(** X3. A request that ends in an error has changed nothing: for
    [CreateProduct], [UpdateProduct], [DeleteProduct] and [UpdateInventory]
    of the facade, and for the repository's [UpdateInventory] (whose
    transaction is then not committed), the store after a failed call is the
    store before it, ledger included. *)
Theorem failed_request_changes_nothing :
  forall s,
    (forall env product e,
        snd (service.CreateProduct env product s) = Err e ->
        fst (fst (service.CreateProduct env product s)) = s)
    /\ (forall env product e,
           snd (service.UpdateProduct env product s) = Err e ->
           fst (fst (service.UpdateProduct env product s)) = s)
    /\ (forall srv id e,
           snd (service.DeleteProduct srv id s) = Err e ->
           fst (service.DeleteProduct srv id s) = s)
    /\ (forall env productID delta operationID operationType e,
           snd (service.UpdateInventory env productID delta operationID operationType s)
           = Err e ->
           fst (fst (service.UpdateInventory env productID delta operationID operationType s))
           = s)
    /\ (forall env productID delta operationID operationType e,
           snd (mongodb.UpdateInventory env productID delta operationID operationType s)
           = Err e ->
           fst (mongodb.UpdateInventory env productID delta operationID operationType s)
           = s).
Proof.
  intros s. repeat split.
  - intros env product e He.
    destruct (service_CreateProduct_effect env product s) as [(Hs & _)|(_ & _ & Hr & _)];
      [exact Hs|congruence].
  - intros env product e He.
    destruct (service_UpdateProduct_effect env product s)
      as [(Hs & _)|(objID & existing & _ & _ & Hr & _)]; [exact Hs|congruence].
  - intros srv id e He.
    destruct (service_DeleteProduct_effect srv id s)
      as [(Hs & _)|(objID & old & _ & _ & Hr & _)]; [exact Hs|congruence].
  - intros env productID delta operationID operationType e He.
    destruct (service_UpdateInventory_effect env productID delta operationID operationType s)
      as [(Hs & _)|[(_ & _ & Hs & _)|(_ & objID & p & _ & _ & _ & Hr & _)]];
      [exact Hs|exact Hs|congruence].
  - intros env productID delta operationID operationType e He.
    destruct (mongodb.UpdateInventory env productID delta operationID operationType s)
      as [s' r] eqn:Hrun. simpl in *. subst r.
    exact (repo_UpdateInventory_Err _ _ _ _ _ _ _ _ Hrun).
Qed.

Lemma failed_request_changes_nothing_witness :
  fst (fst (service.UpdateInventory Sample.env_duplicate Sample.id1 (-5) "op1" "purchase"
              (Sample.shop 100 0)))
  = Sample.shop 100 0.
Proof.
  destruct (failed_request_changes_nothing (Sample.shop 100 0)) as (_ & _ & _ & H & _).
  exact (H Sample.env_duplicate Sample.id1 (-5) "op1" "purchase"
           (fmt_Errorf "repository error" ErrDuplicateKey) eq_refl).
Defined.

(** X4. No request writes [reserved]: for a store with unique ids, a product
    that is stored before and after a facade request (creation, update,
    deletion or adjustment of any operation type, "reservation" and
    "release" included) has the same reserved count after it as before. *)
Theorem reserved_is_never_written :
  forall r s objID before after,
    unique_ids s ->
    snapshot objID s = Some before ->
    snapshot objID (exec s r) = Some after ->
    Reserved after = Reserved before.
Proof.
  intros r s objID before after Hu Hb Ha. unfold snapshot in *.
  destruct (mongodb.find_product objID (mongodb.products s)) as [p|] eqn:Hp;
    [|discriminate].
  injection Hb as <-.
  destruct (exec_transition s r)
    as [Hs|q Hfind _ _ Hprod _|objID' old new entries Hfind Hid _ Hres _ _ Hprod _ _
        |objID' old Hfind Hprod _].
  - rewrite Hs, Hp in Ha. injection Ha as <-. reflexivity.
  - rewrite Hprod, (find_product_app_old _ _ _ q Hp) in Ha.
    injection Ha as <-. reflexivity.
  - rewrite Hprod in Ha. destruct (N.eq_dec objID objID') as [->|Hne].
    + rewrite (find_product_update_eq objID' (fun _ => new) _ old Hfind Hid) in Ha.
      injection Ha as <-. rewrite Hp in Hfind. injection Hfind as <-. exact Hres.
    + rewrite find_product_update_ne in Ha by (auto; intros; exact Hid).
      rewrite Hp in Ha. injection Ha as <-. reflexivity.
  - rewrite Hprod in Ha. destruct (N.eq_dec objID objID') as [->|Hne].
    + rewrite find_product_delete_eq in Ha by exact Hu. discriminate.
    + rewrite find_product_delete_ne in Ha by exact Hne.
      rewrite Hp in Ha. injection Ha as <-. reflexivity.
Qed.

Lemma reserved_is_never_written_witness :
  Reserved (mkInventoryInfo 37 "W-1" true 2) = Reserved (Inventory (Sample.widget 40 2)).
Proof.
  apply (reserved_is_never_written
           (ReqAdjust Sample.env0 Sample.id1 (-3) "r1" "reservation")
           (Sample.shop 40 2) Sample.oid1).
  - apply NoDup_singleton.
  - reflexivity.
  - vm_compute. reflexivity.
Defined.

(** ** Creating, reading, updating and deleting a product *)

Section Crud.

Import mongodb.

Lemma repo_GetByID_found env objID p s :
  (objID < 2 ^ 96)%N ->
  fault env OpGetByIDFind = None ->
  find_product objID (products s) = Some p ->
  GetByID env (primitive.Hex objID) s = Ok p.
Proof.
  intros Hid Hf Hfind. unfold GetByID, FindOne_product.
  rewrite (ObjectIDFromHex_Hex objID Hid), Hf, Hfind. reflexivity.
Qed.

Lemma repo_GetByID_missing env id objID s :
  primitive.ObjectIDFromHex id = Ok objID ->
  fault env OpGetByIDFind = None ->
  find_product objID (products s) = None ->
  GetByID env id s = Err (errors_New "product not found").
Proof.
  intros Hhex Hf Hfind. unfold GetByID, FindOne_product.
  rewrite Hhex, Hf, Hfind. reflexivity.
Qed.

End Crud.



(** X6. A deleted product is gone and only it: in a store with unique ids,
    after a successful [DeleteProduct] a [GetProduct] of the same id fails
    with "repository error: product not found", a second deletion fails the
    same way without changing the store, every other product is found as
    before, and the ledger is untouched. *)
Theorem deleted_product_is_gone :
  forall srv srv' env id objID s,
    unique_ids s ->
    primitive.ObjectIDFromHex id = Ok objID ->
    snd (service.DeleteProduct srv id s) = Ok tt ->
    fault env OpGetByIDFind = None ->
    server_fault srv' OpDeleteOne = None ->
    let s' := fst (service.DeleteProduct srv id s) in
    snd (service.GetProduct env id s')
    = Err (fmt_Errorf "repository error" (errors_New "product not found"))
    /\ service.DeleteProduct srv' id s'
       = (s', Err (fmt_Errorf "repository error" (errors_New "product not found")))
    /\ (forall other, other <> objID ->
                      mongodb.find_product other (mongodb.products s')
                      = mongodb.find_product other (mongodb.products s))
    /\ mongodb.inventory_operations s' = mongodb.inventory_operations s.
Proof.
  intros srv srv' env id objID s Hu Hhex Hok Hf Hf' s'.
  destruct (service_DeleteProduct_effect srv id s)
    as [(_ & e & He)|(objID' & old & Hhex' & Hfind & _ & Hprod & Hops)];
    [congruence|].
  rewrite Hhex in Hhex'. injection Hhex' as <-.
  fold s' in Hprod, Hops.
  assert (Hgone : mongodb.find_product objID (mongodb.products s') = None).
  { rewrite Hprod. apply find_product_delete_eq, Hu. }
  split; [|split; [|split]].
  - unfold service.GetProduct.
    rewrite (repo_GetByID_missing env id objID s' Hhex Hf Hgone). reflexivity.
  - unfold service.DeleteProduct, mongodb.Delete. rewrite Hhex, Hf', Hgone. reflexivity.
  - intros other Hne. rewrite Hprod. apply find_product_delete_ne, Hne.
  - exact Hops.
Qed.

Lemma deleted_product_is_gone_witness :
  snd (service.GetProduct Sample.env0 Sample.id1
         (fst (service.DeleteProduct
                 (mkServer (fun _ => None) (fun _ _ => true) (fun _ _ l => l))
                 Sample.id1 (Sample.shop 4 1))))
  = Err (fmt_Errorf "repository error" (errors_New "product not found")).
Proof.
  apply (deleted_product_is_gone
           (mkServer (fun _ => None) (fun _ _ => true) (fun _ _ l => l))
           (mkServer (fun _ => None) (fun _ _ => true) (fun _ _ l => l))
           Sample.env0 Sample.id1 Sample.oid1 (Sample.shop 4 1)).
  - apply NoDup_singleton.
  - reflexivity.
  - reflexivity.
  - reflexivity.
  - reflexivity.
Defined.

(** X7. [UpdateProduct] is a partial update with one exception.  For a
    stored product and no driver failure it succeeds and stores the returned
    document (as the driver writes it, times to the millisecond), in which
    name, description and category are the request's
    unless that is empty, price is the request's only if it is greater than
    zero, image URLs, tags and attributes are the request's unless empty,
    the id and the creation time are the stored ones and the update time is
    the current time.  The [active] flag is always the request's, also when
    the request did not mean to set it.  For an id that is not stored the
    call fails with "product not found" and changes nothing. *)
Theorem UpdateProduct_is_a_partial_update :
  forall env product s,
    (ID product < 2 ^ 96)%N ->
    fault env OpGetByIDFind = None ->
    fault env OpReplaceProduct = None ->
    (forall existing,
        mongodb.find_product (ID product) (mongodb.products s) = Some existing ->
        let updated := updated_document env product existing in
        service.UpdateProduct env product s
        = (mongodb.mkStore
             (mongodb.update_product (ID product) (fun _ => bson_Product updated)
                (mongodb.products s))
             (mongodb.inventory_operations s),
           [service.CallGetByID (primitive.Hex (ID product));
            service.CallUpdate (service.update_fields env product existing)],
           Ok updated)
        /\ ID updated = ID product
        /\ Name updated
           = (if String.eqb (Name product) "" then Name existing else Name product)
        /\ Description updated
           = (if String.eqb (Description product) "" then Description existing
              else Description product)
        /\ Category updated
           = (if String.eqb (Category product) "" then Category existing
              else Category product)
        /\ Price updated
           = (if SFltb float_zero (Price product) then Price product else Price existing)
        /\ ImageURLs updated
           = (if Nat.ltb 0 (List.length (ImageURLs product)) then ImageURLs product
              else ImageURLs existing)
        /\ Tags updated
           = (if Nat.ltb 0 (List.length (Tags product)) then Tags product
              else Tags existing)
        /\ Attributes updated
           = (if Nat.ltb 0 (size (Attributes product)) then Attributes product
              else Attributes existing)
        /\ Active updated = Active product
        /\ CreatedAt updated = CreatedAt existing
        /\ UpdatedAt updated = now env)
    /\
    (mongodb.find_product (ID product) (mongodb.products s) = None ->
     service.UpdateProduct env product s
     = (s, [service.CallGetByID (primitive.Hex (ID product))],
        Err (fmt_Errorf "product not found" (errors_New "product not found")))).
Proof.
  intros env product s Hid Hget Hrep. split.
  - intros existing Hfind updated.
    pose proof (find_product_ID _ _ _ Hfind) as Hex.
    split.
    + unfold service.UpdateProduct.
      rewrite (repo_GetByID_found env (ID product) existing s Hid Hget Hfind).
      cbv zeta. unfold mongodb.Update. rewrite Hrep.
      assert (Hid' : ID updated = ID product)
        by (subst updated; rewrite updated_document_ID; exact Hex).
      transitivity
        (mongodb.mkStore
           (mongodb.update_product (ID updated) (fun _ => bson_Product updated)
              (mongodb.products s))
           (mongodb.inventory_operations s),
         [service.CallGetByID (primitive.Hex (ID product));
          service.CallUpdate (service.update_fields env product existing)],
         @Ok Product updated); [reflexivity|].
      rewrite Hid'. reflexivity.
    + subst updated.
      split; [rewrite updated_document_ID; exact Hex|].
      split; [exact (update_fields_Name env product existing)|].
      split; [exact (update_fields_Description env product existing)|].
      split; [exact (update_fields_Category env product existing)|].
      split; [exact (update_fields_Price env product existing)|].
      split; [exact (update_fields_ImageURLs env product existing)|].
      split; [exact (update_fields_Tags env product existing)|].
      split; [exact (update_fields_Attributes env product existing)|].
      split; [exact (update_fields_Active env product existing)|].
      split; [exact (update_fields_CreatedAt env product existing)|].
      reflexivity.
  - intros Hnone. unfold service.UpdateProduct.
    rewrite (repo_GetByID_missing env _ (ID product) s (ObjectIDFromHex_Hex _ Hid) Hget Hnone).
    reflexivity.
Qed.

Lemma UpdateProduct_is_a_partial_update_witness :
  Active (updated_document Sample.env0 (with_Active false (Sample.request 0 0))
            (Sample.widget 4 1)) = false
  /\ Name (updated_document Sample.env0 (with_Active false (Sample.request 0 0))
             (Sample.widget 4 1)) = "gadget"
  /\ Category (updated_document Sample.env0 (with_Active false (Sample.request 0 0))
                 (Sample.widget 4 1)) = "tools".
Proof.
  assert (Hid : (ID (with_Active false (Sample.request 0 0)) < 2 ^ 96)%N)
    by (vm_compute; reflexivity).
  destruct (proj1 (UpdateProduct_is_a_partial_update Sample.env0
                     (with_Active false (Sample.request 0 0)) (Sample.shop 4 1)
                     Hid eq_refl eq_refl) (Sample.widget 4 1) eq_refl)
    as (_ & _ & Hname & _ & Hcat & _ & _ & _ & _ & Hact & _).
  split; [|split].
  - rewrite Hact. reflexivity.
  - rewrite Hname. reflexivity.
  - rewrite Hcat. reflexivity.
Defined.

(** ** Adjustments that meet in the ledger *)

Section Ledger.

Import mongodb.

Lemma keys_of_cons a rest :
  keys_of (a :: rest)
  = if String.eqb (adj_key a) "" then keys_of rest else adj_key a :: keys_of rest.
Proof.
  unfold keys_of. simpl. destruct (String.eqb (adj_key a) ""); reflexivity.
Qed.

Lemma recorded_cons productID a rest :
  recorded productID (a :: rest)
  = ((if String.eqb (adj_key a) "" then []
      else [mkInventoryOperation productID (adj_delta a) (adj_key a) (adj_type a)
              (bson_datetime (now (adj_env a)))]) ++ recorded productID rest)%list.
Proof. reflexivity. Qed.

Lemma total_delta_cons a rest : total_delta (a :: rest) = adj_delta a + total_delta rest.
Proof. reflexivity. Qed.

Lemma adjustments_compose_from adjustments :
  forall productID objID p s,
    primitive.ObjectIDFromHex productID = Ok objID ->
    find_product objID (products s) = Some p ->
    Forall (fun a => fault_free (adj_env a)) adjustments ->
    NoDup (keys_of adjustments) ->
    (forall k, k ∈ keys_of adjustments ->
               find_operation k (inventory_operations s) = None) ->
    (forall n, GoInt.in_range (Quantity (Inventory p) + total_delta (take n adjustments))) ->
    exists p',
      find_product objID (products (apply_adjustments productID adjustments s)) = Some p' /\
      Quantity (Inventory p') = Quantity (Inventory p) + total_delta adjustments /\
      Reserved (Inventory p') = Reserved (Inventory p) /\
      SKU (Inventory p') = SKU (Inventory p) /\
      (adjustments <> [] \/ flag_consistent (Inventory p) ->
       flag_consistent (Inventory p')) /\
      inventory_operations (apply_adjustments productID adjustments s)
      = (inventory_operations s ++ recorded productID adjustments)%list.
Proof.
  induction adjustments as [|a rest IH];
    intros productID objID p s Hhex Hfind Hff Hnd Hfresh Hrange.
  - exists p. simpl. rewrite app_nil_r. unfold total_delta. simpl.
    split; [exact Hfind|]. split; [lia|]. split; [reflexivity|]. split; [reflexivity|].
    split; [intros [H|H]; [contradiction|exact H]|reflexivity].
  - inversion Hff as [|? ? Ha Hrest]; subst.
    assert (Hnovel : adj_key a = ""
                     \/ find_operation (adj_key a) (inventory_operations s) = None).
    { destruct (String.eqb_spec (adj_key a) "") as [E|E]; [left; exact E|right].
      apply Hfresh. rewrite keys_of_cons.
      apply String.eqb_neq in E. rewrite E. apply list_elem_of_here. }
    assert (Hr1 : GoInt.in_range (Quantity (Inventory p) + adj_delta a)).
    { specialize (Hrange 1%nat). simpl in Hrange. rewrite take_0 in Hrange.
      unfold total_delta in Hrange. simpl in Hrange.
      rewrite Z.add_0_r in Hrange. exact Hrange. }
    pose proof (repo_UpdateInventory_novel (adj_env a) productID objID p (adj_delta a)
                  (adj_key a) (adj_type a) s Ha Hhex Hfind Hnovel Hr1) as Hstep.
    set (s1 := committed_store (adj_env a) objID productID (adj_delta a) (adj_key a)
                 (adj_type a) p s) in *.
    assert (Hs1 : apply_adjustments productID (a :: rest) s
                  = apply_adjustments productID rest s1).
    { unfold apply_adjustments. simpl. unfold apply_adjustment at 2.
      rewrite Hstep. reflexivity. }
    rewrite Hs1.
    destruct (IH productID objID (adjusted (adj_env a) (adj_delta a) p) s1 Hhex)
      as (p' & Hfind' & Hq & Hr & Hk & Hflag & Hops).
    + apply committed_store_product, Hfind.
    + exact Hrest.
    + rewrite keys_of_cons in Hnd.
      destruct (String.eqb (adj_key a) ""); [exact Hnd|].
      now apply NoDup_cons in Hnd as [_ Hnd].
    + intros k Hk. subst s1. unfold committed_store, ledger_after. simpl.
      assert (Hk0 : find_operation k (inventory_operations s) = None).
      { apply Hfresh. rewrite keys_of_cons.
        destruct (String.eqb (adj_key a) ""); [exact Hk|now apply list_elem_of_further]. }
      rewrite keys_of_cons in Hnd.
      destruct (String.eqb (adj_key a) ""); [exact Hk0|].
      apply NoDup_cons in Hnd as [Hnotin _].
      rewrite find_operation_app_other; [exact Hk0|].
      simpl. intros E. apply Hnotin. rewrite E. exact Hk.
    + intros n. specialize (Hrange (S n)). simpl in Hrange.
      rewrite total_delta_cons in Hrange. simpl.
      replace (Quantity (Inventory p) + adj_delta a + total_delta (take n rest))
        with (Quantity (Inventory p) + (adj_delta a + total_delta (take n rest))) by lia.
      exact Hrange.
    + exists p'. rewrite total_delta_cons. simpl in Hq, Hr, Hk.
      split; [exact Hfind'|]. split; [lia|]. split; [exact Hr|]. split; [exact Hk|].
      split.
      * intros _. apply Hflag. right. reflexivity.
      * rewrite Hops, recorded_cons. subst s1. unfold committed_store, ledger_after.
        simpl. destruct (String.eqb (adj_key a) ""); simpl.
        -- reflexivity.
        -- rewrite <- app_assoc. reflexivity.
Qed.

End Ledger.

(** X8. Adjustments of one product add up.  Submit to the coordinator, one
    after the other and without driver failures, any adjustments of a stored
    product whose idempotency keys are empty or else new and pairwise
    distinct, every running total staying representable: afterwards the
    quantity is the old one plus the sum of all deltas, reserved and SKU are
    as before, the flag is the one derived from the new quantity, and the
    ledger has grown by exactly one entry per adjustment that carried a key,
    in submission order. *)
Theorem adjustments_compose :
  forall adjustments productID objID p s,
    primitive.ObjectIDFromHex productID = Ok objID ->
    mongodb.find_product objID (mongodb.products s) = Some p ->
    Forall (fun a => fault_free (adj_env a)) adjustments ->
    NoDup (keys_of adjustments) ->
    (forall k, k ∈ keys_of adjustments ->
               mongodb.find_operation k (mongodb.inventory_operations s) = None) ->
    (forall n, GoInt.in_range (Quantity (Inventory p) + total_delta (take n adjustments))) ->
    exists p',
      mongodb.find_product objID
        (mongodb.products (apply_adjustments productID adjustments s)) = Some p' /\
      Quantity (Inventory p') = Quantity (Inventory p) + total_delta adjustments /\
      Reserved (Inventory p') = Reserved (Inventory p) /\
      SKU (Inventory p') = SKU (Inventory p) /\
      (adjustments <> [] -> flag_consistent (Inventory p')) /\
      mongodb.inventory_operations (apply_adjustments productID adjustments s)
      = (mongodb.inventory_operations s ++ recorded productID adjustments)%list.
Proof.
  intros adjustments productID objID p s Hhex Hfind Hff Hnd Hfresh Hrange.
  destruct (adjustments_compose_from adjustments productID objID p s
              Hhex Hfind Hff Hnd Hfresh Hrange)
    as (p' & H1 & H2 & H3 & H4 & H5 & H6).
  exists p'. repeat split; auto.
Qed.

Lemma adjustments_compose_witness :
  exists p',
    mongodb.find_product Sample.oid1
      (mongodb.products
         (apply_adjustments Sample.id1
            [mkAdjustment Sample.env0 (-10) "" "adjustment";
             mkAdjustment Sample.env0 25 "k1" "restock";
             mkAdjustment Sample.env0 (-10) "" "adjustment";
             mkAdjustment Sample.env0 (-5) "k2" "purchase"]
            (Sample.shop 30 0))) = Some p'
    /\ Quantity (Inventory p') = 30 + 0.
Proof.
  destruct (adjustments_compose
              [mkAdjustment Sample.env0 (-10) "" "adjustment";
               mkAdjustment Sample.env0 25 "k1" "restock";
               mkAdjustment Sample.env0 (-10) "" "adjustment";
               mkAdjustment Sample.env0 (-5) "k2" "purchase"]
              Sample.id1 Sample.oid1 (Sample.widget 30 0) (Sample.shop 30 0))
    as (p' & Hfind & Hq & _).
  - reflexivity.
  - reflexivity.
  - repeat (constructor; [intros op; reflexivity|]). constructor.
  - vm_compute. repeat constructor; set_solver.
  - intros k Hk. reflexivity.
  - intros n. do 5 (destruct n as [|n]; [vm_compute; split; discriminate|]).
    vm_compute. split; discriminate.
  - exists p'. split; [exact Hfind|exact Hq].
Defined.

(** X9. An idempotency key belongs to the whole ledger, not to a product.
    Once an adjustment of product A has been committed under a key, a later
    adjustment of another product B carrying the same key is treated as a
    replay whatever its delta and operation type: it is answered as a
    success with B's current snapshot, B's quantity is not changed, and the
    ledger still holds the single entry recorded for A. *)
Theorem idempotency_key_is_shared_by_all_products :
  forall envA envB idA idB objA objB pA pB deltaA deltaB key typeA typeB s,
    key <> "" ->
    primitive.ObjectIDFromHex idA = Ok objA ->
    primitive.ObjectIDFromHex idB = Ok objB ->
    objA <> objB ->
    mongodb.find_product objA (mongodb.products s) = Some pA ->
    mongodb.find_product objB (mongodb.products s) = Some pB ->
    mongodb.find_operation key (mongodb.inventory_operations s) = None ->
    GoInt.in_range (Quantity (Inventory pA) + deltaA) ->
    fault_free envA ->
    fault_free envB ->
    let s1 := fst (mongodb.UpdateInventory envA idA deltaA key typeA s) in
    mongodb.UpdateInventory envB idB deltaB key typeB s1 = (s1, Ok (Inventory pB))
    /\ snapshot objB s1 = Some (Inventory pB)
    /\ snapshot objA s1 = Some (Inventory (adjusted envA deltaA pA))
    /\ mongodb.inventory_operations s1
       = (mongodb.inventory_operations s
          ++ [mkInventoryOperation idA deltaA key typeA (bson_datetime (now envA))])%list.
Proof.
  intros envA envB idA idB objA objB pA pB deltaA deltaB key typeA typeB s
    Hkey HhexA HhexB Hne HfindA HfindB Hnone Hrange HffA HffB s1.
  pose proof (repo_UpdateInventory_novel envA idA objA pA deltaA key typeA s
                HffA HhexA HfindA (or_intror Hnone) Hrange) as Hfirst.
  subst s1. rewrite Hfirst. cbn [fst].
  set (s1 := committed_store envA objA idA deltaA key typeA pA s).
  assert (HfindB1 : mongodb.find_product objB (mongodb.products s1) = Some pB).
  { subst s1. unfold committed_store. simpl.
    rewrite find_product_update_ne; [exact HfindB|congruence|].
    intros q Hq. rewrite adjusted_ID. now apply find_product_ID in HfindA. }
  destruct (committed_store_ledger envA objA idA deltaA key typeA pA s Hkey Hnone)
    as [Hop1 _].
  fold s1 in Hop1.
  split; [|split; [|split]].
  - exact (repo_UpdateInventory_replay envB idB objB pB _ deltaB key typeB s1
             HffB HhexB HfindB1 Hkey Hop1).
  - unfold snapshot. rewrite HfindB1. reflexivity.
  - unfold snapshot. subst s1.
    rewrite (committed_store_product envA objA idA deltaA key typeA pA s HfindA).
    reflexivity.
  - subst s1. unfold committed_store, ledger_after. simpl.
    apply String.eqb_neq in Hkey. rewrite Hkey. reflexivity.
Qed.

Lemma idempotency_key_is_shared_by_all_products_witness :
  mongodb.UpdateInventory Sample.env0 (primitive.Hex 7%N) 50 "op1" "restock"
    (fst (mongodb.UpdateInventory Sample.env0 Sample.id1 (-5) "op1" "purchase"
            Sample.two_products))
  = (fst (mongodb.UpdateInventory Sample.env0 Sample.id1 (-5) "op1" "purchase"
            Sample.two_products),
     Ok (Inventory (with_ID 7%N (Sample.widget 1 0)))).
Proof.
  assert (Hff : fault_free Sample.env0) by (intros op; reflexivity).
  assert (Hrange : GoInt.in_range (Quantity (Inventory (Sample.widget 100 0)) + -5))
    by (vm_compute; split; discriminate).
  assert (Hkey : "op1" <> "") by discriminate.
  assert (Hne : Sample.oid1 <> 7%N) by discriminate.
  exact (proj1 (idempotency_key_is_shared_by_all_products Sample.env0 Sample.env0
                  Sample.id1 (primitive.Hex 7%N) Sample.oid1 7%N
                  (Sample.widget 100 0) (with_ID 7%N (Sample.widget 1 0))
                  (-5) 50 "op1" "purchase" "restock" Sample.two_products
                  Hkey eq_refl eq_refl Hne eq_refl eq_refl eq_refl Hrange Hff Hff)).
Defined.

(** X10. An adjustment of a product that is not stored fails and leaves no
    trace.  For a well-formed id that no stored product has, a valid
    operation type and no driver failure: a purchase or reservation with
    negative delta stops at the pre-check with "stock check error: product
    not found" and the coordinator is not invoked; any other request reaches
    the coordinator and fails with the driver's "no documents" error wrapped
    as "repository error".  In both cases the store is unchanged: the ledger
    entry written inside the transaction is not committed, so the
    idempotency key stays free. *)
Theorem UpdateInventory_of_missing_product :
  forall env productID objID delta operationID operationType s,
    fault_free env ->
    In operationType vocabulary ->
    primitive.ObjectIDFromHex productID = Ok objID ->
    mongodb.find_product objID (mongodb.products s) = None ->
    service.UpdateInventory env productID delta operationID operationType s
    = if is_decrease operationType delta
      then (s, [service.CallCheckStock productID (GoInt.neg delta)],
            Err (fmt_Errorf "stock check error" (errors_New "product not found")))
      else (s, [service.CallUpdateInventory productID delta operationID operationType],
            Err (fmt_Errorf "repository error" ErrNoDocuments)).
Proof.
  intros env productID objID delta operationID operationType s Hff Hty Hhex Hnone.
  unfold service.UpdateInventory, is_decrease.
  apply validOperationTypes_spec in Hty. rewrite Hty. simpl.
  destruct ((String.eqb operationType "purchase" || String.eqb operationType "reservation")
            && (delta <? 0)).
  - unfold mongodb.CheckStock, mongodb.FindOne_product.
    rewrite Hhex, Hff, Hnone. reflexivity.
  - assert (Hrepo :
      mongodb.UpdateInventory env productID delta operationID operationType s
      = (s, Err ErrNoDocuments)).
    { unfold mongodb.UpdateInventory, mongodb.UpdateInventory_txn, mongodb.tx_bind,
        mongodb.driver.
      rewrite Hhex, !Hff. unfold mongodb.check_duplicate_operation.
      destruct (String.eqb operationID ""); simpl.
      - unfold mongodb.update_product_inventory, mongodb.tx_bind,
          mongodb.FindOneAndUpdate_inc.
        rewrite Hff, Hnone. reflexivity.
      - unfold mongodb.FindOne_operation, mongodb.FindOne_product. rewrite !Hff.
        destruct (mongodb.find_operation operationID (mongodb.inventory_operations s)).
        + rewrite Hnone. reflexivity.
        + unfold mongodb.tx_bind, mongodb.InsertOne_operation, mongodb.tx_ret.
          rewrite Hff.
          unfold mongodb.update_product_inventory, mongodb.tx_bind,
            mongodb.FindOneAndUpdate_inc.
          rewrite Hff. simpl. rewrite Hnone. reflexivity. }
    rewrite Hrepo. reflexivity.
Qed.

Lemma UpdateInventory_of_missing_product_witness :
  service.UpdateInventory Sample.env0 (primitive.Hex 9%N) 10 "op7" "restock"
    (Sample.shop 4 1)
  = (Sample.shop 4 1,
     [service.CallUpdateInventory (primitive.Hex 9%N) 10 "op7" "restock"],
     Err (fmt_Errorf "repository error" ErrNoDocuments)).
Proof.
  assert (Hff : fault_free Sample.env0) by (intros op; reflexivity).
  assert (Hty : In "restock" vocabulary) by (right; left; reflexivity).
  exact (UpdateInventory_of_missing_product Sample.env0 (primitive.Hex 9%N) 9%N 10 "op7"
           "restock" (Sample.shop 4 1) Hff Hty eq_refl eq_refl).
Defined.

(** X11. Ids are checked before the database is asked.  A product id whose
    length is not 24 makes [GetProduct], [DeleteProduct], [CheckStock] and
    [UpdateInventory] (with a valid operation type) fail with the invalid-id
    error, wrapped by the facade, whatever the store holds and whatever the
    driver would have answered; the store is unchanged. *)
Theorem malformed_id_is_rejected :
  forall env srv id quantity delta operationID operationType s,
    String.length id <> 24%nat ->
    service.GetProduct env id s
    = ([service.CallGetByID id], Err (fmt_Errorf "repository error" ErrInvalidHex))
    /\ service.DeleteProduct srv id s
       = (s, Err (fmt_Errorf "repository error" ErrInvalidHex))
    /\ service.CheckStock env id quantity s
       = ([service.CallCheckStock id quantity],
          Err (fmt_Errorf "repository error" ErrInvalidHex))
    /\ (In operationType vocabulary ->
        service.UpdateInventory env id delta operationID operationType s
        = if is_decrease operationType delta
          then (s, [service.CallCheckStock id (GoInt.neg delta)],
                Err (fmt_Errorf "stock check error" ErrInvalidHex))
          else (s, [service.CallUpdateInventory id delta operationID operationType],
                Err (fmt_Errorf "repository error" ErrInvalidHex))).
Proof.
  intros env srv id quantity delta operationID operationType s Hlen.
  pose proof (ObjectIDFromHex_length id Hlen) as Hhex.
  split; [|split; [|split]].
  - unfold service.GetProduct, mongodb.GetByID. rewrite Hhex. reflexivity.
  - unfold service.DeleteProduct, mongodb.Delete. rewrite Hhex. reflexivity.
  - unfold service.CheckStock, mongodb.CheckStock. rewrite Hhex. reflexivity.
  - intros Hty. unfold service.UpdateInventory, is_decrease.
    apply validOperationTypes_spec in Hty. rewrite Hty. simpl.
    destruct ((String.eqb operationType "purchase" || String.eqb operationType "reservation")
              && (delta <? 0)).
    + unfold mongodb.CheckStock. rewrite Hhex. reflexivity.
    + unfold mongodb.UpdateInventory. rewrite Hhex. reflexivity.
Qed.

Lemma malformed_id_is_rejected_witness :
  service.DeleteProduct (mkServer (fun _ => None) (fun _ _ => true) (fun _ _ l => l))
    "42" (Sample.shop 4 1)
  = (Sample.shop 4 1, Err (fmt_Errorf "repository error" ErrInvalidHex)).
Proof.
  assert (Hlen : String.length "42" <> 24%nat) by discriminate.
  destruct (malformed_id_is_rejected Sample.env0
              (mkServer (fun _ => None) (fun _ _ => true) (fun _ _ l => l))
              "42" 1 1 "" "restock" (Sample.shop 4 1) Hlen) as (_ & H & _).
  exact H.
Defined.

(** ** Listing *)

Section Listing.

Import mongodb.

Lemma list_filter_category params :
  list_filter params !! "category"
  = if String.eqb (list_params.Category params) "" then None
    else Some (bson.String (list_params.Category params)).
Proof.
  unfold list_filter. cbv zeta.
  destruct (String.eqb (list_params.Category params) "");
    cbn [negb];
    repeat match goal with
           | |- context [if negb ?b then _ else _] => destruct b; cbn [negb]
           | |- context [if ?b then _ else _] => destruct b
           end; reflexivity.
Qed.

Lemma list_filter_tags params :
  list_filter params !! "tags"
  = if Nat.ltb 0 (List.length (list_params.Tags params))
    then Some (bson.Document (<["$all" := bson.Strings (list_params.Tags params)]> ∅))
    else None.
Proof.
  unfold list_filter. cbv zeta.
  destruct (Nat.ltb 0 (List.length (list_params.Tags params)));
    cbn [negb];
    repeat match goal with
           | |- context [if negb ?b then _ else _] => destruct b; cbn [negb]
           | |- context [if ?b then _ else _] => destruct b
           end; reflexivity.
Qed.

Lemma list_filter_in_stock params :
  list_filter params !! "inventory.in_stock"
  = if list_params.InStockOnly params then Some (bson.Boolean true) else None.
Proof.
  unfold list_filter. cbv zeta.
  destruct (list_params.InStockOnly params);
    cbn [negb];
    repeat match goal with
           | |- context [if negb ?b then _ else _] => destruct b; cbn [negb]
           | |- context [if ?b then _ else _] => destruct b
           end; reflexivity.
Qed.

Lemma list_filter_text params :
  list_filter params !! "$text"
  = if String.eqb (list_params.SearchTerm params) "" then None
    else Some (bson.Document
                 (<["$search" := bson.String (list_params.SearchTerm params)]> ∅)).
Proof.
  unfold list_filter. cbv zeta.
  destruct (String.eqb (list_params.SearchTerm params) "");
    cbn [negb];
    repeat match goal with
           | |- context [if negb ?b then _ else _] => destruct b; cbn [negb]
           | |- context [if ?b then _ else _] => destruct b
           end; reflexivity.
Qed.

Lemma list_filter_price params :
  list_filter params !! "price"
  = if SFltb float_zero (list_params.MinPrice params)
       || SFltb float_zero (list_params.MaxPrice params)
    then Some (bson.Document
                 (let priceFilter : gmap string bson.Value := ∅ in
                  let priceFilter :=
                    if SFltb float_zero (list_params.MinPrice params)
                    then <["$gte" := bson.Double (list_params.MinPrice params)]> priceFilter
                    else priceFilter in
                  if SFltb float_zero (list_params.MaxPrice params)
                  then <["$lte" := bson.Double (list_params.MaxPrice params)]> priceFilter
                  else priceFilter))
    else None.
Proof.
  unfold list_filter. cbv zeta.
  destruct (SFltb float_zero (list_params.MinPrice params));
    destruct (SFltb float_zero (list_params.MaxPrice params)); cbn [orb];
    cbn [negb];
    repeat match goal with
           | |- context [if negb ?b then _ else _] => destruct b; cbn [negb]
           | |- context [if ?b then _ else _] => destruct b
           end; reflexivity.
Qed.

Lemma document_matches_meets srv params p :
  document_matches srv (list_filter params) p = true -> meets srv params p.
Proof.
  unfold document_matches.
  rewrite list_filter_category, list_filter_tags, list_filter_price,
    list_filter_in_stock, list_filter_text.
  rewrite !andb_true_iff. intros ((((Hc & Ht) & Hp) & Hi) & Hs).
  unfold meets. repeat split.
  - intros Hne. apply String.eqb_neq in Hne. rewrite Hne in Hc.
    now apply String.eqb_eq in Hc.
  - intros t Hin.
    destruct (Nat.ltb 0 (List.length (list_params.Tags params))) eqn:Hlen.
    + rewrite lookup_insert_eq in Ht. rewrite forallb_forall in Ht.
      specialize (Ht t Hin). apply existsb_exists in Ht as (t' & Hin' & Heq).
      apply String.eqb_eq in Heq. subst t'. exact Hin'.
    + apply Nat.ltb_ge in Hlen. destruct (list_params.Tags params); [contradiction|].
      simpl in Hlen. lia.
  - intros Hmin. rewrite Hmin in Hp. cbn [orb] in Hp. cbv zeta in Hp.
    destruct (SFltb float_zero (list_params.MaxPrice params)).
    + rewrite lookup_insert_ne, lookup_insert_eq in Hp by discriminate.
      apply andb_true_iff in Hp as [Hp _]. exact Hp.
    + rewrite lookup_insert_eq in Hp. apply andb_true_iff in Hp as [Hp _]. exact Hp.
  - intros Hmax. rewrite Hmax, orb_true_r in Hp. cbv zeta in Hp.
    rewrite lookup_insert_eq in Hp. apply andb_true_iff in Hp as [_ Hp]. exact Hp.
  - intros Hin. rewrite Hin in Hi. now apply Bool.eqb_prop in Hi.
  - intros Hne. apply String.eqb_neq in Hne. rewrite Hne in Hs.
    rewrite lookup_insert_eq in Hs. exact Hs.
Qed.

Lemma selected_meets srv params s p :
  In p (selected srv params s) -> In p (products s) /\ meets srv params p.
Proof.
  unfold selected. rewrite filter_In. intros [Hin Hm].
  split; [exact Hin|]. now apply document_matches_meets.
Qed.

(** [ListProducts] without driver failures: the page and the total. *)
Lemma service_ListProducts_page srv params s :
  (forall op, server_fault srv op = None) ->
  GoInt.in_range (page_used params * page_size_used params) ->
  service.ListProducts srv params s
  = Ok (page_of srv params s, Z.of_nat (List.length (selected srv params s))).
Proof.
  intros Hff Hrange.
  unfold service.ListProducts. cbv zeta.
  set (p1 := if list_params.PageSize params <=? 0
             then list_params.with_PageSize 20 params else params).
  set (p2 := if list_params.Page p1 <? 0 then list_params.with_Page 0 p1 else p1).
  assert (Hsize : list_params.PageSize p2 = page_size_used params).
  { subst p2 p1. unfold page_size_used.
    destruct (list_params.PageSize params <=? 0);
      match goal with |- context [if ?b then _ else _] => destruct b end; reflexivity. }
  assert (Hpage : list_params.Page p2 = page_used params).
  { subst p2 p1. unfold page_used.
    destruct (list_params.PageSize params <=? 0); simpl;
      destruct (list_params.Page params <? 0); reflexivity. }
  assert (Hfilter : list_filter p2 = list_filter params).
  { subst p2 p1.
    destruct (list_params.PageSize params <=? 0); simpl;
      destruct (list_params.Page params <? 0); reflexivity. }
  assert (Hsort : Sort (list_options p2) = sort_used params).
  { subst p2 p1. unfold list_options, sort_used. cbn [Sort].
    destruct (list_params.PageSize params <=? 0); simpl;
      destruct (list_params.Page params <? 0); simpl;
      destruct (String.eqb (list_params.SortBy params) ""); reflexivity. }
  assert (Hpos : 0 < page_size_used params).
  { unfold page_size_used. destruct (Z.leb_spec (list_params.PageSize params) 0); lia. }
  assert (Hnn : 0 <= page_used params).
  { unfold page_used. destruct (Z.ltb_spec (list_params.Page params) 0); lia. }
  unfold List, CountDocuments, Find.
  rewrite !Hff, Hfilter, Hsort.
  unfold list_options. rewrite Hsize, Hpage.
  assert ((0 <? page_size_used params) = true) as -> by (apply Z.ltb_lt; exact Hpos).
  cbn [fst snd Limit Skip].
  rewrite (wrap_in_range _ Hrange).
  assert ((page_used params * page_size_used params <? 0) = false) as ->
    by (apply Z.ltb_ge; nia).
  assert ((page_size_used params =? 0) = false) as -> by (apply Z.eqb_neq; lia).
  rewrite Z.abs_eq by lia.
  reflexivity.
Qed.

Lemma page_of_length srv params s :
  List.length (page_of srv params s)
  = Nat.min (Z.to_nat (page_size_used params))
      (List.length (sorted_selection srv params s)
       - Z.to_nat (page_used params * page_size_used params)).
Proof.
  unfold page_of. rewrite length_take, length_drop. reflexivity.
Qed.

End Listing.

(** X12. [ListProducts] returns one page of the selection.  When no driver
    call fails and the offset [page * pageSize] is representable, the call
    succeeds with exactly the requested slice of the sorted selection: the
    stored products the filter selects, in the order the server sorts them
    by the requested key and direction (creation time, descending, when no
    key is given), without the first [page * pageSize] of them and cut at
    [pageSize], where [pageSize] is 20 when the request gave none or a
    non-positive one and a negative page counts as page 0.  The total is the
    number of selected products, whatever the page, page size and sort order
    asked for.  When the server's sort only reorders, the page holds as many
    products as remain after the offset, at most [pageSize], and every
    listed product is stored and meets every criterion the request set
    (category, all tags, price bounds, in-stock only, search term). *)
Theorem ListProducts_returns_one_page :
  forall srv params s,
    (forall op, server_fault srv op = None) ->
    GoInt.in_range (page_used params * page_size_used params) ->
    let total := List.length (selected srv params s) in
    service.ListProducts srv params s = Ok (page_of srv params s, Z.of_nat total)
    /\ Z.of_nat (List.length (page_of srv params s)) <= page_size_used params
    /\ ((forall key dir l, sort_documents srv key dir l ≡ₚ l) ->
        List.length (page_of srv params s)
        = Nat.min (Z.to_nat (page_size_used params))
            (total - Z.to_nat (page_used params * page_size_used params))
        /\ Forall (fun p => In p (mongodb.products s) /\ meets srv params p)
             (page_of srv params s)).
Proof.
  intros srv params s Hff Hrange total.
  split; [exact (service_ListProducts_page srv params s Hff Hrange)|].
  assert (Hpos : 0 < page_size_used params).
  { unfold page_size_used. destruct (Z.leb_spec (list_params.PageSize params) 0); lia. }
  split.
  - rewrite page_of_length. lia.
  - intros Hsort.
    assert (Hperm : sorted_selection srv params s ≡ₚ selected srv params s)
      by apply Hsort.
    split.
    + rewrite page_of_length, (Permutation_length Hperm). reflexivity.
    + apply Forall_forall. intros p Hin.
      apply (selected_meets srv params s p).
      apply list_elem_of_In. rewrite <- Hperm.
      unfold page_of in Hin. now apply subseteq_take, subseteq_drop in Hin.
Qed.

Lemma ListProducts_returns_one_page_witness :
  service.ListProducts (mkServer (fun _ => None) (fun _ _ => true) (fun _ _ l => l))
    (list_params.mkListProductsParams 1 1 "tools" [] S754_nan S754_nan true "" false "")
    Sample.two_products
  = Ok ([with_ID 7%N (Sample.widget 1 0)], 2).
Proof.
  assert (Hrange :
    GoInt.in_range
      (page_used (list_params.mkListProductsParams 1 1 "tools" [] S754_nan S754_nan true
                    "" false "")
       * page_size_used (list_params.mkListProductsParams 1 1 "tools" [] S754_nan
                           S754_nan true "" false "")))
    by (vm_compute; split; discriminate).
  exact (proj1 (ListProducts_returns_one_page
                  (mkServer (fun _ => None) (fun _ _ => true) (fun _ _ l => l))
                  (list_params.mkListProductsParams 1 1 "tools" [] S754_nan S754_nan true
                     "" false "")
                  Sample.two_products (fun _ => eq_refl) Hrange)).
Defined.

(** ** The handlers *)

Section Handlers.

Import mongodb.

Lemma hex_val_lt c d : primitive.hex_val c = Some d -> (d < 16)%N.
Proof.
  unfold primitive.hex_val. cbv zeta.
  repeat match goal with
         | |- context [if ?b then _ else _] => destruct b eqn:?
         end; intros H; try discriminate; injection H as <-;
    repeat match goal with
           | E : (_ && _)%bool = true |- _ => apply andb_true_iff in E as [? ?]
           | E : (_ <=? _)%N = true |- _ => apply N.leb_le in E
           end; lia.
Qed.

Lemma hex_decode_bound s acc n :
  primitive.hex_decode s acc = Some n ->
  (n < (acc + 1) * 16 ^ N.of_nat (String.length s))%N.
Proof.
  revert acc. induction s as [|c rest IH]; intros acc H.
  - simpl in H. injection H as <-. simpl. lia.
  - cbn [primitive.hex_decode] in H.
    destruct (primitive.hex_val c) as [d|] eqn:Hd; [|discriminate].
    apply hex_val_lt in Hd. apply IH in H.
    cbn [String.length]. rewrite Nat2N.inj_succ, N.pow_succ_r'.
    eapply N.lt_le_trans; [exact H|].
    replace ((acc + 1) * (16 * 16 ^ N.of_nat (String.length rest)))%N
      with ((16 * acc + 16) * 16 ^ N.of_nat (String.length rest))%N by lia.
    apply N.mul_le_mono_r. lia.
Qed.

(** An id that parses is a twelve-byte id. *)
Lemma ObjectIDFromHex_bound id objID :
  primitive.ObjectIDFromHex id = Ok objID -> (objID < 2 ^ 96)%N.
Proof.
  unfold primitive.ObjectIDFromHex.
  destruct (Nat.eqb (String.length id) 24) eqn:Hlen; [|discriminate].
  apply Nat.eqb_eq in Hlen.
  destruct (primitive.hex_decode id 0) as [n|] eqn:Hd; [|discriminate].
  intros H. injection H as <-. apply hex_decode_bound in Hd.
  rewrite Hlen in Hd. exact Hd.
Qed.

(** [UpdateProduct] on a stored product, seen from a caller. *)
Lemma service_UpdateProduct_found env product existing s :
  (ID product < 2 ^ 96)%N ->
  fault env OpGetByIDFind = None ->
  fault env OpReplaceProduct = None ->
  find_product (ID product) (products s) = Some existing ->
  exists s' calls,
    service.UpdateProduct env product s
    = (s', calls, Ok (updated_document env product existing))
    /\ find_product (ID product) (products s')
       = Some (bson_Product (updated_document env product existing))
    /\ inventory_operations s' = inventory_operations s.
Proof.
  intros Hid Hget Hrep Hfind.
  pose proof (find_product_ID _ _ _ Hfind) as Hex.
  assert (Hid' : ID (updated_document env product existing) = ID product)
    by (rewrite updated_document_ID; exact Hex).
  exists (mkStore (update_product (ID product)
                     (fun _ => bson_Product (updated_document env product existing))
                     (products s))
            (inventory_operations s)),
    [service.CallGetByID (primitive.Hex (ID product));
     service.CallUpdate (service.update_fields env product existing)].
  split; [|split].
  - unfold service.UpdateProduct.
    rewrite (repo_GetByID_found env (ID product) existing s Hid Hget Hfind).
    cbv zeta. unfold Update. rewrite Hrep.
    transitivity
      (mkStore
         (update_product (ID (updated_document env product existing))
            (fun _ => bson_Product (updated_document env product existing)) (products s))
         (inventory_operations s),
       [service.CallGetByID (primitive.Hex (ID product));
        service.CallUpdate (service.update_fields env product existing)],
       @Ok Product (updated_document env product existing)); [reflexivity|].
    rewrite Hid'. reflexivity.
  - cbn [products].
    apply (find_product_update_eq (ID product)
             (fun _ => bson_Product (updated_document env product existing))
             (products s) existing Hfind).
    exact Hid'.
  - reflexivity.
Qed.

(** [ListProducts] without driver failures: the page and the total. *)
Lemma service_ListProducts_ok srv params s :
  (forall op, server_fault srv op = None) ->
  GoInt.in_range (page_used params * page_size_used params) ->
  exists page,
    service.ListProducts srv params s
    = Ok (page, Z.of_nat (List.length (selected srv params s)))
    /\ Z.of_nat (List.length page) <= page_size_used params.
Proof.
  intros Hff Hrange.
  unfold service.ListProducts. cbv zeta.
  set (p1 := if list_params.PageSize params <=? 0
             then list_params.with_PageSize 20 params else params).
  set (p2 := if list_params.Page p1 <? 0 then list_params.with_Page 0 p1 else p1).
  assert (Hsize : list_params.PageSize p2 = page_size_used params).
  { subst p2 p1. unfold page_size_used.
    destruct (list_params.PageSize params <=? 0);
      match goal with |- context [if ?b then _ else _] => destruct b end; reflexivity. }
  assert (Hpage : list_params.Page p2 = page_used params).
  { subst p2 p1. unfold page_used.
    destruct (list_params.PageSize params <=? 0); simpl;
      destruct (list_params.Page params <? 0); reflexivity. }
  assert (Hfilter : list_filter p2 = list_filter params).
  { subst p2 p1.
    destruct (list_params.PageSize params <=? 0); simpl;
      destruct (list_params.Page params <? 0); reflexivity. }
  assert (Hpos : 0 < page_size_used params).
  { unfold page_size_used. destruct (Z.leb_spec (list_params.PageSize params) 0); lia. }
  assert (Hnn : 0 <= page_used params).
  { unfold page_used. destruct (Z.ltb_spec (list_params.Page params) 0); lia. }
  unfold List, CountDocuments, Find, list_options.
  rewrite !Hff, Hfilter, Hsize, Hpage.
  assert ((0 <? page_size_used params) = true) as -> by (apply Z.ltb_lt; exact Hpos).
  cbn [fst snd Limit Skip Sort].
  rewrite (wrap_in_range _ Hrange).
  assert ((page_used params * page_size_used params <? 0) = false) as ->
    by (apply Z.ltb_ge; nia).
  assert ((page_size_used params =? 0) = false) as -> by (apply Z.eqb_neq; lia).
  fold (selected srv params s).
  eexists. split; [reflexivity|].
  rewrite length_take. lia.
Qed.

Lemma selected_length srv params s :
  (List.length (selected srv params s) <= List.length (products s))%nat.
Proof.
  unfold selected. induction (products s) as [|p l IH]; simpl; [lia|].
  destruct (document_matches srv (list_filter params) p); simpl; lia.
Qed.

(** The page count both handlers compute, when nothing overflows. *)
Lemma int_div_pages total size :
  0 <= total -> 0 < size -> total + size <= GoInt.max_int ->
  int_div (GoInt.wrap (GoInt.wrap (total + size) - 1)) size
  = Returns (pages_needed total size).
Proof.
  intros Ht Hs Hmax. unfold int_div, pages_needed.
  assert (Hr : forall z, 0 <= z <= GoInt.max_int -> GoInt.in_range z)
    by (intros z Hz; unfold GoInt.in_range, GoInt.min_int, GoInt.max_int in *; lia).
  rewrite (wrap_in_range (total + size)) by (apply Hr; lia).
  rewrite (wrap_in_range (total + size - 1)) by (apply Hr; lia).
  assert ((size =? 0) = false) as -> by (apply Z.eqb_neq; lia).
  rewrite Z.quot_div_nonneg by lia.
  rewrite wrap_in_range; [reflexivity|].
  apply Hr. split; [apply Z.div_pos; lia|].
  apply Z.le_trans with (total + size - 1); [|lia].
  apply Z.div_le_upper_bound; nia.
Qed.

Lemma pages_needed_spec total size :
  0 <= total -> 0 < size ->
  (pages_needed total size - 1) * size < total <= pages_needed total size * size.
Proof.
  intros Ht Hs. unfold pages_needed.
  pose proof (Z.div_mod (total + size - 1) size ltac:(lia)) as Hdm.
  pose proof (Z.mod_pos_bound (total + size - 1) size Hs) as Hm.
  nia.
Qed.

Lemma pages_needed_le total size :
  0 <= total -> 0 < size -> 0 <= pages_needed total size <= total.
Proof.
  intros Ht Hs. pose proof (pages_needed_spec total size Ht Hs) as H.
  split; nia.
Qed.

Lemma int32_small z : int32_range z -> int32 z = z.
Proof.
  unfold int32_range, int32. intros H.
  rewrite Z.mod_small by lia. lia.
Qed.

End Handlers.

(** X13. The page count of the gRPC listing.  For a request whose page size
    is zero, which is what a request that leaves the field out carries, the
    handler lists the products with the default page size of 20 and then
    panics dividing by the requested page size.  For a positive page size
    the reply carries the number of selected products as total, the page and
    page size as requested, at most that many products, and as total pages
    the least number of pages of that size that hold the total. *)
Theorem grpc_ListProducts_page_count :
  forall srv req s,
    (forall op, server_fault srv op = None) ->
    int32_range (pb.ListProductsRequest.Page req) ->
    int32_range (pb.ListProductsRequest.PageSize req) ->
    Z.of_nat (List.length (mongodb.products s)) < 2 ^ 31 ->
    let size := pb.ListProductsRequest.PageSize req in
    let total := Z.of_nat (List.length (selected srv (grpc.request_params req) s)) in
    (size = 0 ->
     grpc.ListProducts srv req s = Panics "runtime error: integer divide by zero")
    /\
    (0 < size ->
     exists resp,
       grpc.ListProducts srv req s = Returns (grpc.Reply resp)
       /\ pb.ListProductsResponse.Total resp = total
       /\ pb.ListProductsResponse.Page resp = pb.ListProductsRequest.Page req
       /\ pb.ListProductsResponse.PageSize resp = size
       /\ Z.of_nat (List.length (pb.ListProductsResponse.Products resp)) <= size
       /\ (pb.ListProductsResponse.TotalPages resp - 1) * size < total
          <= pb.ListProductsResponse.TotalPages resp * size).
Proof.
  intros srv req s Hff Hpage Hsize Hlen size total.
  assert (Hrange : GoInt.in_range (page_used (grpc.request_params req)
                                   * page_size_used (grpc.request_params req))).
  { unfold page_used, page_size_used, grpc.request_params, int32_range in *.
    cbn [list_params.Page list_params.PageSize].
    unfold GoInt.in_range, GoInt.min_int, GoInt.max_int.
    destruct (Z.ltb_spec (pb.ListProductsRequest.Page req) 0);
      destruct (Z.leb_spec (pb.ListProductsRequest.PageSize req) 0); nia. }
  destruct (service_ListProducts_ok srv (grpc.request_params req) s Hff Hrange)
    as (page & Hrun & Hpagelen).
  fold total in Hrun.
  pose proof (selected_length srv (grpc.request_params req) s) as Hsel.
  assert (Htotal : 0 <= total < 2 ^ 31) by (subst total; lia).
  split.
  - intros Hzero. unfold grpc.ListProducts. cbv zeta. rewrite Hrun.
    fold size. rewrite Hzero. reflexivity.
  - intros Hpos. unfold grpc.ListProducts. cbv zeta. rewrite Hrun.
    fold size.
    assert (Hmax : total + size <= GoInt.max_int)
      by (unfold GoInt.max_int, int32_range in *; subst size; lia).
    rewrite (int_div_pages total size (proj1 Htotal) Hpos Hmax).
    eexists. split; [reflexivity|].
    cbn [pb.ListProductsResponse.Total pb.ListProductsResponse.Page
         pb.ListProductsResponse.PageSize pb.ListProductsResponse.Products
         pb.ListProductsResponse.TotalPages].
    pose proof (pages_needed_le total size (proj1 Htotal) Hpos) as Hle.
    pose proof (pages_needed_spec total size (proj1 Htotal) Hpos) as Hspec.
    rewrite !int32_small by (unfold int32_range; lia).
    split; [reflexivity|]. split; [reflexivity|]. split; [reflexivity|].
    split; [|exact Hspec].
    rewrite length_map.
    unfold page_size_used, grpc.request_params in Hpagelen.
    cbn [list_params.PageSize] in Hpagelen. fold size in Hpagelen.
    destruct (Z.leb_spec size 0); lia.
Qed.

Lemma grpc_ListProducts_page_count_witness :
  grpc.ListProducts (mkServer (fun _ => None) (fun _ _ => true) (fun _ _ l => l))
    (pb.ListProductsRequest.mk 0 0 "tools" [] float_zero float_zero false "" false "")
    Sample.two_products
  = Panics "runtime error: integer divide by zero".
Proof.
  assert (H0 : int32_range 0) by (unfold int32_range; lia).
  assert (Hlen : Z.of_nat (List.length (mongodb.products Sample.two_products)) < 2 ^ 31)
    by (vm_compute; reflexivity).
  exact (proj1 (grpc_ListProducts_page_count
                  (mkServer (fun _ => None) (fun _ _ => true) (fun _ _ l => l))
                  (pb.ListProductsRequest.mk 0 0 "tools" [] float_zero float_zero false ""
                     false "")
                  Sample.two_products (fun _ => eq_refl) H0 H0 Hlen) eq_refl).
Defined.

(** X14. The page count of the REST listing.  The page size is the
    [page_size] query parameter, 20 when it is absent or no number.  A page
    size of zero makes the handler panic dividing by it, after the products
    were listed with the default page size.  For a positive page size the
    status is 200 and the handler encodes a response that carries the
    requested slice of the sorted selection, the number of selected products
    as total, the page size, and as total pages the least number of pages
    holding the total, but 1 when there is none.  That response is the body
    when every listed product can be encoded; when one of them has a price
    that is NaN or infinite, or a time the encoder refuses, the body is
    empty. *)
Theorem rest_ListProducts_page_count :
  forall srv ParseFloat MarshalTime query s,
    (forall op, server_fault srv op = None) ->
    let params := rest.query_params ParseFloat query in
    let size := rest.parseInt (query "page_size") 20 in
    let total := Z.of_nat (List.length (selected srv params s)) in
    GoInt.in_range (page_used params * page_size_used params) ->
    Z.of_nat (List.length (mongodb.products s)) + size <= GoInt.max_int ->
    (query "page_size" = "" -> size = 20)
    /\
    (size = 0 ->
     rest.ListProducts srv ParseFloat MarshalTime query s
     = Panics "runtime error: integer divide by zero")
    /\
    (0 < size ->
     exists resp,
       rest.ListProducts srv ParseFloat MarshalTime query s
       = Returns (if forallb (rest.Marshal_Product MarshalTime)
                       (rest.ListProductsResponse.Products resp)
                  then rest.http_JSON rest.StatusOK resp
                  else rest.http_Status rest.StatusOK)
       /\ rest.ListProductsResponse.Products resp = page_of srv params s
       /\ rest.ListProductsResponse.Total resp = total
       /\ rest.ListProductsResponse.PageSize resp = size
       /\ Z.of_nat (List.length (rest.ListProductsResponse.Products resp)) <= size
       /\ rest.ListProductsResponse.TotalPages resp
          = (if total =? 0 then 1 else pages_needed total size)
       /\ (pages_needed total size - 1) * size < total <= pages_needed total size * size).
Proof.
  intros srv ParseFloat MarshalTime query s Hff params size total Hrange Hmax.
  pose proof (service_ListProducts_page srv params s Hff Hrange) as Hrun.
  fold total in Hrun.
  pose proof (selected_length srv params s) as Hsel.
  assert (Hsize : list_params.PageSize params = size) by reflexivity.
  assert (Htotal : 0 <= total) by (subst total; lia).
  split; [|split].
  - intros Hq. subst size. unfold rest.parseInt. rewrite Hq. reflexivity.
  - intros Hzero. unfold rest.ListProducts. cbv zeta. fold params.
    rewrite Hrun, Hsize, Hzero. reflexivity.
  - intros Hpos. unfold rest.ListProducts. cbv zeta. fold params.
    rewrite Hrun, Hsize.
    rewrite (int_div_pages total size Htotal Hpos) by (subst total; lia).
    unfold rest.Encode.
    eexists. split; [reflexivity|].
    cbn [rest.ListProductsResponse.Total rest.ListProductsResponse.PageSize
         rest.ListProductsResponse.Products rest.ListProductsResponse.TotalPages].
    pose proof (pages_needed_spec total size Htotal Hpos) as Hspec.
    split; [reflexivity|]. split; [reflexivity|]. split; [reflexivity|].
    split; [|split; [|exact Hspec]].
    + rewrite page_of_length.
      unfold page_size_used. rewrite Hsize.
      destruct (Z.leb_spec size 0); lia.
    + destruct (Z.eqb_spec total 0) as [E|E].
      * assert (pages_needed total size = 0) as -> by nia. reflexivity.
      * assert ((pages_needed total size =? 0) = false) as ->
          by (apply Z.eqb_neq; nia).
        reflexivity.
Qed.

Lemma rest_ListProducts_page_count_witness :
  rest.ListProducts (mkServer (fun _ => None) (fun _ _ => true) (fun _ _ l => l))
    (fun _ => None) (fun _ => true)
    (fun key => if String.eqb key "page_size" then "0" else "")
    Sample.two_products
  = Panics "runtime error: integer divide by zero".
Proof.
  assert (Hrange :
    GoInt.in_range
      (page_used (rest.query_params (fun _ => None)
                    (fun key => if String.eqb key "page_size" then "0" else ""))
       * page_size_used (rest.query_params (fun _ => None)
                           (fun key => if String.eqb key "page_size" then "0" else ""))))
    by (vm_compute; split; discriminate).
  assert (Hmax :
    Z.of_nat (List.length (mongodb.products Sample.two_products))
    + rest.parseInt "0" 20 <= GoInt.max_int)
    by (vm_compute; discriminate).
  exact (proj1 (proj2 (rest_ListProducts_page_count
                         (mkServer (fun _ => None) (fun _ _ => true) (fun _ _ l => l))
                         (fun _ => None) (fun _ => true)
                         (fun key => if String.eqb key "page_size" then "0" else "")
                         Sample.two_products (fun _ => eq_refl) Hrange Hmax)) eq_refl).
Defined.

(** X15. Through the handlers, an update that does not mention [active]
    deactivates the product.  For a stored product and no driver failure
    both handlers store the updated document, whose [active] flag is the
    request's when the request carries one and false when it carries none,
    whatever the flag was before.  The gRPC handler replies with the updated
    product.  The REST handler answers 200, with the updated product as body
    when it can be encoded and with an empty body when its price is NaN or
    infinite or the encoder refuses one of its times. *)
Theorem handlers_UpdateProduct_active :
  forall env MarshalTime id objID existing s,
    fault env OpGetByIDFind = None ->
    fault env OpReplaceProduct = None ->
    primitive.ObjectIDFromHex id = Ok objID ->
    mongodb.find_product objID (mongodb.products s) = Some existing ->
    (forall body,
        exists s' updated,
          rest.UpdateProduct env MarshalTime id (Some body) s
          = (s', if rest.Marshal_Product MarshalTime updated
                 then rest.http_JSON rest.StatusOK updated
                 else rest.http_Status rest.StatusOK)
          /\ mongodb.find_product objID (mongodb.products s') = Some (bson_Product updated)
          /\ Active updated = default false (rest.UpdateProductRequest.Active body))
    /\
    (forall req,
        pb.UpdateProductRequest.Id req = id ->
        exists s' updated,
          grpc.UpdateProduct env req s
          = (s', Returns (grpc.Reply (pb.domainToProtoProduct updated)))
          /\ mongodb.find_product objID (mongodb.products s') = Some (bson_Product updated)
          /\ Active updated = default false (pb.UpdateProductRequest.Active req)).
Proof.
  intros env MarshalTime id objID existing s Hget Hrep Hhex Hfind.
  pose proof (ObjectIDFromHex_bound id objID Hhex) as Hbound.
  split.
  - intros body. unfold rest.UpdateProduct. rewrite Hhex. cbv zeta.
    match goal with
    | |- context [service.UpdateProduct env ?P s] => set (product := P)
    end.
    assert (Hid : ID product = objID)
      by (subst product; destruct (rest.UpdateProductRequest.Active body),
            (rest.UpdateProductRequest.Inventory body); reflexivity).
    assert (Hact : Active product = default false (rest.UpdateProductRequest.Active body))
      by (subst product; destruct (rest.UpdateProductRequest.Active body),
            (rest.UpdateProductRequest.Inventory body); reflexivity).
    clearbody product.
    rewrite <- Hid in Hbound, Hfind.
    destruct (service_UpdateProduct_found env product existing s Hbound Hget Hrep Hfind)
      as (s' & calls & Hrun & Hfind' & _).
    rewrite Hrun. exists s', (updated_document env product existing).
    split; [reflexivity|]. rewrite <- Hid. split; [exact Hfind'|].
    rewrite <- Hact. exact (update_fields_Active env product existing).
  - intros req Hreq. unfold grpc.UpdateProduct. rewrite Hreq, Hhex. cbv zeta.
    match goal with
    | |- context [service.UpdateProduct env ?P s] => set (product := P)
    end.
    assert (Hid : ID product = objID /\
                  Active product = default false (pb.UpdateProductRequest.Active req)).
    { subst product.
      destruct (pb.UpdateProductRequest.Name req),
        (pb.UpdateProductRequest.Description req),
        (pb.UpdateProductRequest.Price req),
        (Nat.ltb 0 (List.length (pb.UpdateProductRequest.ImageUrls req))),
        (pb.UpdateProductRequest.Category req),
        (Nat.ltb 0 (List.length (pb.UpdateProductRequest.Tags req))),
        (Nat.ltb 0 (size (pb.UpdateProductRequest.Attributes req))),
        (pb.UpdateProductRequest.Active req),
        (pb.UpdateProductRequest.Inventory req); split; reflexivity. }
    destruct Hid as [Hid Hact].
    clearbody product.
    rewrite <- Hid in Hbound, Hfind.
    destruct (service_UpdateProduct_found env product existing s Hbound Hget Hrep Hfind)
      as (s' & calls & Hrun & Hfind' & _).
    rewrite Hrun. exists s', (updated_document env product existing).
    split; [reflexivity|]. rewrite <- Hid. split; [exact Hfind'|].
    rewrite <- Hact. exact (update_fields_Active env product existing).
Qed.

Lemma handlers_UpdateProduct_active_witness :
  exists s' updated,
    rest.UpdateProduct Sample.env0 (fun _ => true) Sample.id1
      (Some (rest.UpdateProductRequest.mk "gadget" "" float_zero [] "" None [] ∅ None))
      (Sample.shop 4 1)
    = (s', if rest.Marshal_Product (fun _ => true) updated
           then rest.http_JSON rest.StatusOK updated
           else rest.http_Status rest.StatusOK)
    /\ mongodb.find_product Sample.oid1 (mongodb.products s') = Some (bson_Product updated)
    /\ Active updated = false.
Proof.
  exact (proj1 (handlers_UpdateProduct_active Sample.env0 (fun _ => true) Sample.id1
                  Sample.oid1 (Sample.widget 4 1) (Sample.shop 4 1)
                  eq_refl eq_refl eq_refl eq_refl)
           (rest.UpdateProductRequest.mk "gadget" "" float_zero [] "" None [] ∅ None)).
Defined.

Section HandlerStatuses.

Import mongodb.

Lemma service_UpdateInventory_missing env productID objID delta operationID operationType s :
  fault_free env ->
  In operationType vocabulary ->
  primitive.ObjectIDFromHex productID = Ok objID ->
  find_product objID (products s) = None ->
  service.UpdateInventory env productID delta operationID operationType s
  = if is_decrease operationType delta
    then (s, [service.CallCheckStock productID (GoInt.neg delta)],
          Err (fmt_Errorf "stock check error" (errors_New "product not found")))
    else (s, [service.CallUpdateInventory productID delta operationID operationType],
          Err (fmt_Errorf "repository error" ErrNoDocuments)).
Proof.
  intros Hff Hty Hhex Hnone.
  unfold service.UpdateInventory, is_decrease.
  apply validOperationTypes_spec in Hty. rewrite Hty. simpl.
  destruct ((String.eqb operationType "purchase" || String.eqb operationType "reservation")
            && (delta <? 0)).
  - unfold CheckStock, FindOne_product.
    rewrite Hhex, Hff, Hnone. reflexivity.
  - assert (Hrepo :
      UpdateInventory env productID delta operationID operationType s
      = (s, Err ErrNoDocuments)).
    { unfold UpdateInventory, UpdateInventory_txn, tx_bind, driver.
      rewrite Hhex, !Hff. unfold check_duplicate_operation.
      destruct (String.eqb operationID ""); simpl.
      - unfold update_product_inventory, tx_bind, FindOneAndUpdate_inc.
        rewrite Hff, Hnone. reflexivity.
      - unfold FindOne_operation, FindOne_product. rewrite !Hff.
        destruct (find_operation operationID (inventory_operations s)).
        + rewrite Hnone. reflexivity.
        + unfold tx_bind, InsertOne_operation, tx_ret.
          rewrite Hff.
          unfold update_product_inventory, tx_bind, FindOneAndUpdate_inc.
          rewrite Hff. simpl. rewrite Hnone. reflexivity. }
    rewrite Hrepo. reflexivity.
Qed.

Lemma service_UpdateInventory_invalid_type env productID delta operationID operationType s :
  ~ In operationType vocabulary ->
  service.UpdateInventory env productID delta operationID operationType s
  = (s, [], Err (errors_New "invalid operation type")).
Proof.
  intros Hty. unfold service.UpdateInventory.
  destruct (service.map_index service.validOperationTypes operationType) eqn:Hv.
  - apply validOperationTypes_spec in Hv. contradiction.
  - reflexivity.
Qed.

Lemma service_UpdateInventory_insufficient env productID objID product delta operationID
    operationType s :
  is_decrease operationType delta = true ->
  primitive.ObjectIDFromHex productID = Ok objID ->
  fault env OpCheckStockFind = None ->
  find_product objID (products s) = Some product ->
  GoInt.sub (Quantity (Inventory product)) (Reserved (Inventory product)) < GoInt.neg delta ->
  service.UpdateInventory env productID delta operationID operationType s
  = (s, [service.CallCheckStock productID (GoInt.neg delta)],
     Err (errors_New "insufficient stock")).
Proof.
  intros Hdec Hhex Hf Hfind Hlt.
  assert (Hty : operationType = "purchase" \/ operationType = "reservation").
  { unfold is_decrease in Hdec. apply andb_true_iff in Hdec as [Hdec _].
    apply orb_true_iff in Hdec as [H|H]; apply String.eqb_eq in H; auto. }
  unfold service.UpdateInventory.
  rewrite (precheck_type_valid _ Hty). unfold is_decrease in Hdec. rewrite Hdec.
  rewrite (repo_CheckStock_found env productID objID product (GoInt.neg delta) s
             Hhex Hf Hfind).
  cbn [fst snd].
  assert ((GoInt.sub (Quantity (Inventory product)) (Reserved (Inventory product))
           >=? GoInt.neg delta) = false) as ->
    by (rewrite Z.geb_leb; apply Z.leb_gt; exact Hlt).
  reflexivity.
Qed.

Lemma int32_exact z : int32 z = z <-> int32_range z.
Proof.
  split; [|apply int32_small].
  unfold int32, int32_range. intros H.
  pose proof (Z.mod_pos_bound (z + 2 ^ 31) (2 ^ 32) ltac:(lia)). lia.
Qed.

(** An adjustment that passes the pre-check, seen from a caller. *)
Lemma service_UpdateInventory_novel env productID objID p delta operationID operationType s :
  fault_free env ->
  In operationType vocabulary ->
  primitive.ObjectIDFromHex productID = Ok objID ->
  find_product objID (products s) = Some p ->
  operationID = "" \/ find_operation operationID (inventory_operations s) = None ->
  GoInt.in_range (Quantity (Inventory p) + delta) ->
  (is_decrease operationType delta = true ->
   GoInt.neg delta <= GoInt.sub (Quantity (Inventory p)) (Reserved (Inventory p))) ->
  exists calls,
    service.UpdateInventory env productID delta operationID operationType s
    = (committed_store env objID productID delta operationID operationType p s, calls,
       Ok (Inventory (adjusted env delta p))).
Proof.
  intros Hff Hty Hhex Hfind Hkey Hrange Hpre.
  unfold service.UpdateInventory.
  apply validOperationTypes_spec in Hty. rewrite Hty.
  rewrite (repo_UpdateInventory_novel env productID objID p delta operationID
             operationType s Hff Hhex Hfind Hkey Hrange).
  fold (is_decrease operationType delta).
  destruct (is_decrease operationType delta) eqn:Hdec.
  - rewrite (repo_CheckStock_found env productID objID p (GoInt.neg delta) s
               Hhex (Hff _) Hfind).
    cbn [fst snd].
    assert ((GoInt.sub (Quantity (Inventory p)) (Reserved (Inventory p))
             >=? GoInt.neg delta) = true) as ->
      by (rewrite Z.geb_leb; apply Z.leb_le, Hpre; reflexivity).
    eexists. reflexivity.
  - eexists. reflexivity.
Qed.

Lemma wrap_lower z : GoInt.min_int <= GoInt.wrap z.
Proof.
  unfold GoInt.wrap, GoInt.min_int.
  pose proof (Z.mod_pos_bound (z + 2 ^ 63) (2 ^ 64) ltac:(lia)). lia.
Qed.

End HandlerStatuses.

(** X16. The status codes of the REST inventory endpoint.  With a well-formed
    id and no driver failure: an operation type outside the five known ones
    is answered with 500; a product that is not stored is answered with 404
    when the request is a purchase or reservation with negative delta, and
    with 500 carrying the driver's "no documents" text for every other
    request, because only the pre-check words the error as "not found".  For
    a stored product and a purchase or reservation with negative delta that
    asks for more than the available stock (quantity minus reserved): with
    any delta but the minimum int the answer is 400 "insufficient stock" and
    the store is unchanged; with the minimum int, whose negation is itself,
    the pre-check passes, the delta is committed and the answer is 200 with
    the new, negative quantity. *)
Theorem rest_UpdateInventory_status :
  forall env id objID request s,
    fault_free env ->
    primitive.ObjectIDFromHex id = Ok objID ->
    let delta := rest.UpdateInventoryRequest.QuantityChange request in
    let operationType := rest.UpdateInventoryRequest.OperationType request in
    let operationID := rest.UpdateInventoryRequest.OperationID request in
    (~ In operationType vocabulary ->
     rest.UpdateInventory env id (Some request) s
     = (s, rest.http_Error "Failed to update inventory: invalid operation type"
             rest.StatusInternalServerError))
    /\
    (In operationType vocabulary ->
     mongodb.find_product objID (mongodb.products s) = None ->
     rest.UpdateInventory env id (Some request) s
     = (s, if is_decrease operationType delta
           then rest.http_Error "Product not found" rest.StatusNotFound
           else rest.http_Error
                  "Failed to update inventory: repository error: mongo: no documents in result"
                  rest.StatusInternalServerError))
    /\
    (forall product,
        mongodb.find_product objID (mongodb.products s) = Some product ->
        is_decrease operationType delta = true ->
        let quantity := Quantity (Inventory product) in
        let reserved := Reserved (Inventory product) in
        GoInt.in_range (quantity - reserved) ->
        quantity - reserved < - delta ->
        (GoInt.min_int < delta ->
         rest.UpdateInventory env id (Some request) s
         = (s, rest.http_Error "insufficient stock" rest.StatusBadRequest))
        /\
        (delta = GoInt.min_int ->
         0 <= quantity <= GoInt.max_int ->
         operationID = ""
         \/ mongodb.find_operation operationID (mongodb.inventory_operations s) = None ->
         rest.UpdateInventory env id (Some request) s
         = (committed_store env objID id delta operationID operationType product s,
            rest.http_JSON rest.StatusOK
              (rest.UpdateInventoryResponse.mk true
                 (mkInventoryInfo (quantity - 2 ^ 63) (SKU (Inventory product)) false
                    reserved)
                 "Inventory updated successfully")))).
Proof.
  intros env id objID request s Hff Hhex delta operationType operationID.
  split; [|split].
  - intros Hty. unfold rest.UpdateInventory.
    fold delta operationType.
    rewrite (service_UpdateInventory_invalid_type env id delta _ operationType s Hty).
    reflexivity.
  - intros Hty Hnone. unfold rest.UpdateInventory.
    fold delta operationType.
    rewrite (service_UpdateInventory_missing env id objID delta _ operationType s
               Hff Hty Hhex Hnone).
    destruct (is_decrease operationType delta); reflexivity.
  - intros product Hfind Hdec quantity reserved Hrange Hlt.
    assert (Hneg : delta < 0).
    { unfold is_decrease in Hdec. apply andb_true_iff in Hdec as [_ Hdec].
      now apply Z.ltb_lt. }
    assert (Hty : In operationType vocabulary).
    { unfold is_decrease in Hdec. apply andb_true_iff in Hdec as [Hdec _].
      apply orb_true_iff in Hdec as [H|H]; apply String.eqb_eq in H; rewrite H;
        [left; reflexivity|right; right; left; reflexivity]. }
    split.
    + intros Hmin. unfold rest.UpdateInventory.
      fold delta operationType operationID.
      rewrite (service_UpdateInventory_insufficient env id objID product delta operationID
                 operationType s Hdec Hhex (Hff _) Hfind); [reflexivity|].
      fold quantity reserved.
      rewrite (sub_exact quantity reserved Hrange).
      rewrite neg_exact by (unfold GoInt.in_range, GoInt.min_int, GoInt.max_int in *; lia).
      exact Hlt.
    + intros Hmin Hq Hkey.
      destruct (service_UpdateInventory_novel env id objID product delta operationID
                  operationType s Hff Hty Hhex Hfind Hkey) as (calls & Hrun).
      * fold quantity. rewrite Hmin.
        unfold GoInt.in_range, GoInt.min_int, GoInt.max_int in *. lia.
      * intros _. rewrite Hmin.
        change (GoInt.neg GoInt.min_int) with GoInt.min_int.
        apply wrap_lower.
      * unfold rest.UpdateInventory. fold delta operationType operationID.
        rewrite Hrun. unfold adjusted. cbv zeta. fold quantity reserved.
        cbn [Inventory with_UpdatedAt with_Inventory].
        rewrite Hmin.
        assert ((0 <? quantity + GoInt.min_int) = false) as ->
          by (apply Z.ltb_ge; unfold GoInt.min_int, GoInt.max_int in *; lia).
        replace (quantity + GoInt.min_int) with (quantity - 2 ^ 63)
          by (unfold GoInt.min_int; lia).
        reflexivity.
Qed.

Lemma rest_UpdateInventory_status_witness :
  rest.UpdateInventory Sample.env0 (primitive.Hex 9%N)
    (Some (rest.UpdateInventoryRequest.mk 10 "op7" "restock")) (Sample.shop 4 1)
  = (Sample.shop 4 1,
     rest.http_Error
       "Failed to update inventory: repository error: mongo: no documents in result"
       rest.StatusInternalServerError)
  /\ rest.UpdateInventory Sample.env0 (primitive.Hex 9%N)
       (Some (rest.UpdateInventoryRequest.mk (-1) "op7" "purchase")) (Sample.shop 4 1)
     = (Sample.shop 4 1, rest.http_Error "Product not found" rest.StatusNotFound)
  /\ rest.UpdateInventory Sample.env0 Sample.id1
       (Some (rest.UpdateInventoryRequest.mk (-4) "op7" "purchase")) (Sample.shop 4 1)
     = (Sample.shop 4 1, rest.http_Error "insufficient stock" rest.StatusBadRequest)
  /\ snd (rest.UpdateInventory Sample.env0 Sample.id1
            (Some (rest.UpdateInventoryRequest.mk GoInt.min_int "op7" "purchase"))
            (Sample.shop 4 1))
     = rest.http_JSON rest.StatusOK
         (rest.UpdateInventoryResponse.mk true
            (mkInventoryInfo (-9223372036854775804) "W-1" false 1)
            "Inventory updated successfully").
Proof.
  assert (Hff : fault_free Sample.env0) by (intros op; reflexivity).
  assert (Hrestock : In "restock" vocabulary) by (right; left; reflexivity).
  assert (Hpurchase : In "purchase" vocabulary) by (left; reflexivity).
  assert (Hrange : GoInt.in_range (4 - 1)) by (vm_compute; split; discriminate).
  assert (Hlt : 4 - 1 < - -4) by lia.
  assert (Hlt' : 4 - 1 < - GoInt.min_int) by (vm_compute; reflexivity).
  assert (Hmin : GoInt.min_int < -4) by (vm_compute; reflexivity).
  assert (Hq : 0 <= 4 <= GoInt.max_int) by (vm_compute; split; discriminate).
  split; [|split; [|split]].
  - exact (proj1 (proj2 (rest_UpdateInventory_status Sample.env0 (primitive.Hex 9%N) 9%N
                           (rest.UpdateInventoryRequest.mk 10 "op7" "restock")
                           (Sample.shop 4 1) Hff eq_refl)) Hrestock eq_refl).
  - exact (proj1 (proj2 (rest_UpdateInventory_status Sample.env0 (primitive.Hex 9%N) 9%N
                           (rest.UpdateInventoryRequest.mk (-1) "op7" "purchase")
                           (Sample.shop 4 1) Hff eq_refl)) Hpurchase eq_refl).
  - exact (proj1 (proj2 (proj2 (rest_UpdateInventory_status Sample.env0 Sample.id1
                                  Sample.oid1
                                  (rest.UpdateInventoryRequest.mk (-4) "op7" "purchase")
                                  (Sample.shop 4 1) Hff eq_refl))
                    (Sample.widget 4 1) eq_refl eq_refl Hrange Hlt) Hmin).
  - rewrite (proj2 (proj2 (proj2 (rest_UpdateInventory_status Sample.env0 Sample.id1
                                    Sample.oid1
                                    (rest.UpdateInventoryRequest.mk GoInt.min_int "op7"
                                       "purchase")
                                    (Sample.shop 4 1) Hff eq_refl))
                      (Sample.widget 4 1) eq_refl eq_refl Hrange Hlt')
               eq_refl Hq (or_intror eq_refl)).
    reflexivity.
Defined.

(** X17. A product without SKU through the handlers.  For a request with a
    name, a price above zero and a category: the REST handler, given a body
    without inventory, answers 500 with the validation text and stores
    nothing; the gRPC handler, given a request whose inventory message has
    an empty SKU, replies with code Internal and the same text; given a
    request without inventory message, it panics before the service is
    called. *)
Theorem handlers_CreateProduct_without_sku :
  forall env MarshalTime s name description price urls category tags attributes,
    name <> "" ->
    SFleb price float_zero = false ->
    category <> "" ->
    rest.CreateProduct env MarshalTime
      (Some (rest.CreateProductRequest.mk name description price urls category
               (mkInventoryInfo 0 "" false 0) tags attributes)) s
    = (s, rest.http_Error
            "Failed to create product: validation error: product SKU is required"
            rest.StatusInternalServerError)
    /\
    (forall quantity inStock reserved,
        grpc.CreateProduct env
          (pb.CreateProductRequest.mk name description price urls category
             (Some (pb.InventoryInfo.mk quantity "" inStock reserved)) tags attributes) s
        = (s, Returns (grpc.Status grpc.Internal
                         "failed to create product: validation error: product SKU is required")))
    /\
    grpc.CreateProduct env
      (pb.CreateProductRequest.mk name description price urls category None tags
         attributes) s
    = (s, Panics "runtime error: invalid memory address or nil pointer dereference").
Proof.
  intros env MarshalTime s name description price urls category tags attributes Hn Hp Hc.
  assert (Hv : forall inventory,
             SKU inventory = "" ->
             service.validateProduct
               (mkProduct 0%N name description price urls category inventory tags
                  attributes false 0 0)
             = Some (errors_New "product SKU is required")).
  { intros inventory Hsku. unfold service.validateProduct.
    cbn [Name Price Category Inventory]. rewrite Hsku, Hp.
    apply String.eqb_neq in Hn, Hc. rewrite Hn, Hc. reflexivity. }
  split; [|split].
  - unfold rest.CreateProduct, service.CreateProduct.
    cbn [rest.CreateProductRequest.Name rest.CreateProductRequest.Description
         rest.CreateProductRequest.Price rest.CreateProductRequest.ImageURLs
         rest.CreateProductRequest.Category rest.CreateProductRequest.Inventory
         rest.CreateProductRequest.Tags rest.CreateProductRequest.Attributes].
    rewrite (Hv (mkInventoryInfo 0 "" false 0) eq_refl). reflexivity.
  - intros quantity inStock reserved.
    unfold grpc.CreateProduct, service.CreateProduct.
    cbn [pb.CreateProductRequest.Name pb.CreateProductRequest.Description
         pb.CreateProductRequest.Price pb.CreateProductRequest.ImageUrls
         pb.CreateProductRequest.Category pb.CreateProductRequest.Inventory
         pb.CreateProductRequest.Tags pb.CreateProductRequest.Attributes
         pb.InventoryInfo.Quantity pb.InventoryInfo.Sku pb.InventoryInfo.InStock
         pb.InventoryInfo.Reserved].
    rewrite (Hv (mkInventoryInfo quantity "" inStock reserved) eq_refl). reflexivity.
  - reflexivity.
Qed.

Lemma handlers_CreateProduct_without_sku_witness :
  rest.CreateProduct Sample.env0 (fun _ => true)
    (Some (rest.CreateProductRequest.mk "widget" "" (S754_finite false 5 0) [] "tools"
             (mkInventoryInfo 0 "" false 0) [] ∅)) Sample.empty_shop
  = (Sample.empty_shop,
     rest.http_Error "Failed to create product: validation error: product SKU is required"
       rest.StatusInternalServerError).
Proof.
  assert (Hn : "widget" <> "") by discriminate.
  assert (Hc : "tools" <> "") by discriminate.
  exact (proj1 (handlers_CreateProduct_without_sku Sample.env0 (fun _ => true)
                  Sample.empty_shop
                  "widget" "" (S754_finite false 5 0) [] "tools" [] ∅ Hn eq_refl Hc)).
Defined.

(** X18. Reading and deleting by id through the handlers.  With no driver
    failure: for an id that is not 24 characters long the REST handlers
    answer 500 and the gRPC read replies with code NotFound; for a
    well-formed id that is not stored the REST handlers answer 404 and the
    gRPC delete replies with code Internal and a response whose success flag
    is false; for a stored product the gRPC read replies with it, the REST
    read answers 200, with the stored document as body when it can be
    encoded and with an empty body when its price is NaN or infinite or the
    encoder refuses one of its times, and the REST delete answers 204 and,
    ids being unique, leaves no product of that id.  Reads and failed
    deletes leave the store unchanged. *)
Theorem handlers_read_and_delete_by_id :
  forall env srv MarshalTime id s,
    fault env OpGetByIDFind = None ->
    server_fault srv OpDeleteOne = None ->
    (String.length id <> 24%nat ->
     rest.GetProduct env MarshalTime id s
     = rest.http_Error
         "Failed to get product: repository error: the provided hex string is not a valid ObjectID"
         rest.StatusInternalServerError
     /\ grpc.GetProduct env id s
        = Returns (grpc.Status grpc.NotFound
                     "product not found: repository error: the provided hex string is not a valid ObjectID")
     /\ rest.DeleteProduct srv id s
        = (s, rest.http_Error
                "Failed to delete product: repository error: the provided hex string is not a valid ObjectID"
                rest.StatusInternalServerError))
    /\
    (forall objID,
        primitive.ObjectIDFromHex id = Ok objID ->
        mongodb.find_product objID (mongodb.products s) = None ->
        rest.GetProduct env MarshalTime id s
        = rest.http_Error "Product not found" rest.StatusNotFound
        /\ grpc.GetProduct env id s
           = Returns (grpc.Status grpc.NotFound
                        "product not found: repository error: product not found")
        /\ rest.DeleteProduct srv id s
           = (s, rest.http_Error "Product not found" rest.StatusNotFound)
        /\ grpc.DeleteProduct srv id s
           = (s, Returns (grpc.ReplyStatus
                            (pb.DeleteProductResponse.mk false
                               "repository error: product not found")
                            grpc.Internal
                            "failed to delete product: repository error: product not found")))
    /\
    (forall objID product,
        primitive.ObjectIDFromHex id = Ok objID ->
        mongodb.find_product objID (mongodb.products s) = Some product ->
        unique_ids s ->
        rest.GetProduct env MarshalTime id s
        = (if rest.is_finite (Price product)
              && MarshalTime (CreatedAt product) && MarshalTime (UpdatedAt product)
           then rest.http_JSON rest.StatusOK product
           else rest.http_Status rest.StatusOK)
        /\ grpc.GetProduct env id s
           = Returns (grpc.Reply (pb.domainToProtoProduct product))
        /\ exists s',
             rest.DeleteProduct srv id s = (s', rest.http_Status rest.StatusNoContent)
             /\ grpc.DeleteProduct srv id s
                = (s', Returns (grpc.Reply (pb.DeleteProductResponse.mk true
                                              "Product deleted successfully")))
             /\ mongodb.find_product objID (mongodb.products s') = None
             /\ mongodb.inventory_operations s' = mongodb.inventory_operations s).
Proof.
  intros env srv MarshalTime id s Hget Hdel.
  split; [|split].
  - intros Hlen. pose proof (ObjectIDFromHex_length id Hlen) as Hhex.
    unfold rest.GetProduct, grpc.GetProduct, rest.DeleteProduct, service.GetProduct,
      service.DeleteProduct, mongodb.GetByID, mongodb.Delete.
    rewrite Hhex. repeat split; reflexivity.
  - intros objID Hhex Hnone.
    unfold rest.GetProduct, grpc.GetProduct, rest.DeleteProduct, grpc.DeleteProduct,
      service.GetProduct, service.DeleteProduct, mongodb.Delete.
    rewrite (repo_GetByID_missing env id objID s Hhex Hget Hnone).
    rewrite Hhex, Hdel, Hnone. repeat split; reflexivity.
  - intros objID product Hhex Hfind Hu.
    unfold rest.GetProduct, grpc.GetProduct, rest.DeleteProduct, grpc.DeleteProduct,
      service.GetProduct, service.DeleteProduct, mongodb.Delete, mongodb.GetByID,
      mongodb.FindOne_product.
    rewrite Hhex, Hget, Hdel, Hfind.
    split; [reflexivity|]. split; [reflexivity|].
    eexists. split; [reflexivity|]. split; [reflexivity|].
    cbn [mongodb.products mongodb.inventory_operations mongodb.set_products].
    split; [|reflexivity].
    apply find_product_delete_eq, Hu.
Qed.

Lemma handlers_read_and_delete_by_id_witness :
  rest.GetProduct Sample.env0 (fun _ => true) "42" (Sample.shop 4 1)
  = rest.http_Error
      "Failed to get product: repository error: the provided hex string is not a valid ObjectID"
      rest.StatusInternalServerError
  /\ rest.GetProduct Sample.env0 (fun _ => true) (primitive.Hex 9%N) (Sample.shop 4 1)
     = rest.http_Error "Product not found" rest.StatusNotFound
  /\ rest.GetProduct Sample.env0 (fun _ => true) Sample.id1 (Sample.shop 4 1)
     = rest.http_JSON rest.StatusOK (Sample.widget 4 1)
  /\ rest.GetProduct Sample.env0 (fun _ => true) Sample.id1
       (mongodb.mkStore [with_ID Sample.oid1 Sample.nan_priced] [])
     = rest.http_Status rest.StatusOK.
Proof.
  assert (Hlen : String.length "42" <> 24%nat) by discriminate.
  assert (Hu : unique_ids (Sample.shop 4 1))
    by (apply NoDup_cons; split; [apply not_elem_of_nil|apply NoDup_nil_2]).
  assert (Hu' : unique_ids (mongodb.mkStore [with_ID Sample.oid1 Sample.nan_priced] []))
    by (apply NoDup_cons; split; [apply not_elem_of_nil|apply NoDup_nil_2]).
  split; [|split; [|split]].
  - exact (proj1 (proj1 (handlers_read_and_delete_by_id Sample.env0
                           (mkServer (fun _ => None) (fun _ _ => true) (fun _ _ l => l))
                           (fun _ => true) "42" (Sample.shop 4 1) eq_refl eq_refl) Hlen)).
  - exact (proj1 (proj1 (proj2 (handlers_read_and_delete_by_id Sample.env0
                                  (mkServer (fun _ => None) (fun _ _ => true)
                                     (fun _ _ l => l))
                                  (fun _ => true) (primitive.Hex 9%N) (Sample.shop 4 1)
                                  eq_refl eq_refl))
                    9%N eq_refl eq_refl)).
  - exact (proj1 (proj2 (proj2 (handlers_read_and_delete_by_id Sample.env0
                                  (mkServer (fun _ => None) (fun _ _ => true)
                                     (fun _ _ l => l))
                                  (fun _ => true) Sample.id1 (Sample.shop 4 1)
                                  eq_refl eq_refl))
                    Sample.oid1 (Sample.widget 4 1) eq_refl eq_refl Hu)).
  - exact (proj1 (proj2 (proj2 (handlers_read_and_delete_by_id Sample.env0
                                  (mkServer (fun _ => None) (fun _ _ => true)
                                     (fun _ _ l => l))
                                  (fun _ => true) Sample.id1
                                  (mongodb.mkStore [with_ID Sample.oid1 Sample.nan_priced] [])
                                  eq_refl eq_refl))
                    Sample.oid1 (with_ID Sample.oid1 Sample.nan_priced)
                    eq_refl eq_refl Hu')).
Defined.

(** X19. The stock check through the handlers.  For a stored product and no
    driver failure the REST handler answers 200 with the available stock
    (quantity minus reserved), the requested quantity, which is the
    [quantity] query parameter or 1 when that is absent or no number, and
    whether the available stock covers it.  The gRPC handler replies with the
    same verdict for the request's quantity and with the available stock cut
    to 32 bits, which is the available stock exactly when that fits. *)
Theorem handlers_CheckStock :
  forall env id objID product s,
    fault env OpCheckStockFind = None ->
    primitive.ObjectIDFromHex id = Ok objID ->
    mongodb.find_product objID (mongodb.products s) = Some product ->
    let available :=
      GoInt.sub (Quantity (Inventory product)) (Reserved (Inventory product)) in
    (forall quantity,
        rest.CheckStock env id quantity s
        = rest.http_JSON rest.StatusOK
            (rest.CheckStockResponse.mk (available >=? rest.parseInt quantity 1) available
               (rest.parseInt quantity 1))
        /\ (strconv.Atoi quantity = None -> rest.parseInt quantity 1 = 1))
    /\
    (forall requested,
        exists resp,
          grpc.CheckStock env (pb.CheckStockRequest.mk id requested) s
          = Returns (grpc.Reply resp)
          /\ pb.CheckStockResponse.Available resp = (available >=? requested)
          /\ (pb.CheckStockResponse.CurrentStock resp = available <-> int32_range available)).
Proof.
  intros env id objID product s Hf Hhex Hfind available.
  split.
  - intros quantity. split.
    + unfold rest.CheckStock, service.CheckStock. cbv zeta.
      rewrite (repo_CheckStock_found env id objID product _ s Hhex Hf Hfind).
      reflexivity.
    + intros Hq. unfold rest.parseInt. rewrite Hq.
      destruct (String.eqb quantity ""); reflexivity.
  - intros requested. unfold grpc.CheckStock, service.CheckStock.
    cbn [pb.CheckStockRequest.ProductId pb.CheckStockRequest.Quantity].
    rewrite (repo_CheckStock_found env id objID product _ s Hhex Hf Hfind).
    eexists. split; [reflexivity|]. split; [reflexivity|].
    cbn [pb.CheckStockResponse.CurrentStock]. apply int32_exact.
Qed.

Lemma handlers_CheckStock_witness :
  rest.CheckStock Sample.env0 Sample.id1 "abc" (Sample.shop 4 1)
  = rest.http_JSON rest.StatusOK (rest.CheckStockResponse.mk true 3 1)
  /\ rest.CheckStock Sample.env0 Sample.id1 "4" (Sample.shop 4 1)
     = rest.http_JSON rest.StatusOK (rest.CheckStockResponse.mk false 3 4).
Proof.
  split.
  - exact (proj1 (proj1 (handlers_CheckStock Sample.env0 Sample.id1 Sample.oid1
                           (Sample.widget 4 1) (Sample.shop 4 1) eq_refl eq_refl eq_refl)
                    "abc")).
  - exact (proj1 (proj1 (handlers_CheckStock Sample.env0 Sample.id1 Sample.oid1
                           (Sample.widget 4 1) (Sample.shop 4 1) eq_refl eq_refl eq_refl)
                    "4")).
Defined.

(** X20. An adjustment through the gRPC handler.  For a stored product, a
    valid operation type, an idempotency key that is empty or not yet
    recorded, a new quantity within [int] and no driver failure, a request
    that passes the pre-check is committed and the reply reports success
    with the stored inventory: the new quantity cut to 32 bits, which is the
    new quantity exactly when that fits, and the in-stock flag of the new
    quantity.  A pre-checked request that asks for more than the available
    stock changes nothing and is answered with code Internal and a response
    whose success flag is false. *)
Theorem grpc_UpdateInventory_reply :
  forall env req objID product s,
    fault_free env ->
    primitive.ObjectIDFromHex (pb.UpdateInventoryRequest.ProductId req) = Ok objID ->
    mongodb.find_product objID (mongodb.products s) = Some product ->
    let delta := pb.UpdateInventoryRequest.QuantityChange req in
    let operationType := pb.UpdateInventoryRequest.OperationType req in
    let operationID := pb.UpdateInventoryRequest.OperationId req in
    let available :=
      GoInt.sub (Quantity (Inventory product)) (Reserved (Inventory product)) in
    let quantity := Quantity (Inventory product) + delta in
    (In operationType vocabulary ->
     operationID = ""
     \/ mongodb.find_operation operationID (mongodb.inventory_operations s) = None ->
     GoInt.in_range quantity ->
     (is_decrease operationType delta = true -> GoInt.neg delta <= available) ->
     exists s' inventory,
       grpc.UpdateInventory env req s
       = (s', Returns (grpc.Reply (pb.UpdateInventoryResponse.mk true (Some inventory)
                                     "Inventory updated successfully")))
       /\ (exists updated,
              mongodb.find_product objID (mongodb.products s') = Some updated
              /\ Quantity (Inventory updated) = quantity
              /\ InStock (Inventory updated) = (0 <? quantity))
       /\ pb.InventoryInfo.InStock inventory = (0 <? quantity)
       /\ pb.InventoryInfo.Sku inventory = SKU (Inventory product)
       /\ (pb.InventoryInfo.Quantity inventory = quantity <-> int32_range quantity))
    /\
    (is_decrease operationType delta = true ->
     available < GoInt.neg delta ->
     grpc.UpdateInventory env req s
     = (s, Returns (grpc.ReplyStatus
                      (pb.UpdateInventoryResponse.mk false None "insufficient stock")
                      grpc.Internal "failed to update inventory: insufficient stock"))).
Proof.
  intros env req objID product s Hff Hhex Hfind delta operationType operationID
    available quantity.
  split.
  - intros Hty Hkey Hrange Hpre.
    destruct (service_UpdateInventory_novel env _ objID product delta operationID
                operationType s Hff Hty Hhex Hfind Hkey Hrange Hpre) as (calls & Hrun).
    unfold grpc.UpdateInventory. fold delta operationType operationID.
    rewrite Hrun.
    eexists. eexists. split; [reflexivity|].
    split; [|split; [|split]].
    + exists (adjusted env delta product).
      split; [apply committed_store_product; exact Hfind|].
      split; reflexivity.
    + reflexivity.
    + reflexivity.
    + cbn [pb.InventoryInfo.Quantity]. apply int32_exact.
  - intros Hdec Hlt.
    unfold grpc.UpdateInventory. fold delta operationType operationID.
    rewrite (service_UpdateInventory_insufficient env _ objID product delta operationID
               operationType s Hdec Hhex (Hff _) Hfind Hlt).
    reflexivity.
Qed.

Lemma grpc_UpdateInventory_reply_witness :
  grpc.UpdateInventory Sample.env0
    (pb.UpdateInventoryRequest.mk Sample.id1 (-4) "op7" "purchase") (Sample.shop 4 1)
  = (Sample.shop 4 1,
     Returns (grpc.ReplyStatus
                (pb.UpdateInventoryResponse.mk false None "insufficient stock")
                grpc.Internal "failed to update inventory: insufficient stock")).
Proof.
  assert (Hff : fault_free Sample.env0) by (intros op; reflexivity).
  assert (Hlt : GoInt.sub 4 1 < GoInt.neg (-4)) by (vm_compute; reflexivity).
  exact (proj2 (grpc_UpdateInventory_reply Sample.env0
                  (pb.UpdateInventoryRequest.mk Sample.id1 (-4) "op7" "purchase")
                  Sample.oid1 (Sample.widget 4 1) (Sample.shop 4 1) Hff eq_refl eq_refl)
           eq_refl Hlt).
Defined.
